(** * Benchmark harness of xiaozhi-server: a shallow embedding

    The development follows three Python files of [main/xiaozhi-server]:
    - [test_function_calling.py] and [performance_tester_grid_search.py]
      (the two response classifiers [_analyze_function_response]);
    - [performance_tester_en.py] (the probes, the aggregation of the trials
      of a generation backend, [run], [run_with_timeout] and
      [_generate_combinations]).

    Conventions.  A Python [float] is a real number (rounding is not
    modelled); a Python [str] is a [string] of bytes (UTF-8); a Python [dict]
    whose iteration order matters is an association list in insertion order.
    An exception is a value of the error monad [exc]. *)

From Stdlib Require Import List String Ascii Bool Arith ZArith Lia.
From Stdlib Require Import Reals Lra Permutation Sorted.
Import ListNotations.

Set Implicit Arguments.

(* ------------------------------------------------------------------ *)
(** * Python strings *)

Module PyStr.

Open Scope string_scope.

(** [str.lower()] on the ASCII range; other bytes are left as they are. *)
Definition lower_ascii (c : ascii) : ascii :=
  let n := nat_of_ascii c in
  if ((65 <=? n) && (n <=? 90))%nat then ascii_of_nat (n + 32) else c.

Fixpoint lower (s : string) : string :=
  match s with
  | EmptyString => EmptyString
  | String c s' => String (lower_ascii c) (lower s')
  end.

(** [p in s]: [p] occurs in [s] as a substring. *)
Fixpoint contains (p s : string) : bool :=
  if prefix p s then true
  else match s with
       | EmptyString => false
       | String _ s' => contains p s'
       end.

(** [any(x in s for x in xs)] *)
Definition any_in (xs : list string) (s : string) : bool :=
  existsb (fun x => contains x s) xs.

(** The characters [str.strip()] removes, on the ASCII range. *)
Definition is_space (c : ascii) : bool :=
  let n := nat_of_ascii c in
  ((9 <=? n) && (n <=? 13) || (28 <=? n) && (n <=? 32))%nat.

(** [s.strip() != ""]: some character of [s] is not white space. *)
Fixpoint strip_nonempty (s : string) : bool :=
  match s with
  | EmptyString => false
  | String c s' => if is_space c then strip_nonempty s' else true
  end.

(** [len(s)]: the code points of [s], that is the bytes of its UTF-8 form
    that are not continuation bytes (128 to 191). *)
Fixpoint len (s : string) : nat :=
  match s with
  | EmptyString => 0
  | String c s' =>
      let n := nat_of_ascii c in
      if ((128 <=? n) && (n <=? 191))%nat then len s' else S (len s')
  end.

(** Number of elements of [xs] that occur in [s]. *)
Definition count_in (xs : list string) (s : string) : nat :=
  List.length (filter (fun x => contains x s) xs).

End PyStr.

(* ------------------------------------------------------------------ *)
(** * The response classifiers *)

(** The loop [for p in patterns: if p in response_lower: score += w]. *)
Definition score_loop (patterns : list string) (w : nat)
           (response_lower : string) (score : nat) : nat :=
  fold_left
    (fun sc p => if PyStr.contains p response_lower then sc + w else sc)
    patterns score.

(** [test_function_calling.py], class [ESP32FunctionCallingTester]. *)
Module FunctionCalling.

Open Scope string_scope.

Record Scenario := {
  name : string;
  prompt : string;
  expected_function : string;
  description : string
}.

Definition json_patterns : list string :=
  ["get_weather"; "play_music"; "get_news"; "home_control";
   "temperature_control"; "get_time"; "device_status"].

Definition function_keywords : list string :=
  ["function"; "call"; "invoke"; "execute"; "api";
   "weather api"; "music player"; "news feed"; "smart home"].

Definition structured_patterns : list string :=
  ["{"; "}"; "["; "]"; "function_name"; "parameters"].

(** The [if/elif/elif] on the scenario name that closes the scoring. *)
Definition special_case (response_lower : string) (scenario : Scenario)
  : nat :=
  if (name scenario =? "Weather Query")
     && PyStr.any_in ["weather"; "temperature"; "forecast"] response_lower
  then 2
  else if (name scenario =? "Music Playback")
          && PyStr.any_in ["music"; "play"; "song"] response_lower
  then 2
  else if (name scenario =? "News Request")
          && PyStr.any_in ["news"; "article"; "update"] response_lower
  then 2
  else 0.

Definition response_score (response : string) (scenario : Scenario) : nat :=
  let response_lower := PyStr.lower response in
  let score := 0 in
  let score := score_loop json_patterns 3 response_lower score in
  let score := score_loop function_keywords 2 response_lower score in
  let score := score_loop structured_patterns 1 response_lower score in
  score + special_case response_lower scenario.

Definition _analyze_function_response (response : string)
           (scenario : Scenario) : bool :=
  (3 <=? response_score response scenario)%nat.

(** The first entry of [self.test_scenarios]. *)
Definition weather_query : Scenario :=
  {| name := "Weather Query";
     prompt := "What's the weather like in New York today?";
     expected_function := "get_weather";
     description := "Should call weather API function" |}.

End FunctionCalling.

(** [performance_tester_grid_search.py], class
    [GridSearchPerformanceTester]. *)
Module GridSearch.

Open Scope string_scope.

Record Scenario := {
  prompt : string;
  expected_function : string;
  function_keywords : list string
}.

Definition structured_patterns : list string :=
  ["function"; "call"; "api"; "tool"; "action"].

Definition response_score (response : string) (scenario : Scenario) : nat :=
  let response_lower := PyStr.lower response in
  let score := 0 in
  let score :=
    score_loop (function_keywords scenario) 2 response_lower score in
  score_loop structured_patterns 1 response_lower score.

Definition _analyze_function_response (response : string)
           (scenario : Scenario) : bool :=
  (3 <=? response_score response scenario)%nat.

(** The first entry of [self.function_test_scenarios]. *)
Definition weather_scenario : Scenario :=
  {| prompt := "What's the weather like in San Francisco?";
     expected_function := "get_weather";
     function_keywords := ["weather"; "temperature"; "forecast"] |}.

End GridSearch.

Definition weather_reply : string :=
  "The weather today is sunny with temperature around 20 degrees.".

(* ------------------------------------------------------------------ *)
(** * Exceptions, dictionaries, numbers *)

(** A computation that returns a value or raises the named exception. *)
Inductive exc (A : Type) : Type :=
| Ok (a : A)
| Raise (e : string).

Arguments Ok {A} a.
Arguments Raise {A} e.

Definition bind {A B : Type} (c : exc A) (k : A -> exc B) : exc B :=
  match c with
  | Ok a => k a
  | Raise e => Raise e
  end.

Notation "x <- c ;; k" := (bind c (fun x => k))
  (at level 61, c at next level, right associativity).

(** [[f(x) for x in l]] where [f] may raise. *)
Fixpoint mapM {A B : Type} (f : A -> exc B) (l : list A) : exc (list B) :=
  match l with
  | [] => Ok []
  | x :: l' => y <- f x ;; ys <- mapM f l' ;; Ok (y :: ys)
  end.

(** [for x in l: body], the body updating a state [s]. *)
Fixpoint for_each {A S : Type} (l : list A) (body : A -> S -> exc S) (s : S)
  : exc S :=
  match l with
  | [] => Ok s
  | x :: l' => s' <- body x s ;; for_each l' body s'
  end.

(** A [dict] with [str] keys, in insertion order. *)
Module PyDict.

Definition t (V : Type) : Type := list (string * V).

(** [d.get(k)] *)
Fixpoint get {V : Type} (k : string) (d : t V) : option V :=
  match d with
  | [] => None
  | (k', v) :: d' => if String.eqb k k' then Some v else get k d'
  end.

(** [k in d] *)
Definition mem {V : Type} (k : string) (d : t V) : bool :=
  match get k d with Some _ => true | None => false end.

(** [d.get(k, default)] *)
Definition get_default {V : Type} (k : string) (default : V) (d : t V) : V :=
  match get k d with Some v => v | None => default end.

(** [d[k]] *)
Definition getitem {V : Type} (d : t V) (k : string) : exc V :=
  match get k d with Some v => Ok v | None => Raise "KeyError" end.

(** [d[k] = v]: a key that is present keeps its place, a new one goes last. *)
Fixpoint set {V : Type} (k : string) (v : V) (d : t V) : t V :=
  match d with
  | [] => [(k, v)]
  | (k', v') :: d' =>
      if String.eqb k k' then (k, v) :: d' else (k', v') :: set k v d'
  end.

Definition keys {V : Type} (d : t V) : list string := map fst d.

(** The invariant of a dictionary: no key twice. *)
Definition wf {V : Type} (d : t V) : Prop := NoDup (keys d).

End PyDict.

Local Open Scope R_scope.

Definition Rleb (x y : R) : bool := if Rle_dec x y then true else false.
Definition Rltb (x y : R) : bool := if Rlt_dec x y then true else false.

(** [x / y] on floats. *)
Definition pydiv (x y : R) : exc R :=
  if Req_dec_T y 0 then Raise "ZeroDivisionError" else Ok (x / y).

(** Module [statistics] and the built-ins [min], [max]. *)
Module Stats.

Definition sum (xs : list R) : R := fold_right Rplus 0 xs.

Definition mean_of (xs : list R) : R := sum xs / INR (List.length xs).

(** Sum of the squared deviations from the mean. *)
Definition ss (xs : list R) : R :=
  sum (map (fun x => (x - mean_of xs) * (x - mean_of xs)) xs).

(** Sample standard deviation. *)
Definition stdev_of (xs : list R) : R :=
  sqrt (ss xs / (INR (List.length xs) - 1)).

Definition min_of (x : R) (xs : list R) : R := fold_left Rmin xs x.
Definition max_of (x : R) (xs : list R) : R := fold_left Rmax xs x.

Definition mean (xs : list R) : exc R :=
  match xs with
  | [] => Raise "StatisticsError"
  | _ => Ok (mean_of xs)
  end.

Definition stdev (xs : list R) : exc R :=
  if (List.length xs <? 2)%nat then Raise "StatisticsError"
  else Ok (stdev_of xs).

Definition min (xs : list R) : exc R :=
  match xs with
  | [] => Raise "ValueError"
  | x :: xs' => Ok (min_of x xs')
  end.

Definition max (xs : list R) : exc R :=
  match xs with
  | [] => Raise "ValueError"
  | x :: xs' => Ok (max_of x xs')
  end.

(** [statistics.stdev(xs) if len(xs) > 1 else 0] *)
Definition stdev_or_0 (xs : list R) : exc R :=
  if (1 <? List.length xs)%nat then stdev xs else Ok 0.

End Stats.

(** [list.sort(key=...)]: ascending and stable.  Each element is put before
    the first element of the sorted rest whose key is not smaller. *)
Section Sort.
Variable A : Type.
Variable key : A -> R.

Fixpoint insert_by (x : A) (l : list A) : list A :=
  match l with
  | [] => [x]
  | y :: l' =>
      if Rltb (key y) (key x) then y :: insert_by x l' else x :: y :: l'
  end.

Definition sort_by (l : list A) : list A := fold_right insert_by [] l.
End Sort.

(* ------------------------------------------------------------------ *)
(** * [performance_tester_en.py]: data *)

(** The dictionary returned by [_test_llm_performance] when [errors] is 0,
    as it is stored in [self.results["llm"]]. *)
Module Llm.
Record Result := {
  name : string;
  avg_response_time : R;
  min_response_time : R;
  max_response_time : R;
  avg_first_token_time : R;
  min_first_token_time : R;
  max_first_token_time : R;
  std_first_token : R;
  std_response : R;
  avg_response_length : R;
  avg_tokens_per_second : R;
  success_rate : R;
  errors : Z
}.
End Llm.

Module Tts.
Record Result := {
  name : string;
  avg_synthesis_time : R;
  min_synthesis_time : R;
  max_synthesis_time : R;
  std_synthesis_time : R;
  connection_time : R;
  avg_file_size : R;
  errors : Z
}.
End Tts.

Module Stt.
Record Result := {
  name : string;
  avg_processing_time : R;
  min_processing_time : R;
  max_processing_time : R;
  std_processing_time : R;
  connection_time : R;
  success_rate : R;
  errors : Z
}.
End Stt.

Inductive Kind := K_llm | K_tts | K_stt.

(** What a probe returns: the three-key dictionary
    [{"name": .., "type": .., "errors": 1}], or a full result. *)
Inductive ProbeResult :=
| Failed (name : string) (type : Kind)
| LlmDone (r : Llm.Result)
| TtsDone (r : Tts.Result)
| SttDone (r : Stt.Result).

(** [result.get("errors")] *)
Definition errors_of (r : ProbeResult) : Z :=
  match r with
  | Failed _ _ => 1
  | LlmDone r => Llm.errors r
  | TtsDone r => Tts.errors r
  | SttDone r => Stt.errors r
  end.

Record Details := {
  llm_first_token : R;
  llm_stability : R;
  tts_time : R;
  stt_time : R
}.

(** An element of [self.results["combinations"]]; the keys ["llm"], ["tts"],
    ["stt"] are [c_llm], [c_tts], [c_stt]. *)
Record Combination := {
  c_llm : string;
  c_tts : string;
  c_stt : string;
  score : R;
  details : Details
}.

(** [self.results] *)
Record Results := {
  llm : PyDict.t Llm.Result;
  tts : PyDict.t Tts.Result;
  stt : PyDict.t Stt.Result;
  combinations : list Combination
}.

(** [self.results] as [__init__] leaves it. *)
Definition empty_results : Results :=
  {| llm := []; tts := []; stt := []; combinations := [] |}.

(** A backend configuration: the values read by the harness are strings. *)
Definition Config : Type := PyDict.t string.

(** The sections of [self.config] the harness reads; [None] when the
    section is absent. *)
Record Settings := {
  LLM : option (PyDict.t Config);
  TTS : option (PyDict.t Config);
  ASR : option (PyDict.t Config)
}.

(** What one call of [llm.response] is observed to do: the chunks, each with
    the value of [time.time() - sentence_start] when it arrives, and that
    value when the stream ends. *)
Record Stream := {
  chunks : list (string * R);
  elapsed : R
}.

(** The collaborators, as far as the harness observes them.  A generation
    backend maps a sentence to its stream, or raises; a synthesis backend
    maps a text to the time [text_to_speak] took and the size of the file it
    left ([None]: no file); a recognition backend maps the audio to the text
    (or [None]) and the time it took. *)
Definition LlmBackend : Type := string -> exc Stream.
Definition TtsBackend : Type := string -> exc (R * option nat).
Definition SttBackend : Type := string -> exc (option string * R).

Record Collaborators := {
  create_llm_instance : string -> Config -> exc LlmBackend;
  create_tts_instance : string -> Config -> exc TtsBackend;
  create_stt_instance : string -> Config -> exc SttBackend;
  _check_ollama_service : string -> string -> bool
}.

(** The fields of [self] that [__init__] sets and nothing changes. *)
Record Tester := {
  config : Settings;
  test_sentences : list string;
  test_wav_list : list string
}.

(* ------------------------------------------------------------------ *)
(** * [performance_tester_en.py]: the probes *)

Local Open Scope string_scope.
Local Open Scope list_scope.

Definition llm_markers : list string :=
  ["你的"; "placeholder"; "your_"; "sk-xxx"].
Definition token_markers : list string := ["你的"; "placeholder"; "your_"].
Definition coze_markers : list string := ["你的"; "your_"].
Definition token_fields : list string := ["access_token"; "api_key"; "token"].

(** [field in config and any(x in config[field] for x in markers)] *)
Definition field_has_marker (markers : list string) (field : string)
           (config : Config) : bool :=
  match PyDict.get field config with
  | Some v => PyStr.any_in markers v
  | None => false
  end.

(** The test on [token_fields] that [run] and the synthesis and recognition
    probes share. *)
Definition token_not_configured (config : Config) : bool :=
  existsb (fun field => field_has_marker token_markers field config)
          token_fields.

(** The dictionary returned by [_test_single_sentence] (the keys the
    aggregation reads). *)
Record Trial := {
  first_token_time : R;
  response_time : R;
  response_length : nat;
  tokens_per_second : R
}.

(** The time of the first chunk with [chunk.strip() != ""], if any. *)
Definition first_token (cs : list (string * R)) : option R :=
  match find (fun c => PyStr.strip_nonempty (fst c)) cs with
  | Some c => Some (snd c)
  | None => None
  end.

(** [None] is the [return None] of the [except] clause. *)
Definition _test_single_sentence (llm : LlmBackend) (sentence : string)
  : option Trial :=
  match llm sentence with
  | Raise _ => None
  | Ok st =>
      let response_content := String.concat "" (map fst (chunks st)) in
      let response_time := elapsed st in
      let response_length := PyStr.len response_content in
      let tokens_per_second :=
        if Rltb 0 response_time
        then (INR response_length / response_time)%R else 0%R in
      let first_token_time :=
        match first_token (chunks st) with
        | Some t => t
        | None => response_time
        end in
      Some {| first_token_time := first_token_time;
              response_time := response_time;
              response_length := response_length;
              tokens_per_second := tokens_per_second |}
  end.

(** [[r for r in sentence_results if r is not None]] *)
Fixpoint not_none {A : Type} (l : list (option A)) : list A :=
  match l with
  | [] => []
  | Some a :: l' => a :: not_none l'
  | None :: l' => not_none l'
  end.

(** The early returns of [_test_llm_performance], before the instance is
    created: [true] when the probe returns the failure dictionary there. *)
Definition llm_not_configured (ext : Collaborators) (llm_name : string)
           (config : Config) : bool :=
  if llm_name =? "OllamaLLM" then
    let base_url :=
      PyDict.get_default "base_url" "http://localhost:11434" config in
    match PyDict.get "model_name" config with
    | None => true
    | Some model_name =>
        if model_name =? "" then true
        else negb (_check_ollama_service ext base_url model_name)
    end
  else field_has_marker llm_markers "api_key" config.

(** [filtered_times] of [_test_llm_performance]. *)
Definition filtered_times (response_times : list R) : exc (list R) :=
  mean_response <- Stats.mean response_times ;;
  stdev_response <- Stats.stdev_or_0 response_times ;;
  Ok (filter (fun t => Rleb t (mean_response + 3 * stdev_response)%R)
             response_times).

(** [_test_llm_performance] from [# Process results] to its [return]. *)
Definition llm_summary (llm_name : string) (test_sentences : list string)
           (valid_results : list Trial) : exc ProbeResult :=
  match valid_results with
  | [] => Ok (Failed llm_name K_llm)
  | _ =>
      let first_token_times := map first_token_time valid_results in
      let response_times := map response_time valid_results in
      let response_lengths :=
        map (fun r => INR (response_length r)) valid_results in
      let tokens_per_second := map tokens_per_second valid_results in
      filtered <- filtered_times response_times ;;
      if Rltb (INR (List.length filtered))
              (INR (List.length test_sentences) * 0.5)%R
      then Ok (Failed llm_name K_llm)
      else
        avg_response_time <- Stats.mean response_times ;;
        min_response_time <- Stats.min response_times ;;
        max_response_time <- Stats.max response_times ;;
        avg_first_token_time <- Stats.mean first_token_times ;;
        min_first_token_time <- Stats.min first_token_times ;;
        max_first_token_time <- Stats.max first_token_times ;;
        std_first_token <- Stats.stdev_or_0 first_token_times ;;
        std_response <- Stats.stdev_or_0 response_times ;;
        avg_response_length <- Stats.mean response_lengths ;;
        avg_tokens_per_second <- Stats.mean tokens_per_second ;;
        success_rate <- pydiv (INR (List.length valid_results))
                              (INR (List.length test_sentences)) ;;
        Ok (LlmDone
              {| Llm.name := llm_name;
                 Llm.avg_response_time := avg_response_time;
                 Llm.min_response_time := min_response_time;
                 Llm.max_response_time := max_response_time;
                 Llm.avg_first_token_time := avg_first_token_time;
                 Llm.min_first_token_time := min_first_token_time;
                 Llm.max_first_token_time := max_first_token_time;
                 Llm.std_first_token := std_first_token;
                 Llm.std_response := std_response;
                 Llm.avg_response_length := avg_response_length;
                 Llm.avg_tokens_per_second := avg_tokens_per_second;
                 Llm.success_rate := success_rate;
                 Llm.errors := 0 |})
  end.

(** The [try] block of [_test_llm_performance]. *)
Definition llm_try (ext : Collaborators) (self : Tester) (llm_name : string)
           (config : Config) : exc ProbeResult :=
  if llm_not_configured ext llm_name config
  then Ok (Failed llm_name K_llm)
  else
    let module_type := PyDict.get_default "type" llm_name config in
    llm <- create_llm_instance ext module_type config ;;
    let sentence_results :=
      map (_test_single_sentence llm) (test_sentences self) in
    let valid_results := not_none sentence_results in
    llm_summary llm_name (test_sentences self) valid_results.

(** [try: ... except Exception: return {"name": .., "type": .., "errors": 1}] *)
Definition catch (name : string) (type : Kind) (body : exc ProbeResult)
  : ProbeResult :=
  match body with
  | Ok r => r
  | Raise _ => Failed name type
  end.

Definition _test_llm_performance (ext : Collaborators) (self : Tester)
           (llm_name : string) (config : Config) : ProbeResult :=
  catch llm_name K_llm (llm_try ext self llm_name config).

(** The loop over [self.test_sentences[:3]] of [_test_tts_performance];
    [Ok None] is its [return] of the failure dictionary. *)
Fixpoint tts_trials (tts : TtsBackend) (sentences : list string)
         (synthesis_times : list R) (file_sizes : list nat)
  : exc (option (list R * list nat)) :=
  match sentences with
  | [] => Ok (Some (synthesis_times, file_sizes))
  | sentence :: rest =>
      r <- tts sentence ;;
      let synthesis_times := synthesis_times ++ [fst r] in
      match snd r with
      | Some size => tts_trials tts rest synthesis_times (file_sizes ++ [size])
      | None => Ok None
      end
  end.

Definition tts_try (ext : Collaborators) (self : Tester) (tts_name : string)
           (config : Config) : exc ProbeResult :=
  if token_not_configured config then Ok (Failed tts_name K_tts)
  else
    let module_type := PyDict.get_default "type" tts_name config in
    tts <- create_tts_instance ext module_type config ;;
    conn <- tts "Connection test" ;;
    let connection_time := fst conn in
    match snd conn with
    | None => Ok (Failed tts_name K_tts)
    | Some _ =>
        trials <- tts_trials tts (firstn 3 (test_sentences self)) [] [] ;;
        match trials with
        | None => Ok (Failed tts_name K_tts)
        | Some (synthesis_times, file_sizes) =>
            avg_synthesis_time <- Stats.mean synthesis_times ;;
            min_synthesis_time <- Stats.min synthesis_times ;;
            max_synthesis_time <- Stats.max synthesis_times ;;
            std_synthesis_time <- Stats.stdev_or_0 synthesis_times ;;
            avg_file_size <-
              match file_sizes with
              | [] => Ok 0%R
              | _ => Stats.mean (map INR file_sizes)
              end ;;
            Ok (TtsDone
                  {| Tts.name := tts_name;
                     Tts.avg_synthesis_time := avg_synthesis_time;
                     Tts.min_synthesis_time := min_synthesis_time;
                     Tts.max_synthesis_time := max_synthesis_time;
                     Tts.std_synthesis_time := std_synthesis_time;
                     Tts.connection_time := connection_time;
                     Tts.avg_file_size := avg_file_size;
                     Tts.errors := 0 |})
        end
    end.

Definition _test_tts_performance (ext : Collaborators) (self : Tester)
           (tts_name : string) (config : Config) : ProbeResult :=
  catch tts_name K_tts (tts_try ext self tts_name config).

(** The loop over [self.test_wav_list] of [_test_stt_performance]; the state
    is [processing_times] and the length of [recognition_results]. *)
Fixpoint stt_trials (stt : SttBackend) (wavs : list string)
         (processing_times : list R) (recognized : nat)
  : exc (option (list R * nat)) :=
  match wavs with
  | [] => Ok (Some (processing_times, recognized))
  | audio_data :: rest =>
      r <- stt audio_data ;;
      let processing_times := processing_times ++ [snd r] in
      match fst r with
      | Some text =>
          if text =? "" then Ok None
          else stt_trials stt rest processing_times (S recognized)
      | None => Ok None
      end
  end.

Definition stt_try (ext : Collaborators) (self : Tester) (stt_name : string)
           (config : Config) : exc ProbeResult :=
  if token_not_configured config then Ok (Failed stt_name K_stt)
  else
    let module_type := PyDict.get_default "type" stt_name config in
    stt <- create_stt_instance ext module_type config ;;
    match test_wav_list self with
    | [] => Ok (Failed stt_name K_stt)
    | wav0 :: _ =>
        conn <- stt wav0 ;;
        let connection_time := snd conn in
        match fst conn with
        | None => Ok (Failed stt_name K_stt)
        | Some _ =>
            trials <- stt_trials stt (test_wav_list self) [] 0 ;;
            match trials with
            | None => Ok (Failed stt_name K_stt)
            | Some (processing_times, recognized) =>
                avg_processing_time <- Stats.mean processing_times ;;
                min_processing_time <- Stats.min processing_times ;;
                max_processing_time <- Stats.max processing_times ;;
                std_processing_time <- Stats.stdev_or_0 processing_times ;;
                success_rate <-
                  pydiv (INR recognized)
                        (INR (List.length (test_wav_list self))) ;;
                Ok (SttDone
                      {| Stt.name := stt_name;
                         Stt.avg_processing_time := avg_processing_time;
                         Stt.min_processing_time := min_processing_time;
                         Stt.max_processing_time := max_processing_time;
                         Stt.std_processing_time := std_processing_time;
                         Stt.connection_time := connection_time;
                         Stt.success_rate := success_rate;
                         Stt.errors := 0 |})
            end
        end
    end.

Definition _test_stt_performance (ext : Collaborators) (self : Tester)
           (stt_name : string) (config : Config) : ProbeResult :=
  catch stt_name K_stt (stt_try ext self stt_name config).

(* ------------------------------------------------------------------ *)
(** * [performance_tester_en.py]: ranking and the run *)

Definition llm_eligible (v : Llm.Result) : bool :=
  (Llm.errors v =? 0)%Z && Rleb 0.05 (Llm.avg_first_token_time v).
Definition tts_eligible (v : Tts.Result) : bool := (Tts.errors v =? 0)%Z.
Definition stt_eligible (v : Stt.Result) : bool := (Stt.errors v =? 0)%Z.

(** [[k for k, v in d.items() if ok(v)]] *)
Definition valid_keys {V : Type} (ok : V -> bool) (d : PyDict.t V)
  : list string :=
  map fst (filter (fun kv => ok (snd kv)) d).

(** [min([d[k][field] for k in valid]) if valid else 1] *)
Definition baseline {V : Type} (d : PyDict.t V) (field : V -> R)
           (valid : list string) : exc R :=
  match valid with
  | [] => Ok 1%R
  | _ =>
      xs <- mapM (fun k => v <- PyDict.getitem d k ;; Ok (field v)) valid ;;
      Stats.min xs
  end.

(** The body of the innermost loop of [_generate_combinations]. *)
Definition combination (self : Results)
           (min_first_token min_tts_time min_stt_time : R)
           (llm_n tts_n stt_n : string) : exc Combination :=
  lv <- PyDict.getitem (llm self) llm_n ;;
  tv <- PyDict.getitem (tts self) tts_n ;;
  sv <- PyDict.getitem (stt self) stt_n ;;
  llm_score <- pydiv (Llm.avg_first_token_time lv) min_first_token ;;
  tts_score <- pydiv (Tts.avg_synthesis_time tv) min_tts_time ;;
  stt_score <- pydiv (Stt.avg_processing_time sv) min_stt_time ;;
  llm_stability <-
    pydiv (Llm.std_first_token lv) (Llm.avg_first_token_time lv) ;;
  let llm_final_score := (llm_score * 0.7 + llm_stability * 0.3)%R in
  let total_score :=
    (llm_final_score * 0.7 + tts_score * 0.3 + stt_score * 0.3)%R in
  Ok {| c_llm := llm_n;
        c_tts := tts_n;
        c_stt := stt_n;
        score := total_score;
        details :=
          {| llm_first_token := Llm.avg_first_token_time lv;
             llm_stability := llm_stability;
             tts_time := Tts.avg_synthesis_time tv;
             stt_time := Stt.avg_processing_time sv |} |}.

Definition _generate_combinations (self : Results) : exc Results :=
  let valid_llms := valid_keys llm_eligible (llm self) in
  let valid_tts := valid_keys tts_eligible (tts self) in
  let valid_stt := valid_keys stt_eligible (stt self) in
  min_first_token <-
    baseline (llm self) Llm.avg_first_token_time valid_llms ;;
  min_tts_time <- baseline (tts self) Tts.avg_synthesis_time valid_tts ;;
  min_stt_time <- baseline (stt self) Stt.avg_processing_time valid_stt ;;
  combos <-
    for_each valid_llms (fun llm_n =>
      for_each valid_tts (fun tts_n =>
        for_each valid_stt (fun stt_n combos =>
          c <- combination self min_first_token min_tts_time min_stt_time
                           llm_n tts_n stt_n ;;
          Ok (combos ++ [c]))))
      (combinations self) ;;
  Ok {| llm := llm self; tts := tts self; stt := stt self;
        combinations := sort_by score combos |}.

(** A coroutine of [all_tasks]: which probe, for which backend. *)
Record Task := {
  task_kind : Kind;
  task_name : string;
  task_config : Config
}.

(** The two tests of [run] that [continue] past a generation backend. *)
Definition llm_skipped (llm_name : string) (config : Config) : bool :=
  if llm_name =? "CozeLLM" then
    PyStr.any_in coze_markers (PyDict.get_default "bot_id" "" config)
    || PyStr.any_in coze_markers (PyDict.get_default "user_id" "" config)
  else field_has_marker llm_markers "api_key" config.

(** The tasks of one section of the configuration. *)
Definition tasks_of (kind : Kind) (skipped : string -> Config -> bool)
           (section : option (PyDict.t Config)) : list Task :=
  match section with
  | None => []
  | Some d =>
      map (fun kv => {| task_kind := kind; task_name := fst kv;
                        task_config := snd kv |})
          (filter (fun kv => negb (skipped (fst kv) (snd kv))) d)
  end.

(** [all_tasks] of [run]. *)
Definition all_tasks (self : Tester) : list Task :=
  tasks_of K_llm llm_skipped (LLM (config self))
  ++ tasks_of K_tts (fun _ => token_not_configured) (TTS (config self))
  ++ (if (1 <=? List.length (test_wav_list self))%nat
      then tasks_of K_stt (fun _ => token_not_configured)
                    (ASR (config self))
      else []).

(** Awaiting one task. *)
Definition run_task (ext : Collaborators) (self : Tester) (t : Task)
  : ProbeResult :=
  match task_kind t with
  | K_llm => _test_llm_performance ext self (task_name t) (task_config t)
  | K_tts => _test_tts_performance ext self (task_name t) (task_config t)
  | K_stt => _test_stt_performance ext self (task_name t) (task_config t)
  end.

(** The body of the loop [for result in all_results] of [run]. *)
Definition store (results : Results) (result : ProbeResult) : Results :=
  if (errors_of result =? 0)%Z then
    match result with
    | LlmDone r =>
        {| llm := PyDict.set (Llm.name r) r (llm results);
           tts := tts results; stt := stt results;
           combinations := combinations results |}
    | TtsDone r =>
        {| llm := llm results;
           tts := PyDict.set (Tts.name r) r (tts results);
           stt := stt results;
           combinations := combinations results |}
    | SttDone r =>
        {| llm := llm results; tts := tts results;
           stt := PyDict.set (Stt.name r) r (stt results);
           combinations := combinations results |}
    | Failed _ _ => results
    end
  else results.

(** [all_results] of [run]: every probe returns a dictionary, so
    [return_exceptions=True] finds no exception to hand over. *)
Definition all_results (ext : Collaborators) (self : Tester)
  : list ProbeResult :=
  map (run_task ext self) (all_tasks self).

(** [self.results] after the loop [for result in all_results]. *)
Definition collected (ext : Collaborators) (self : Tester)
           (results : Results) : Results :=
  fold_left store (all_results ext self) results.

(** [run], from [self.results = results]; printing and the CSV export are
    left out. *)
Definition run (ext : Collaborators) (self : Tester) (results : Results)
  : exc Results :=
  _generate_combinations (collected ext self results).

(** [run_with_timeout].  [finish t] is the time, in seconds from the start,
    at which the task [t] returns.  [asyncio.wait_for] lets [run] go on when
    the [gather] is done before the deadline; otherwise it cancels [run], which
    is still awaiting the [gather], and raises [TimeoutError]: the handler
    then ranks [self.results] as they are. *)
Definition run_with_timeout (ext : Collaborators) (self : Tester)
           (finish : Task -> nat) (timeout_seconds : nat)
           (results : Results) : exc Results :=
  if forallb (fun t => (finish t <? timeout_seconds)%nat) (all_tasks self)
  then run ext self results
  else _generate_combinations results.

(** The [try] block of the probe a task runs. *)
Definition task_try (ext : Collaborators) (self : Tester) (t : Task)
  : exc ProbeResult :=
  match task_kind t with
  | K_llm => llm_try ext self (task_name t) (task_config t)
  | K_tts => tts_try ext self (task_name t) (task_config t)
  | K_stt => stt_try ext self (task_name t) (task_config t)
  end.

(* ------------------------------------------------------------------ *)
(** * Notions used to state the properties *)

(** [m] is the least element of [xs]. *)
Definition is_min (m : R) (xs : list R) : Prop :=
  In m xs /\ forall x, In x xs -> (m <= x)%R.

(** The entries of a dictionary that pass a test, in insertion order. *)
Definition items {V : Type} (ok : V -> bool) (d : PyDict.t V)
  : list (string * V) :=
  filter (fun kv => ok (snd kv)) d.

(** The baseline of a kind: the least value of the field over the eligible
    entries, 1 when there is none. *)
Definition base {V : Type} (field : V -> R) (its : list (string * V)) : R :=
  match its with
  | [] => 1%R
  | kv :: rest =>
      Stats.min_of (field (snd kv)) (map (fun kv => field (snd kv)) rest)
  end.

(** The score of a triple, as the formula of the ranking writes it. *)
Definition total_score (ml mt ms : R) (lv : Llm.Result) (tv : Tts.Result)
           (sv : Stt.Result) : R :=
  (0.7 * (0.7 * (Llm.avg_first_token_time lv / ml)
          + 0.3 * (Llm.std_first_token lv / Llm.avg_first_token_time lv))
   + 0.3 * (Tts.avg_synthesis_time tv / mt)
   + 0.3 * (Stt.avg_processing_time sv / ms))%R.

Definition mk_combination (ml mt ms : R) (l : string * Llm.Result)
           (t : string * Tts.Result) (s : string * Stt.Result)
  : Combination :=
  {| c_llm := fst l;
     c_tts := fst t;
     c_stt := fst s;
     score :=
       ((Llm.avg_first_token_time (snd l) / ml * 0.7
         + Llm.std_first_token (snd l) / Llm.avg_first_token_time (snd l)
           * 0.3) * 0.7
        + Tts.avg_synthesis_time (snd t) / mt * 0.3
        + Stt.avg_processing_time (snd s) / ms * 0.3)%R;
     details :=
       {| llm_first_token := Llm.avg_first_token_time (snd l);
          llm_stability :=
            (Llm.std_first_token (snd l)
             / Llm.avg_first_token_time (snd l))%R;
          tts_time := Tts.avg_synthesis_time (snd t);
          stt_time := Stt.avg_processing_time (snd s) |} |}.

(** The combinations one call of [_generate_combinations] appends, in the
    order of its three loops. *)
Definition new_combinations (self : Results) : list Combination :=
  let ls := items llm_eligible (llm self) in
  let ts := items tts_eligible (tts self) in
  let ss := items stt_eligible (stt self) in
  let ml := base Llm.avg_first_token_time ls in
  let mt := base Tts.avg_synthesis_time ts in
  let ms := base Stt.avg_processing_time ss in
  flat_map (fun l =>
    flat_map (fun t => map (fun s => mk_combination ml mt ms l t s) ss) ts)
    ls.

(** Which backends a combination names. *)
Definition identity (c : Combination) : string * string * string :=
  (c_llm c, c_tts c, c_stt c).

(** Ascending by score. *)
Definition by_score (a b : Combination) : Prop := (score a <= score b)%R.

(** Measured durations in a result dictionary are positive. *)
Definition tts_times_positive (d : PyDict.t Tts.Result) : Prop :=
  forall k v, In (k, v) d -> Tts.errors v = 0%Z ->
              (0 < Tts.avg_synthesis_time v)%R.
Definition stt_times_positive (d : PyDict.t Stt.Result) : Prop :=
  forall k v, In (k, v) d -> Stt.errors v = 0%Z ->
              (0 < Stt.avg_processing_time v)%R.

(** A result is in the dictionary of its kind, under its name. *)
Definition stored (r : ProbeResult) (results : Results) : Prop :=
  match r with
  | Failed _ _ => False
  | LlmDone x => PyDict.get (Llm.name x) (llm results) = Some x
  | TtsDone x => PyDict.get (Tts.name x) (tts results) = Some x
  | SttDone x => PyDict.get (Stt.name x) (stt results) = Some x
  end.

(** The sections of a configuration are dictionaries. *)
Definition section_wf (section : option (PyDict.t Config)) : Prop :=
  match section with
  | None => True
  | Some d => PyDict.wf d
  end.

Definition settings_wf (c : Settings) : Prop :=
  section_wf (LLM c) /\ section_wf (TTS c) /\ section_wf (ASR c).

(** The kind and the name a probe result carries. *)
Definition result_ident (r : ProbeResult) : Kind * string :=
  match r with
  | Failed name type => (type, name)
  | LlmDone x => (K_llm, Llm.name x)
  | TtsDone x => (K_tts, Tts.name x)
  | SttDone x => (K_stt, Stt.name x)
  end.

Definition task_ident (t : Task) : Kind * string :=
  (task_kind t, task_name t).

(** The names under which a kind has an entry in [self.results]. *)
Definition stored_names (k : Kind) (results : Results) : list string :=
  match k with
  | K_llm => PyDict.keys (llm results)
  | K_tts => PyDict.keys (tts results)
  | K_stt => PyDict.keys (stt results)
  end.

(** The section of the configuration a kind is read from, and the test
    with which [run] passes over a backend of that kind. *)
Definition section_of (c : Settings) (k : Kind) : option (PyDict.t Config) :=
  match k with
  | K_llm => LLM c
  | K_tts => TTS c
  | K_stt => ASR c
  end.

Definition skipped (k : Kind) (name : string) (cfg : Config) : bool :=
  match k with
  | K_llm => llm_skipped name cfg
  | K_tts => token_not_configured cfg
  | K_stt => token_not_configured cfg
  end.

(* ------------------------------------------------------------------ *)
(** * Sample data *)

Definition llm_result (name : string) (avg std : R) : Llm.Result :=
  {| Llm.name := name;
     Llm.avg_response_time := 2; Llm.min_response_time := 2;
     Llm.max_response_time := 2;
     Llm.avg_first_token_time := avg;
     Llm.min_first_token_time := avg; Llm.max_first_token_time := avg;
     Llm.std_first_token := std; Llm.std_response := 0;
     Llm.avg_response_length := 10; Llm.avg_tokens_per_second := 5;
     Llm.success_rate := 1; Llm.errors := 0 |}.

Definition tts_result (name : string) (avg : R) : Tts.Result :=
  {| Tts.name := name;
     Tts.avg_synthesis_time := avg; Tts.min_synthesis_time := avg;
     Tts.max_synthesis_time := avg; Tts.std_synthesis_time := 0;
     Tts.connection_time := 1; Tts.avg_file_size := 1000;
     Tts.errors := 0 |}.

Definition stt_result (name : string) (avg : R) : Stt.Result :=
  {| Stt.name := name;
     Stt.avg_processing_time := avg; Stt.min_processing_time := avg;
     Stt.max_processing_time := avg; Stt.std_processing_time := 0;
     Stt.connection_time := 1; Stt.success_rate := 1;
     Stt.errors := 0 |}.

(** One generation backend, two synthesis backends that are equally fast,
    one recognition backend; [results_ba] holds the same entries as
    [results_ab], the synthesis backends in the other order. *)
Definition results_ab : Results :=
  {| llm := [("L", llm_result "L" 1 0)];
     tts := [("A", tts_result "A" 1); ("B", tts_result "B" 1)];
     stt := [("S", stt_result "S" 1)];
     combinations := [] |}.

Definition results_ba : Results :=
  {| llm := [("L", llm_result "L" 1 0)];
     tts := [("B", tts_result "B" 1); ("A", tts_result "A" 1)];
     stt := [("S", stt_result "S" 1)];
     combinations := [] |}.

(** As [results_ab], with a second generation backend whose average
    first-token time is 0.01, and the second synthesis backend slower. *)
Definition results_fast : Results :=
  {| llm := [("L", llm_result "L" 1 0); ("F", llm_result "F" 0.01 0)];
     tts := [("A", tts_result "A" 1); ("B", tts_result "B" 2)];
     stt := [("S", stt_result "S" 1)];
     combinations := [] |}.

Definition results_fast_rev : Results :=
  {| llm := [("F", llm_result "F" 0.01 0); ("L", llm_result "L" 1 0)];
     tts := [("B", tts_result "B" 2); ("A", tts_result "A" 1)];
     stt := [("S", stt_result "S" 1)];
     combinations := [] |}.

(** The value of [statistics.stdev(xs) if len(xs) > 1 else 0]. *)
Definition stdev_or_0_of (xs : list R) : R :=
  if (1 <? List.length xs)%nat then Stats.stdev_of xs else 0%R.

(** The trials that survive the filter of [_test_llm_performance]. *)
Definition survivors (response_times : list R) : list R :=
  filter (fun t => Rleb t (Stats.mean_of response_times
                           + 3 * stdev_or_0_of response_times)%R)
         response_times.

(** The dictionary [_test_llm_performance] returns with [errors] 0, from the
    trials [valid_results]. *)
Definition llm_record (llm_name : string) (test_sentences : list string)
           (valid_results : list Trial) : Llm.Result :=
  let first_token_times := map first_token_time valid_results in
  let response_times := map response_time valid_results in
  {| Llm.name := llm_name;
     Llm.avg_response_time := Stats.mean_of response_times;
     Llm.min_response_time :=
       Stats.min_of (hd 0%R response_times) (tl response_times);
     Llm.max_response_time :=
       Stats.max_of (hd 0%R response_times) (tl response_times);
     Llm.avg_first_token_time := Stats.mean_of first_token_times;
     Llm.min_first_token_time :=
       Stats.min_of (hd 0%R first_token_times) (tl first_token_times);
     Llm.max_first_token_time :=
       Stats.max_of (hd 0%R first_token_times) (tl first_token_times);
     Llm.std_first_token := stdev_or_0_of first_token_times;
     Llm.std_response := stdev_or_0_of response_times;
     Llm.avg_response_length :=
       Stats.mean_of (map (fun r => INR (response_length r)) valid_results);
     Llm.avg_tokens_per_second :=
       Stats.mean_of (map tokens_per_second valid_results);
     Llm.success_rate :=
       (INR (List.length valid_results)
        / INR (List.length test_sentences))%R;
     Llm.errors := 0 |}.

(** The stream a backend gives for a sentence, when it does not raise. *)
Definition stream_of (llm : LlmBackend) (sentence : string) : option Stream :=
  match llm sentence with
  | Ok st => Some st
  | Raise _ => None
  end.

(** Output length over total latency, for one stream. *)
Definition throughput (st : Stream) : R :=
  (INR (PyStr.len (String.concat "" (map fst (chunks st)))) / elapsed st)%R.

(** The trials of a backend over the test sentences. *)
Definition valid_results_of (llm : LlmBackend) (sentences : list string)
  : list Trial :=
  not_none (map (_test_single_sentence llm) sentences).

(** Collaborators that hand out the generation backend [llm] and have no
    synthesis or recognition backend to offer. *)
Definition ext_of (llm : LlmBackend) : Collaborators :=
  {| create_llm_instance := fun _ _ => Ok llm;
     create_tts_instance := fun _ _ => Raise "ValueError";
     create_stt_instance := fun _ _ => Raise "ValueError";
     _check_ollama_service := fun _ _ => true |}.

(** A tester whose configuration gives the test sentences only. *)
Definition tester_of (sentences : list string) : Tester :=
  {| config := {| LLM := None; TTS := None; ASR := None |};
     test_sentences := sentences;
     test_wav_list := [] |}.

(** A backend that answers two sentences and raises on the others. *)
Definition flaky_llm : LlmBackend :=
  fun sentence =>
    if (sentence =? "q1") || (sentence =? "q2")
    then Ok {| chunks := [("ok", 1%R)]; elapsed := 2%R |}
    else Raise "ConnectionError".

Definition five_sentences : list string := ["q1"; "q2"; "q3"; "q4"; "q5"].

(** A backend that gives 1 character in 1 second for ["q1"] and 3 characters
    in 2 seconds for anything else. *)
Definition two_speeds_llm : LlmBackend :=
  fun sentence =>
    if sentence =? "q1"
    then Ok {| chunks := [("a", 1%R)]; elapsed := 1%R |}
    else Ok {| chunks := [("abc", 1%R)]; elapsed := 2%R |}.

(** A backend that takes 100 seconds for ["q11"] and 1 second for anything
    else. *)
Definition outlier_llm : LlmBackend :=
  fun sentence =>
    if sentence =? "q11"
    then Ok {| chunks := [("ok", 0.5%R)]; elapsed := 100%R |}
    else Ok {| chunks := [("ok", 0.5%R)]; elapsed := 1%R |}.

Definition eleven_sentences : list string :=
  ["q1"; "q2"; "q3"; "q4"; "q5"; "q6"; "q7"; "q8"; "q9"; "q10"; "q11"].

(** The response times [outlier_llm] gives over [eleven_sentences]. *)
Definition outlier_times : list R :=
  [1; 1; 1; 1; 1; 1; 1; 1; 1; 1; 100]%R.

(** A synthesis backend that takes 1 second and leaves a file of 100 bytes. *)
Definition working_tts : TtsBackend := fun _ => Ok (1%R, Some 100%nat).

(** Collaborators whose synthesis factory raises for the type ["bad"]. *)
Definition ext_sample : Collaborators :=
  {| create_llm_instance := fun _ _ => Ok two_speeds_llm;
     create_tts_instance :=
       fun module_type _ =>
         if module_type =? "bad" then Raise "ImportError"
         else Ok working_tts;
     create_stt_instance := fun _ _ => Raise "ValueError";
     _check_ollama_service := fun _ _ => true |}.

Definition tester_with (c : Settings) : Tester :=
  {| config := c; test_sentences := ["q1"; "q2"]; test_wav_list := [] |}.

(** Two synthesis backends, the first of a type the factory rejects. *)
Definition tester_bad_good : Tester :=
  tester_with
    {| LLM := None;
       TTS := Some [("Bad", [("type", "bad")]); ("Good", [("type", "edge")])];
       ASR := None |}.

Definition task_bad : Task :=
  {| task_kind := K_tts; task_name := "Bad";
     task_config := [("type", "bad")] |}.

Definition task_good : Task :=
  {| task_kind := K_tts; task_name := "Good";
     task_config := [("type", "edge")] |}.

(** Three synthesis backends; the third returns after 5 seconds, the others
    after 1 second. *)
Definition tester_three_tts : Tester :=
  tester_with
    {| LLM := None;
       TTS := Some [("A", [("type", "edge")]); ("B", [("type", "edge")]);
                    ("C", [("type", "edge")])];
       ASR := None |}.

Definition finish_1_1_5 (t : Task) : nat :=
  if task_name t =? "C" then 5%nat else 1%nat.

Definition task_tts (name : string) : Task :=
  {| task_kind := K_tts; task_name := name;
     task_config := [("type", "edge")] |}.

(** A synthesis backend whose key is the placeholder of the sample
    configuration. *)
Definition tester_placeholder_tts : Tester :=
  tester_with
    {| LLM := None;
       TTS := Some [("Edge", [("api_key", "your_api_key")])];
       ASR := None |}.

(** Two generation backends: one with a placeholder in its [token] field,
    and [CozeLLM] with a placeholder in its [api_key] field. *)
Definition local_config : Config := [("token", "your_token")].
Definition coze_config : Config :=
  [("api_key", "your_api_key"); ("bot_id", "7400"); ("user_id", "u1")].

Definition tester_placeholder_llm : Tester :=
  tester_with
    {| LLM := Some [("LocalLLM", local_config); ("CozeLLM", coze_config)];
       TTS := None;
       ASR := None |}.

(* ------------------------------------------------------------------ *)
(** * Further notions *)

(** Sum of the squares. *)
Definition sumsq (l : list R) : R := Stats.sum (map (fun x => x * x)%R l).



(** A recognition backend that hears ["hello"] in 1 second, and
    collaborators that hand it out. *)
Definition working_stt : SttBackend := fun _ => Ok (Some "hello", 1%R).

Definition ext_stt : Collaborators :=
  {| create_llm_instance := fun _ _ => Raise "ValueError";
     create_tts_instance := fun _ _ => Raise "ValueError";
     create_stt_instance := fun _ _ => Ok working_stt;
     _check_ollama_service := fun _ _ => false |}.

(** A tester with one audio sample and the two sample sentences. *)
Definition tester_one_wav : Tester :=
  {| config := {| LLM := None; TTS := None; ASR := None |};
     test_sentences := ["q1"; "q2"];
     test_wav_list := ["RIFF"] |}.

(** [c] is an upper-case ASCII letter. *)
Definition is_upper (c : ascii) : bool :=
  let n := nat_of_ascii c in ((65 <=? n) && (n <=? 90))%nat.

(** Some character of [s] is an upper-case ASCII letter. *)
Fixpoint has_upper (s : string) : bool :=
  match s with
  | EmptyString => false
  | String c s' => is_upper c || has_upper s'
  end.

(* ------------------------------------------------------------------ *)
(** * [performance_tester_en.py]: the service check, [__init__], the report *)

(** What the HTTP client is observed to do for a URL: the status of
    [session.get(url, timeout=5)], or an exception; and for the URL of the
    model list, the entries of [data.get("models", [])] after
    [await response.json()], each with its ["name"] ([None]: an entry
    without that key), or an exception. *)
Record Http := {
  get_status : string -> exc nat;
  get_models : string -> exc (list (option string))
}.

(** [any(model["name"] == model_name for model in models)]: an entry without
    ["name"] raises [KeyError] when the search reaches it. *)
Fixpoint any_named (model_name : option string)
         (models : list (option string)) : exc bool :=
  match models with
  | [] => Ok false
  | None :: _ => Raise "KeyError"
  | Some name :: rest =>
      match model_name with
      | Some m => if name =? m then Ok true else any_named model_name rest
      | None => any_named model_name rest
      end
  end.

(** [try: ... except Exception: return False] *)
Definition or_false (c : exc bool) : bool :=
  match c with
  | Ok b => b
  | Raise _ => false
  end.

Module Enhanced.

(** [EnhancedPerformanceTester._check_ollama_service] *)
Definition _check_ollama_service (http : Http) (base_url model_name : string)
  : bool :=
  or_false
    (status <- get_status http (base_url ++ "/api/version")%string ;;
     if negb (status =? 200)%nat then Ok false
     else
       status <- get_status http (base_url ++ "/api/tags")%string ;;
       if (status =? 200)%nat then
         models <- get_models http (base_url ++ "/api/tags")%string ;;
         found <- any_named (Some model_name) models ;;
         if negb found then Ok false else Ok true
       else Ok false).

(** [EnhancedPerformanceTester._check_service_health] *)
Definition _check_service_health (http : Http) (base_url : string) : bool :=
  or_false
    (status <- get_status http (base_url ++ "/health")%string ;;
     Ok (status =? 200)%nat).

(** The default of [test_sentences] in [__init__]. *)
Definition default_test_sentences : list string :=
  ["Hello, please introduce yourself";
   "What's the weather like today?";
   "Please explain quantum computing principles in 100 words";
   "How do I cook pasta?";
   "What are the benefits of renewable energy?"].

(** The loop of [__init__] over [config/assets]: [None] when the directory
    does not exist, otherwise the files with their contents; a file is read
    when its size is above 300 * 1024 bytes. *)
Definition load_wavs (assets : option (list (string * string)))
  : list string :=
  match assets with
  | None => []
  | Some files =>
      map snd
          (filter (fun f => (300 * 1024 <? String.length (snd f))%nat) files)
  end.

(** [__init__]: [module_test_sentences] is
    [config.get("module_test", {}).get("test_sentences")], [None] when one of
    the keys is absent. *)
Definition __init__ (c : Settings)
           (module_test_sentences : option (list string))
           (assets : option (list (string * string))) : Tester :=
  {| config := c;
     test_sentences :=
       match module_test_sentences with
       | Some l => l
       | None => default_test_sentences
       end;
     test_wav_list := load_wavs assets |}.

(** An entry of [self.vram_usage]. *)
Record Vram := {
  used_mb : Z;
  total_mb : Z;
  usage_percent : R
}.

Definition no_vram : Vram :=
  {| used_mb := 0; total_mb := 0; usage_percent := 0 |}.

(** The rows of the tables of [_print_results], before they are formatted. *)
Record LlmRow := {
  lr_name : string;
  lr_first_token : R;
  lr_response : R;
  lr_tokens_per_second : R;
  lr_stability : R;
  lr_success_rate : R
}.

Record VramRow := {
  vr_name : string;
  vr_first_token : R;
  vr_used_mb : Z;
  vr_usage_percent : R;
  vr_tokens_per_second : R
}.

Record Tables := {
  llm_table : list LlmRow;
  tts_table : list (string * R * R * R * R);
  stt_table : list (string * R * R * R * R);
  combo_table : list Combination;
  vram_table : list VramRow
}.

(** The loop that builds [llm_table]. *)
Definition build_llm_table (results : Results) : exc (list LlmRow) :=
  for_each (llm results)
    (fun kv table =>
       let data := snd kv in
       if (Llm.errors data =? 0)%Z then
         stability <- pydiv (Llm.std_first_token data)
                            (Llm.avg_first_token_time data) ;;
         Ok (table ++ [ {| lr_name := fst kv;
                           lr_first_token := Llm.avg_first_token_time data;
                           lr_response := Llm.avg_response_time data;
                           lr_tokens_per_second :=
                             Llm.avg_tokens_per_second data;
                           lr_stability := stability;
                           lr_success_rate := Llm.success_rate data |} ])
       else Ok table)
    [].

(** [_print_results]: the contents of the five tables, in the order in which
    they are built; a table of the source that is not printed because it is
    empty is the empty list. *)
Definition _print_results (results : Results) (vram_usage : PyDict.t Vram)
  : exc Tables :=
  llm_table <- build_llm_table results ;;
  let tts_table :=
    map (fun kv => (fst kv, Tts.avg_synthesis_time (snd kv),
                    Tts.min_synthesis_time (snd kv),
                    Tts.max_synthesis_time (snd kv),
                    Tts.connection_time (snd kv)))
        (filter (fun kv => (Tts.errors (snd kv) =? 0)%Z) (tts results)) in
  let stt_table :=
    map (fun kv => (fst kv, Stt.avg_processing_time (snd kv),
                    Stt.min_processing_time (snd kv),
                    Stt.max_processing_time (snd kv),
                    Stt.success_rate (snd kv)))
        (filter (fun kv => (Stt.errors (snd kv) =? 0)%Z) (stt results)) in
  let combo_table := firstn 5 (combinations results) in
  let vram_table :=
    match vram_usage with
    | [] => []
    | _ =>
        map (fun kv =>
               let vram_info :=
                 PyDict.get_default (fst kv) no_vram vram_usage in
               {| vr_name := fst kv;
                  vr_first_token := Llm.avg_first_token_time (snd kv);
                  vr_used_mb := used_mb vram_info;
                  vr_usage_percent := usage_percent vram_info;
                  vr_tokens_per_second :=
                    Llm.avg_tokens_per_second (snd kv) |})
            (filter (fun kv => (Llm.errors (snd kv) =? 0)%Z) (llm results))
    end in
  Ok {| llm_table := llm_table; tts_table := tts_table;
        stt_table := stt_table; combo_table := combo_table;
        vram_table := vram_table |}.

(** The end of [run]: the ranking, then the report. *)
Definition run_report (results : Results) (vram_usage : PyDict.t Vram)
  : exc (Results * Tables) :=
  ranked <- _generate_combinations results ;;
  tables <- _print_results ranked vram_usage ;;
  Ok (ranked, tables).

End Enhanced.

(** A scenario whose keyword is capitalised. *)
Definition capital_scenario : GridSearch.Scenario :=
  {| GridSearch.prompt := "What's the weather like in San Francisco?";
     GridSearch.expected_function := "get_weather";
     GridSearch.function_keywords := ["Weather"] |}.

(** A server that answers the version request and fails the model list with
    status 500. *)
Definition http_tags_500 : Http :=
  {| get_status :=
       fun url => if url =? "http://localhost:11434/api/version"
                  then Ok 200%nat else Ok 500%nat;
     get_models := fun _ => Raise "ContentTypeError" |}.

(** A server that lists the models ["llama3:8b"] and ["qwen2:7b"]. *)
Definition http_two_models : Http :=
  {| get_status := fun _ => Ok 200%nat;
     get_models := fun _ => Ok [Some "llama3:8b"; Some "qwen2:7b"] |}.

(** A generation result with an average first-token time of 0. *)
Definition results_instant : Results :=
  {| llm := [("L", llm_result "L" 1 0); ("Z", llm_result "Z" 0 0)];
     tts := [("A", tts_result "A" 1)];
     stt := [("S", stt_result "S" 1)];
     combinations := [] |}.

(** The generation results with [errors] 0, in insertion order. *)
Definition error_free_llms (results : Results)
  : list (string * Llm.Result) :=
  filter (fun kv => (Llm.errors (snd kv) =? 0)%Z) (llm results).

(* ------------------------------------------------------------------ *)
(** * [test_function_calling.py]: the test driver *)

(** [s[:n]], on code points: the bytes up to the one that starts the
    code point of index [n]. *)
Fixpoint str_take (n : nat) (s : string) : string :=
  match s with
  | EmptyString => EmptyString
  | String c s' =>
      let b := nat_of_ascii c in
      if ((128 <=? b) && (b <=? 191))%nat then String c (str_take n s')
      else match n with
           | O => EmptyString
           | S n' => String c (str_take n' s')
           end
  end.

(** [s[:n] + "..." if len(s) > n else s] *)
Definition snippet (n : nat) (s : string) : string :=
  if (n <? PyStr.len s)%nat then (str_take n s ++ "...")%string else s.

Module FunctionCallingRun.

Definition dquote : string := String (ascii_of_nat 34) EmptyString.
Definition nl : string := String (ascii_of_nat 10) EmptyString.

Definition scenario (name prompt expected_function description : string)
  : FunctionCalling.Scenario :=
  {| FunctionCalling.name := name;
     FunctionCalling.prompt := prompt;
     FunctionCalling.expected_function := expected_function;
     FunctionCalling.description := description |}.

(** [self.test_scenarios] as [__init__] sets it. *)
Definition test_scenarios : list FunctionCalling.Scenario :=
  [ scenario "Weather Query" "What's the weather like in New York today?"
             "get_weather" "Should call weather API function";
    scenario "Smart Home Control" "Turn on the living room lights"
             "home_control" "Should recognize IoT device control intent";
    scenario "Music Playback" "Play some relaxing music"
             "play_music" "Should call music playback function";
    scenario "News Request" "Tell me the latest news"
             "get_news" "Should call news retrieval function";
    scenario "Temperature Control" "Set the temperature to 22 degrees"
             "temperature_control"
             "Should recognize temperature control intent";
    scenario "Time Query" "What time is it?"
             "get_time" "Should handle time queries";
    scenario "Device Status" "Check if the bedroom fan is on"
             "device_status" "Should query device status";
    scenario "Complex Control" "Turn off all lights and play some jazz music"
             "multiple_functions" "Should handle multiple function calls" ].

(** The f-string [function_prompt]. *)
Definition function_prompt (s : FunctionCalling.Scenario) : string :=
  String.concat ""
    [ nl;
      "You are an IoT assistant with function calling capabilities. "; nl;
      "For the user request: "; dquote; FunctionCalling.prompt s; dquote; nl;
      nl;
      "Available functions:"; nl;
      "- get_weather(location): Get weather information"; nl;
      "- play_music(genre): Play music"; nl;
      "- get_news(source): Get latest news"; nl;
      "- home_control(device, action): Control smart home devices"; nl;
      "- temperature_control(temperature): Set temperature"; nl;
      "- get_time(): Get current time"; nl;
      "- device_status(device): Check device status"; nl;
      nl;
      "Respond with appropriate function calls in JSON format, or provide a direct answer if no function is needed.";
      nl ].

(** A generation backend as this driver observes it: for a prompt, the
    chunks of the reply and the time the reply took, or an exception. *)
Definition Backend : Type := string -> exc (list string * R).

(** An element of [model_results["scenarios"]]. *)
Record ScenarioResult := {
  sr_name : string;
  sr_prompt : string;
  sr_response : string;
  sr_response_time : R;
  function_detected : bool;
  success : bool
}.

(** What [test_model_function_calling] returns: the dictionary of a tested
    model, or the dictionary of the outer [except] clause, which has
    [successful_calls] 0, [success_rate] 0.0 and the key ["error"]. *)
Inductive ModelResults :=
| Tested (model : string) (successful_calls total_tests : nat)
         (scenarios : list ScenarioResult) (success_rate : R)
| ModelError (model : string) (total_tests : nat) (error : string).

(** [data["success_rate"]] *)
Definition rate_of (r : ModelResults) : R :=
  match r with
  | Tested _ _ _ _ rate => rate
  | ModelError _ _ _ => 0%R
  end.

(** The body of the loop over [self.test_scenarios]: the state is
    [successful_calls] and [scenarios]. *)
Definition test_scenario (llm : Backend) (s : FunctionCalling.Scenario)
           (state : nat * list ScenarioResult) : nat * list ScenarioResult :=
  match llm (function_prompt s) with
  | Ok (response_chunks, response_time) =>
      let response := String.concat "" response_chunks in
      let detected :=
        FunctionCalling._analyze_function_response response s in
      let scenario_result :=
        {| sr_name := FunctionCalling.name s;
           sr_prompt := FunctionCalling.prompt s;
           sr_response := snippet 200 response;
           sr_response_time := response_time;
           function_detected := detected;
           success := detected |} in
      ((if detected then S (fst state) else fst state),
       snd state ++ [scenario_result])
  | Raise e =>
      (fst state,
       snd state ++ [ {| sr_name := FunctionCalling.name s;
                         sr_prompt := FunctionCalling.prompt s;
                         sr_response := ("Error: " ++ e)%string;
                         sr_response_time := 0%R;
                         function_detected := false;
                         success := false |} ])
  end.

(** [test_model_function_calling]; [scenarios] is [self.test_scenarios]. *)
Definition test_model_function_calling
           (create_llm_instance : string -> Config -> exc Backend)
           (scenarios : list FunctionCalling.Scenario)
           (model_name : string) (config : Config) : ModelResults :=
  let attempt :=
    let module_type := PyDict.get_default "type" "ollama" config in
    llm <- create_llm_instance module_type config ;;
    let state := fold_left (fun st s => test_scenario llm s st) scenarios
                           (O, []) in
    success_rate <- pydiv (INR (fst state)) (INR (List.length scenarios)) ;;
    Ok (Tested model_name (fst state) (List.length scenarios) (snd state)
               success_rate) in
  match attempt with
  | Ok r => r
  | Raise e => ModelError model_name (List.length scenarios) e
  end.

(** The loop of [run_all_tests] over [llm_configs.items()], from
    [self.results = results]. *)
Definition run_all_tests
           (create_llm_instance : string -> Config -> exc Backend)
           (scenarios : list FunctionCalling.Scenario)
           (llm_configs : PyDict.t Config)
           (results : PyDict.t ModelResults) : PyDict.t ModelResults :=
  fold_left
    (fun res kv =>
       match PyDict.get "type" (snd kv) with
       | Some type =>
           if type =? "ollama" then
             PyDict.set (fst kv)
                        (test_model_function_calling create_llm_instance
                           scenarios (fst kv) (snd kv))
                        res
           else res
       | None => res
       end)
    llm_configs results.

(** [sorted_results] of [_generate_summary_report]: by success rate,
    greatest first; [reverse=True] keeps entries of equal rate in their
    order. *)
Definition sorted_results (results : PyDict.t ModelResults)
  : list (string * ModelResults) :=
  sort_by (fun x => (- rate_of (snd x))%R) results.

(** [best_model] of [_generate_summary_report], when there is one. *)
Definition best_model (results : PyDict.t ModelResults)
  : option (string * ModelResults) :=
  match sorted_results results with
  | [] => None
  | best :: _ => Some best
  end.

End FunctionCallingRun.

(** A backend that names the weather function for every prompt, and a
    factory that hands it out for the type ["ollama"] only. *)
Definition weather_backend : FunctionCallingRun.Backend :=
  fun _ => Ok (["{"; "get_weather"; "}"], 1%R).

Definition ollama_only (module_type : string) (c : Config)
  : exc FunctionCallingRun.Backend :=
  if module_type =? "ollama" then Ok weather_backend
  else Raise "ValueError".

Definition two_model_configs : PyDict.t Config :=
  [("Cloud", [("type", "openai")]); ("Local", [("type", "ollama")])].

(** How many entries of a list of scenario results are successes. *)
Definition count_success (l : list FunctionCallingRun.ScenarioResult) : nat :=
  List.length (filter FunctionCallingRun.success l).

(** The test [model_config.get("type") == "ollama"]. *)
Definition is_ollama (kv : string * Config) : bool :=
  match PyDict.get "type" (snd kv) with
  | Some type => type =? "ollama"
  | None => false
  end.

(* ------------------------------------------------------------------ *)
(** * [performance_tester_grid_search.py]: probes and the grid search *)

Module GridRun.

(** [GridSearchPerformanceTester._check_ollama_service]; [model_name] is
    [config.get("model_name")]. *)
Definition _check_ollama_service (http : Http) (base_url : string)
           (model_name : option string) : bool :=
  or_false
    (status <- get_status http (base_url ++ "/api/version")%string ;;
     if negb (status =? 200)%nat then Ok false
     else
       status <- get_status http (base_url ++ "/api/tags")%string ;;
       if (status =? 200)%nat then
         models <- get_models http (base_url ++ "/api/tags")%string ;;
         found <- any_named model_name models ;;
         if negb found then Ok false else Ok true
       else Ok true).

(** The collaborators of the grid search: the factories receive
    [config.get("type")], which is [None] when the key is absent;
    [vram_after] is what [_get_vram_usage] returns after the trials of a
    model. *)
Record Collaborators := {
  create_llm_instance : option string -> Config -> exc LlmBackend;
  create_tts_instance : option string -> Config -> exc TtsBackend;
  http : Http;
  vram_after : string -> Enhanced.Vram
}.

(** [self.test_sentences] *)
Definition test_sentences : list string :=
  ["Hello, please introduce yourself";
   "What's the weather like today in New York?";
   "Please explain quantum computing in 50 words";
   "Turn on the living room lights";
   "Play some relaxing music";
   "What are the latest news headlines?";
   "Set the temperature to 22 degrees";
   "What time is it?"].

(** [self.function_test_scenarios] *)
Definition function_test_scenarios : list GridSearch.Scenario :=
  [ GridSearch.weather_scenario;
    {| GridSearch.prompt := "Play some jazz music";
       GridSearch.expected_function := "play_music";
       GridSearch.function_keywords := ["music"; "play"; "audio"] |};
    {| GridSearch.prompt := "Tell me the latest news";
       GridSearch.expected_function := "get_news";
       GridSearch.function_keywords := ["news"; "headlines"; "article"] |};
    {| GridSearch.prompt := "What time is it?";
       GridSearch.expected_function := "get_time";
       GridSearch.function_keywords := ["time"; "clock"; "hour"] |} ].

(** [self.tts_models] *)
Definition tts_models : PyDict.t Config :=
  [("EdgeTTS", [("type", "edge"); ("voice", "en-US-AriaNeural")]);
   ("EdgeTTS_Fast",
    [("type", "edge"); ("voice", "en-US-AriaNeural"); ("rate", "+20%")])].

(** An element of [function_results["scenarios"]]. *)
Record ScenarioResult := {
  fs_prompt : string;
  fs_response_time : R;
  fs_function_detected : bool;
  fs_response_snippet : option string;
  fs_error : option string
}.

(** The dictionary [_test_function_calling] returns. *)
Record FunctionResults := {
  total_tests : nat;
  successful_calls : nat;
  scenarios : list ScenarioResult;
  fc_success_rate : R
}.

Definition nl : string := String (ascii_of_nat 10) EmptyString.

(** The prompt of [_test_function_calling]. *)
Definition function_prompt (s : GridSearch.Scenario) : string :=
  String.concat ""
    [ "User request: "; GridSearch.prompt s; nl; nl;
      "Please respond appropriately and use available functions if needed." ].

(** The body of the loop of [_test_function_calling]. *)
Definition test_scenario (llm : LlmBackend) (s : GridSearch.Scenario)
           (state : nat * list ScenarioResult) : nat * list ScenarioResult :=
  match llm (function_prompt s) with
  | Ok st =>
      let response := String.concat "" (map fst (chunks st)) in
      let detected := GridSearch._analyze_function_response response s in
      ((if detected then S (fst state) else fst state),
       snd state ++ [ {| fs_prompt := GridSearch.prompt s;
                         fs_response_time := elapsed st;
                         fs_function_detected := detected;
                         fs_response_snippet := Some (snippet 100 response);
                         fs_error := None |} ])
  | Raise e =>
      (fst state,
       snd state ++ [ {| fs_prompt := GridSearch.prompt s;
                         fs_response_time := 0%R;
                         fs_function_detected := false;
                         fs_response_snippet := None;
                         fs_error := Some e |} ])
  end.

(** [_test_function_calling]; the division raises when there is no
    scenario. *)
Definition _test_function_calling (fts : list GridSearch.Scenario)
           (llm : LlmBackend) : exc FunctionResults :=
  let state := fold_left (fun st s => test_scenario llm s st) fts
                         (O, []) in
  rate <- pydiv (INR (fst state)) (INR (List.length fts)) ;;
  Ok {| total_tests := List.length fts;
        successful_calls := fst state;
        scenarios := snd state;
        fc_success_rate := rate |}.

(** The dictionary [_test_llm_performance] returns with [errors] 0: the
    statistics of the other tester, and the keys of the grid search. *)
Record LlmResult := {
  stats : Llm.Result;
  vram_used_mb : Z;
  vram_usage_percent : R;
  function_calling_success_rate : R;
  function_calling_details : FunctionResults
}.

Record TtsResult := {
  tts_name : string;
  avg_synthesis_time : R;
  min_synthesis_time : R;
  max_synthesis_time : R;
  avg_file_size : R;
  tts_errors : Z
}.

(** [_test_llm_performance] from [# Test function calling] to the end of the
    [try] block. *)
Definition llm_measure (ext : Collaborators) (sentences : list string)
           (fts : list GridSearch.Scenario) (llm_name : string)
           (llm : LlmBackend) (valid_results : list Trial)
  : exc LlmResult :=
  function_results <- _test_function_calling fts llm ;;
  let vram := vram_after ext llm_name in
  let first_token_times := map first_token_time valid_results in
  let response_times := map response_time valid_results in
  let response_lengths :=
    map (fun r => INR (response_length r)) valid_results in
  let tokens_per_second := map tokens_per_second valid_results in
  avg_response_time <- Stats.mean response_times ;;
  min_response_time <- Stats.min response_times ;;
  max_response_time <- Stats.max response_times ;;
  avg_first_token_time <- Stats.mean first_token_times ;;
  min_first_token_time <- Stats.min first_token_times ;;
  max_first_token_time <- Stats.max first_token_times ;;
  std_first_token <- Stats.stdev_or_0 first_token_times ;;
  std_response <- Stats.stdev_or_0 response_times ;;
  avg_response_length <- Stats.mean response_lengths ;;
  avg_tokens_per_second <- Stats.mean tokens_per_second ;;
  success_rate <- pydiv (INR (List.length valid_results))
                        (INR (List.length sentences)) ;;
  Ok {| stats :=
          {| Llm.name := llm_name;
             Llm.avg_response_time := avg_response_time;
             Llm.min_response_time := min_response_time;
             Llm.max_response_time := max_response_time;
             Llm.avg_first_token_time := avg_first_token_time;
             Llm.min_first_token_time := min_first_token_time;
             Llm.max_first_token_time := max_first_token_time;
             Llm.std_first_token := std_first_token;
             Llm.std_response := std_response;
             Llm.avg_response_length := avg_response_length;
             Llm.avg_tokens_per_second := avg_tokens_per_second;
             Llm.success_rate := success_rate;
             Llm.errors := 0 |};
        vram_used_mb := Enhanced.used_mb vram;
        vram_usage_percent := Enhanced.usage_percent vram;
        function_calling_success_rate := fc_success_rate function_results;
        function_calling_details := function_results |}.

(** [_test_llm_performance]: [None] is the failure dictionary
    [{"name": .., "type": "llm", "errors": 1}]; [sentences] and [fts] are
    [self.test_sentences] and [self.function_test_scenarios].  The trials
    are those of [_test_single_sentence], which computes the same four
    values as its namesake of the other tester. *)
Definition _test_llm_performance (ext : Collaborators)
           (sentences : list string) (fts : list GridSearch.Scenario)
           (llm_name : string) (config : Config) : option LlmResult :=
  let attempt : exc (option LlmResult) :=
    match PyDict.get "type" config with
    | Some "ollama" =>
        let base_url :=
          PyDict.get_default "base_url" "http://localhost:11434" config in
        let model_name := PyDict.get "model_name" config in
        if negb (_check_ollama_service (http ext) base_url model_name)
        then Ok None
        else
          llm <- create_llm_instance ext (PyDict.get "type" config) config ;;
          let valid_results :=
            not_none (map (_test_single_sentence llm) sentences) in
          match valid_results with
          | [] => Ok None
          | _ =>
              r <- llm_measure ext sentences fts llm_name llm valid_results ;;
              Ok (Some r)
          end
    | _ => Ok None
    end in
  match attempt with
  | Ok r => r
  | Raise _ => None
  end.

(** The loop of [_test_tts_performance] over [self.test_sentences[:3]]: a
    synthesis time is recorded for each sentence, a file size only when the
    file exists. *)
Fixpoint tts_trials (tts : TtsBackend) (sentences : list string)
         (synthesis_times : list R) (file_sizes : list nat)
  : exc (list R * list nat) :=
  match sentences with
  | [] => Ok (synthesis_times, file_sizes)
  | sentence :: rest =>
      r <- tts sentence ;;
      let synthesis_times := synthesis_times ++ [fst r] in
      match snd r with
      | Some size => tts_trials tts rest synthesis_times (file_sizes ++ [size])
      | None => tts_trials tts rest synthesis_times file_sizes
      end
  end.

(** [_test_tts_performance]; [None] is the failure dictionary. *)
Definition _test_tts_performance (ext : Collaborators)
           (sentences : list string) (name : string) (config : Config)
  : option TtsResult :=
  let attempt : exc TtsResult :=
    tts <- create_tts_instance ext (PyDict.get "type" config) config ;;
    trials <- tts_trials tts (firstn 3 sentences) [] [] ;;
    let synthesis_times := fst trials in
    let file_sizes := snd trials in
    avg <- Stats.mean synthesis_times ;;
    min <- Stats.min synthesis_times ;;
    max <- Stats.max synthesis_times ;;
    avg_size <- match file_sizes with
                | [] => Ok 0%R
                | _ => Stats.mean (map INR file_sizes)
                end ;;
    Ok {| tts_name := name;
          avg_synthesis_time := avg;
          min_synthesis_time := min;
          max_synthesis_time := max;
          avg_file_size := avg_size;
          tts_errors := 0 |} in
  match attempt with
  | Ok r => Some r
  | Raise _ => None
  end.

(** What [_test_combination] returns. *)
Inductive Combo :=
| ConfigNotFound
| ComboDone (llm tts : string) (llm_time tts_time total_time : R)
            (response_length : nat)
| ComboFailed (llm tts : string) (error : string).

(** [_test_combination]; [llm_configs] is [self.config.get("LLM", {})] and
    [models] is [self.tts_models].  An empty configuration is as good as
    none for the test [not llm_config or not tts_config]. *)
Definition _test_combination (ext : Collaborators)
           (llm_configs models : PyDict.t Config)
           (llm_name tts_name : string) : Combo :=
  match PyDict.get llm_name llm_configs, PyDict.get tts_name models with
  | Some (_ :: _ as llm_config), Some (_ :: _ as tts_config) =>
      let attempt : exc Combo :=
        llm <- create_llm_instance ext (PyDict.get "type" llm_config)
                                   llm_config ;;
        tts <- create_tts_instance ext (PyDict.get "type" tts_config)
                                   tts_config ;;
        st <- llm "Hello, how are you today?" ;;
        let llm_time := elapsed st in
        let response_text := String.concat "" (map fst (chunks st)) in
        spoken <- tts (str_take 100 response_text) ;;
        let tts_time := fst spoken in
        Ok (ComboDone llm_name tts_name llm_time tts_time
                      (llm_time + tts_time)%R (PyStr.len response_text)) in
      match attempt with
      | Ok c => c
      | Raise e => ComboFailed llm_name tts_name e
      end
  | _, _ => ConfigNotFound
  end.

(** [self.results] of the grid search (its ["stt"] entry stays empty). *)
Record Results := {
  llm : PyDict.t LlmResult;
  tts : PyDict.t TtsResult;
  combinations : list Combo;
  function_calling : PyDict.t FunctionResults
}.

Definition empty_results : Results :=
  {| llm := []; tts := []; combinations := []; function_calling := [] |}.

(** The first loop of [run_grid_search]: the probe stores its function
    calling results when it succeeds, and the loop stores the result. *)
Definition llm_step (ext : Collaborators) (sentences : list string)
           (fts : list GridSearch.Scenario) (res : Results)
           (kv : string * Config) : Results :=
  match PyDict.get "type" (snd kv) with
  | Some "ollama" =>
      match _test_llm_performance ext sentences fts (fst kv) (snd kv) with
      | Some r =>
          {| llm := PyDict.set (fst kv) r (llm res);
             tts := tts res;
             combinations := combinations res;
             function_calling :=
               PyDict.set (fst kv) (function_calling_details r)
                          (function_calling res) |}
      | None => res
      end
  | _ => res
  end.

(** The second loop. *)
Definition tts_step (ext : Collaborators) (sentences : list string)
           (res : Results) (kv : string * Config) : Results :=
  match _test_tts_performance ext sentences (fst kv) (snd kv) with
  | Some r =>
      {| llm := llm res;
         tts := PyDict.set (fst kv) r (tts res);
         combinations := combinations res;
         function_calling := function_calling res |}
  | None => res
  end.

(** The third loop: the names are those of the two result dictionaries
    when the loop starts. *)
Definition combination_tests (ext : Collaborators)
           (llm_configs models : PyDict.t Config) (res : Results)
  : list Combo :=
  flat_map (fun llm_name =>
              map (fun tts_name =>
                     _test_combination ext llm_configs models
                                       llm_name tts_name)
                  (PyDict.keys (tts res)))
           (PyDict.keys (llm res)).

(** [run_grid_search], from [self.results = results], up to the report. *)
Definition run_grid_search (ext : Collaborators) (sentences : list string)
           (fts : list GridSearch.Scenario)
           (llm_configs models : PyDict.t Config) (results : Results)
  : Results :=
  let res := fold_left (llm_step ext sentences fts) llm_configs results in
  let res := fold_left (tts_step ext sentences) models res in
  {| llm := llm res;
     tts := tts res;
     combinations :=
       combinations res ++ combination_tests ext llm_configs models res;
     function_calling := function_calling res |}.

(** [successful_combos] of [_print_grid_search_results], sorted by total
    time, and the ten that are shown. *)
Definition total_time_of (c : Combo) : R :=
  match c with
  | ComboDone _ _ _ _ total_time _ => total_time
  | _ => 0%R
  end.

Definition is_success (c : Combo) : bool :=
  match c with
  | ComboDone _ _ _ _ _ _ => true
  | _ => false
  end.

Definition shown_combinations (res : Results) : list Combo :=
  firstn 10 (sort_by total_time_of (filter is_success (combinations res))).

End GridRun.

(** A synthesis backend that takes 1 second and leaves no file. *)
Definition silent_tts : TtsBackend := fun _ => Ok (1%R, None).

(** Collaborators of the grid search around one generation backend and one
    synthesis backend. *)
Definition grid_ext (http : Http) (llm : LlmBackend) (tts : TtsBackend)
  : GridRun.Collaborators :=
  {| GridRun.create_llm_instance := fun _ _ => Ok llm;
     GridRun.create_tts_instance := fun _ _ => Ok tts;
     GridRun.http := http;
     GridRun.vram_after := fun _ => Enhanced.no_vram |}.

Definition ext_silent : Collaborators :=
  {| create_llm_instance := fun _ _ => Raise "ValueError";
     create_tts_instance := fun _ _ => Ok silent_tts;
     create_stt_instance := fun _ _ => Raise "ValueError";
     _check_ollama_service := fun _ _ => true |}.

(** A backend that answers the first test sentence of the grid search and
    raises on anything else. *)
Definition greeting_llm : LlmBackend :=
  fun content =>
    if content =? "Hello, please introduce yourself"
    then Ok {| chunks := [("Hi", 0.5%R)]; elapsed := 1%R |}
    else Raise "TimeoutError".

Definition ollama_config : Config :=
  [("type", "ollama"); ("model_name", "llama3:8b")].

(** Every entry of the three result dictionaries has [errors] 0 and is
    stored under its own name. *)
Definition results_clean (r : Results) : Prop :=
  (forall k v, In (k, v) (llm r) -> Llm.errors v = 0%Z /\ Llm.name v = k)
  /\ (forall k v, In (k, v) (tts r) -> Tts.errors v = 0%Z /\ Tts.name v = k)
  /\ (forall k v, In (k, v) (stt r) -> Stt.errors v = 0%Z /\ Stt.name v = k).

(** The three result dictionaries have no key twice. *)
Definition results_wf (r : Results) : Prop :=
  PyDict.wf (llm r) /\ PyDict.wf (tts r) /\ PyDict.wf (stt r).



(** Results of a grid search with a failed and a timed combination. *)
Definition grid_results_sample : GridRun.Results :=
  {| GridRun.llm := [];
     GridRun.tts := [];
     GridRun.combinations :=
       [GridRun.ComboFailed "Local" "EdgeTTS" "TimeoutError";
        GridRun.ComboDone "Local" "EdgeTTS" 1 2 3 5];
     GridRun.function_calling := [] |}.

(* ------------------------------------------------------------------ *)
(** * Dictionaries *)

Unset Implicit Arguments.

Section DictFacts.
Context {V : Type}.
Implicit Types (d : PyDict.t V) (k : string) (v : V).

Lemma get_some_in d k v : PyDict.get k d = Some v -> In (k, v) d.
Proof.
  induction d as [|[k' v'] d IH]; simpl; [discriminate|].
  destruct (String.eqb_spec k k') as [->|Hne].
  - intros [= ->]. now left.
  - intros H. right. now apply IH.
Qed.

Lemma get_in d k v : PyDict.wf d -> In (k, v) d -> PyDict.get k d = Some v.
Proof.
  unfold PyDict.wf, PyDict.keys.
  induction d as [|[k' v'] d IH]; simpl; [easy|].
  intros Hnd [Heq|Hin].
  - injection Heq as -> ->. now rewrite String.eqb_refl.
  - inversion Hnd as [|? ? Hnotin Hnd']; subst.
    destruct (String.eqb_spec k k') as [->|Hne].
    + exfalso. apply Hnotin. now apply (in_map fst) in Hin.
    + now apply IH.
Qed.

Lemma get_none_notin d k : PyDict.get k d = None -> ~ In k (PyDict.keys d).
Proof.
  unfold PyDict.keys.
  induction d as [|[k' v'] d IH]; simpl; [tauto|].
  destruct (String.eqb_spec k k') as [->|Hne]; [discriminate|].
  intros H [Heq|Hin]; [congruence|]. now apply IH.
Qed.

Lemma get_notin d k : ~ In k (PyDict.keys d) -> PyDict.get k d = None.
Proof.
  intros Hn. destruct (PyDict.get k d) as [v|] eqn:E; [|reflexivity].
  exfalso. apply Hn. apply get_some_in in E.
  now apply (in_map fst) in E.
Qed.

Lemma keys_set d k v :
  forall k', In k' (PyDict.keys (PyDict.set k v d))
             <-> k' = k \/ In k' (PyDict.keys d).
Proof.
  unfold PyDict.keys.
  induction d as [|[k0 v0] d IH]; simpl; intros k'.
  - intuition.
  - destruct (String.eqb_spec k k0) as [->|Hne]; simpl.
    + intuition.
    + rewrite IH. intuition.
Qed.

Lemma get_set_same d k v : PyDict.get k (PyDict.set k v d) = Some v.
Proof.
  induction d as [|[k0 v0] d IH]; simpl.
  - now rewrite String.eqb_refl.
  - destruct (String.eqb_spec k k0) as [->|Hne]; simpl.
    + now rewrite String.eqb_refl.
    + destruct (String.eqb_spec k k0); [contradiction|exact IH].
Qed.

Lemma get_set_other d k v k' :
  k' <> k -> PyDict.get k' (PyDict.set k v d) = PyDict.get k' d.
Proof.
  intros Hne.
  induction d as [|[k0 v0] d IH]; simpl.
  - destruct (String.eqb_spec k' k); [contradiction|reflexivity].
  - destruct (String.eqb_spec k k0) as [->|Hne0]; simpl.
    + destruct (String.eqb_spec k' k0); [contradiction|reflexivity].
    + destruct (String.eqb_spec k' k0); [reflexivity|exact IH].
Qed.

Lemma items_in (ok : V -> bool) d kv :
  In kv (items ok d) <-> In kv d /\ ok (snd kv) = true.
Proof. unfold items. apply filter_In. Qed.

Lemma valid_keys_items (ok : V -> bool) d :
  valid_keys ok d = map fst (items ok d).
Proof. reflexivity. Qed.

Lemma wf_perm d d' : Permutation d d' -> PyDict.wf d -> PyDict.wf d'.
Proof.
  unfold PyDict.wf, PyDict.keys. intros HP.
  apply Permutation_NoDup. now apply Permutation_map.
Qed.

Lemma items_perm (ok : V -> bool) d d' :
  Permutation d d' -> Permutation (items ok d) (items ok d').
Proof.
  unfold items.
  induction 1 as [|x l l' _ IH|x y l|l l' l'' _ IH1 _ IH2]; simpl.
  - constructor.
  - destruct (ok (snd x)); [now constructor|exact IH].
  - destruct (ok (snd x)), (ok (snd y)); try reflexivity. constructor.
  - now transitivity (filter (fun kv => ok (snd kv)) l').
Qed.
End DictFacts.

(* ------------------------------------------------------------------ *)
(** * Loops in the error monad *)

Lemma mapM_ok {A B : Type} (f : A -> exc B) (g : A -> B) (l : list A) :
  (forall x, In x l -> f x = Ok (g x)) -> mapM f l = Ok (map g l).
Proof.
  induction l as [|x l IH]; simpl; intros H; [reflexivity|].
  rewrite (H x) by now left. simpl.
  rewrite IH by (intros; apply H; now right). reflexivity.
Qed.

Lemma for_each_extend {A C : Type} (l : list A)
      (body : A -> list C -> exc (list C)) (g : A -> list C) :
  (forall x s, In x l -> body x s = Ok (s ++ g x)) ->
  forall s, for_each l body s = Ok (s ++ flat_map g l).
Proof.
  induction l as [|x l IH]; simpl; intros H s.
  - now rewrite app_nil_r.
  - rewrite H by now left. simpl.
    rewrite IH by (intros; apply H; now right).
    now rewrite app_assoc.
Qed.

Lemma flat_map_single {A B : Type} (f : A -> B) (l : list A) :
  flat_map (fun x => [f x]) l = map f l.
Proof. induction l; simpl; congruence. Qed.

Lemma flat_map_fst {A B C : Type} (g : A -> list C) (l : list (A * B)) :
  flat_map g (map fst l) = flat_map (fun kv => g (fst kv)) l.
Proof. induction l; simpl; congruence. Qed.

Lemma flat_map_ext_in {A B : Type} (f g : A -> list B) (l : list A) :
  (forall x, In x l -> f x = g x) -> flat_map f l = flat_map g l.
Proof.
  induction l as [|x l IH]; simpl; intros H; [reflexivity|].
  rewrite H by now left. rewrite IH; [reflexivity|].
  intros; apply H; now right.
Qed.

Lemma flat_map_perm_ext {A B : Type} (f g : A -> list B) (l : list A) :
  (forall x, In x l -> Permutation (f x) (g x)) ->
  Permutation (flat_map f l) (flat_map g l).
Proof.
  induction l as [|x l IH]; simpl; intros H; [constructor|].
  apply Permutation_app; [apply H; now left|].
  apply IH. intros; apply H; now right.
Qed.

(* ------------------------------------------------------------------ *)
(** * Real comparisons, minimum *)

Lemma Rleb_true x y : (x <= y)%R -> Rleb x y = true.
Proof. unfold Rleb. destruct (Rle_dec x y); tauto. Qed.

Lemma Rleb_false x y : (y < x)%R -> Rleb x y = false.
Proof. unfold Rleb. destruct (Rle_dec x y); [lra|reflexivity]. Qed.

Lemma Rleb_spec x y : Rleb x y = true <-> (x <= y)%R.
Proof. unfold Rleb. destruct (Rle_dec x y); intuition discriminate. Qed.

Lemma Rltb_true x y : (x < y)%R -> Rltb x y = true.
Proof. unfold Rltb. destruct (Rlt_dec x y); tauto. Qed.

Lemma Rltb_false x y : (y <= x)%R -> Rltb x y = false.
Proof. unfold Rltb. destruct (Rlt_dec x y); [lra|reflexivity]. Qed.

Lemma Rltb_spec x y : Rltb x y = true <-> (x < y)%R.
Proof. unfold Rltb. destruct (Rlt_dec x y); intuition discriminate. Qed.

Lemma pydiv_ok x y : y <> 0%R -> pydiv x y = Ok (x / y)%R.
Proof. unfold pydiv. destruct (Req_dec_T y 0); tauto. Qed.

Lemma min_of_is_min x xs : is_min (Stats.min_of x xs) (x :: xs).
Proof.
  unfold Stats.min_of. revert x.
  induction xs as [|y ys IH]; intros x; simpl.
  - split; [now left|]. intros z [<-|[]]. lra.
  - destruct (IH (Rmin x y)) as [Hin Hle]. split.
    + destruct Hin as [Heq|Hin]; [|now right; right].
      rewrite <- Heq. unfold Rmin.
      destruct (Rle_dec x y); [now left|right; now left].
    + intros z Hz.
      assert (Hm : (fold_left Rmin ys (Rmin x y) <= Rmin x y)%R)
        by (apply Hle; now left).
      destruct Hz as [<-|[<-|Hz]].
      * pose proof (Rmin_l x y). lra.
      * pose proof (Rmin_r x y). lra.
      * apply Hle. now right.
Qed.

Lemma is_min_unique m m' xs xs' :
  (forall x, In x xs <-> In x xs') -> is_min m xs -> is_min m' xs' -> m = m'.
Proof.
  intros Heq [Hin Hle] [Hin' Hle'].
  apply Rle_antisym.
  - apply Hle. now apply Heq.
  - apply Hle'. now apply Heq.
Qed.

Lemma base_is_min {V : Type} (field : V -> R) (its : list (string * V)) :
  its <> [] -> is_min (base field its) (map (fun kv => field (snd kv)) its).
Proof.
  destruct its as [|kv rest]; [congruence|]. intros _. simpl.
  apply min_of_is_min.
Qed.

Lemma base_perm {V : Type} (field : V -> R) (its its' : list (string * V)) :
  Permutation its its' -> base field its = base field its'.
Proof.
  intros HP.
  destruct its as [|kv rest].
  - apply Permutation_nil in HP. now subst.
  - destruct its' as [|kv' rest'].
    + apply Permutation_sym, Permutation_nil in HP. discriminate.
    + eapply is_min_unique; [|apply base_is_min|apply base_is_min];
        try discriminate.
      intros x. split; apply Permutation_in; apply Permutation_map;
        [exact HP|now apply Permutation_sym].
Qed.

Lemma base_lower_bound {V : Type} (field : V -> R) (its : list (string * V))
      (b : R) :
  (b <= 1)%R -> (forall kv, In kv its -> (b <= field (snd kv))%R) ->
  (b <= base field its)%R.
Proof.
  intros H1 H. destruct its as [|kv rest]; [exact H1|].
  destruct (base_is_min field (kv :: rest)) as [Hin _];
    [discriminate|].
  apply in_map_iff in Hin. destruct Hin as [kv' [<- Hin]]. now apply H.
Qed.

Lemma base_pos {V : Type} (field : V -> R) (its : list (string * V)) :
  (forall kv, In kv its -> (0 < field (snd kv))%R) ->
  (0 < base field its)%R.
Proof.
  intros H. destruct its as [|kv rest]; [simpl; lra|].
  destruct (base_is_min field (kv :: rest)) as [Hin _];
    [discriminate|].
  apply in_map_iff in Hin. destruct Hin as [kv' [<- Hin]]. now apply H.
Qed.

(* ------------------------------------------------------------------ *)
(** * The stable sort *)

Section SortFacts.
Context {A : Type} (key : A -> R).

Let le_key (a b : A) : Prop := (key a <= key b)%R.

Lemma insert_by_perm x l : Permutation (insert_by key x l) (x :: l).
Proof.
  induction l as [|y l IH]; simpl; [reflexivity|].
  destruct (Rltb (key y) (key x)); [|reflexivity].
  rewrite IH. constructor.
Qed.

Lemma sort_by_perm l : Permutation (sort_by key l) l.
Proof.
  induction l as [|x l IH]; simpl; [constructor|].
  rewrite insert_by_perm. now constructor.
Qed.

Lemma insert_by_sorted x l :
  StronglySorted le_key l -> StronglySorted le_key (insert_by key x l).
Proof.
  induction 1 as [|y l Hs IH Hall]; simpl.
  - repeat constructor.
  - destruct (Rltb (key y) (key x)) eqn:E.
    + apply Rltb_spec in E. constructor; [exact IH|].
      apply Forall_forall. intros z Hz.
      apply (Permutation_in _ (insert_by_perm x l)) in Hz.
      destruct Hz as [<-|Hz]; [unfold le_key; lra|].
      now apply (proj1 (Forall_forall _ _) Hall).
    + assert (Hxy : (key x <= key y)%R).
      { unfold Rltb in E. destruct (Rlt_dec (key y) (key x));
          [discriminate|lra]. }
      constructor; [now constructor|].
      constructor; [exact Hxy|].
      apply Forall_forall. intros z Hz.
      pose proof (proj1 (Forall_forall _ _) Hall z Hz) as Hyz.
      unfold le_key in *. lra.
Qed.

Lemma sort_by_sorted l : StronglySorted le_key (sort_by key l).
Proof.
  induction l as [|x l IH]; simpl; [constructor|].
  now apply insert_by_sorted.
Qed.

Lemma key_injective_on l a b :
  NoDup (map key l) -> In a l -> In b l -> key a = key b -> a = b.
Proof.
  induction l as [|x l IH]; simpl; [tauto|].
  intros Hnd Ha Hb Hk. inversion Hnd as [|? ? Hnotin Hnd']; subst.
  destruct Ha as [<-|Ha], Hb as [<-|Hb]; auto.
  - exfalso. apply Hnotin. rewrite Hk. now apply in_map.
  - exfalso. apply Hnotin. rewrite <- Hk. now apply in_map.
Qed.

Lemma sorted_perm_unique l1 l2 :
  StronglySorted le_key l1 -> StronglySorted le_key l2 ->
  Permutation l1 l2 -> NoDup (map key l1) -> l1 = l2.
Proof.
  intros Hs1. revert l2.
  induction Hs1 as [|a l1 Hs1 IH Hall1]; intros l2 Hs2 HP Hnd.
  - apply Permutation_nil in HP. now subst.
  - destruct Hs2 as [|b l2 Hs2 Hall2].
    + apply Permutation_sym, Permutation_nil in HP. discriminate.
    + assert (Hab : a = b).
      { apply (key_injective_on (a :: l1)); auto.
        - now left.
        - apply (Permutation_in _ (Permutation_sym HP)). now left.
        - apply Rle_antisym.
          + assert (Hb : In b (a :: l1))
              by (apply (Permutation_in _ (Permutation_sym HP)); now left).
            destruct Hb as [<-|Hb]; [lra|].
            now apply (proj1 (Forall_forall _ _) Hall1).
          + assert (Ha : In a (b :: l2))
              by (apply (Permutation_in _ HP); now left).
            destruct Ha as [<-|Ha]; [lra|].
            now apply (proj1 (Forall_forall _ _) Hall2). }
      subst b. f_equal.
      apply IH; auto.
      * now apply Permutation_cons_inv in HP.
      * now inversion Hnd.
Qed.
End SortFacts.

(* ------------------------------------------------------------------ *)
(** * [_generate_combinations] and its combinations *)

Lemma llm_eligible_spec v :
  llm_eligible v = true
  <-> Llm.errors v = 0%Z /\ (0.05 <= Llm.avg_first_token_time v)%R.
Proof.
  unfold llm_eligible. rewrite andb_true_iff, Z.eqb_eq, Rleb_spec. tauto.
Qed.

Lemma baseline_ok {V : Type} (d : PyDict.t V) (field : V -> R)
      (ok : V -> bool) :
  PyDict.wf d ->
  baseline d field (valid_keys ok d) = Ok (base field (items ok d)).
Proof.
  intros Hwf. unfold baseline. rewrite valid_keys_items.
  destruct (items ok d) as [|kv rest] eqn:E; [reflexivity|].
  change (map fst (kv :: rest)) with (fst kv :: map fst rest).
  cbv beta iota.
  change (fst kv :: map fst rest) with (map fst (kv :: rest)).
  assert (H : mapM (fun k => v <- PyDict.getitem d k ;; Ok (field v))
                   (map fst (kv :: rest))
              = Ok (map (fun kv => field (snd kv)) (kv :: rest))).
  { rewrite <- E.
    assert (Hsub : forall x, In x (items ok d) -> In x d)
      by (intros x Hx; now apply items_in in Hx).
    revert Hsub. generalize (items ok d) as its.
    induction its as [|[k v] its IH]; intros Hsub; [reflexivity|].
    simpl. unfold PyDict.getitem at 1.
    rewrite (@get_in V d k v) by (auto; apply Hsub; now left).
    simpl. rewrite IH by (intros; apply Hsub; now right). reflexivity. }
  rewrite H. reflexivity.
Qed.

Lemma combination_ok (self : Results) (ml mt ms : R) l t s :
  PyDict.wf (llm self) -> PyDict.wf (tts self) -> PyDict.wf (stt self) ->
  In l (items llm_eligible (llm self)) ->
  In t (items tts_eligible (tts self)) ->
  In s (items stt_eligible (stt self)) ->
  ml <> 0%R -> mt <> 0%R -> ms <> 0%R ->
  combination self ml mt ms (fst l) (fst t) (fst s)
  = Ok (mk_combination ml mt ms l t s).
Proof.
  intros Wl Wt Ws Hl Ht Hs Hml Hmt Hms.
  apply items_in in Hl, Ht, Hs.
  destruct l as [lk lv], t as [tk tv], s as [sk sv]. simpl in *.
  destruct Hl as [Hl Hel], Ht as [Ht _], Hs as [Hs _].
  apply llm_eligible_spec in Hel. destruct Hel as [_ Havg].
  unfold combination, PyDict.getitem.
  rewrite (@get_in _ _ _ _ Wl Hl), (@get_in _ _ _ _ Wt Ht),
    (@get_in _ _ _ _ Ws Hs). simpl.
  rewrite !pydiv_ok by (auto; lra). simpl. reflexivity.
Qed.

Lemma base_llm_nonzero (self : Results) :
  base Llm.avg_first_token_time (items llm_eligible (llm self)) <> 0%R.
Proof.
  assert (H : (0.05 <= base Llm.avg_first_token_time
                            (items llm_eligible (llm self)))%R).
  { apply base_lower_bound; [lra|].
    intros kv Hkv. apply items_in in Hkv. destruct Hkv as [_ Hkv].
    now apply llm_eligible_spec in Hkv. }
  lra.
Qed.

Lemma base_tts_pos (self : Results) :
  tts_times_positive (tts self) ->
  (0 < base Tts.avg_synthesis_time (items tts_eligible (tts self)))%R.
Proof.
  intros Hpos. apply base_pos. intros [k v] Hkv.
  apply items_in in Hkv. destruct Hkv as [Hin Hok]. simpl in *.
  apply (Hpos k v Hin). now apply Z.eqb_eq.
Qed.

Lemma base_stt_pos (self : Results) :
  stt_times_positive (stt self) ->
  (0 < base Stt.avg_processing_time (items stt_eligible (stt self)))%R.
Proof.
  intros Hpos. apply base_pos. intros [k v] Hkv.
  apply items_in in Hkv. destruct Hkv as [Hin Hok]. simpl in *.
  apply (Hpos k v Hin). now apply Z.eqb_eq.
Qed.

(** [_generate_combinations] appends [new_combinations] and sorts. *)
Lemma generate_combinations_ok (self : Results) :
  PyDict.wf (llm self) -> PyDict.wf (tts self) -> PyDict.wf (stt self) ->
  tts_times_positive (tts self) -> stt_times_positive (stt self) ->
  _generate_combinations self
  = Ok {| llm := llm self; tts := tts self; stt := stt self;
          combinations :=
            sort_by score (combinations self ++ new_combinations self) |}.
Proof.
  intros Wl Wt Ws Pt Ps.
  unfold _generate_combinations.
  rewrite !baseline_ok by assumption. simpl.
  pose proof (base_llm_nonzero self) as Hml.
  pose proof (base_tts_pos self Pt) as Hmt.
  pose proof (base_stt_pos self Ps) as Hms.
  set (ml := base Llm.avg_first_token_time _) in *.
  set (mt := base Tts.avg_synthesis_time _) in *.
  set (ms := base Stt.avg_processing_time _) in *.
  rewrite !valid_keys_items.
  rewrite for_each_extend with
    (g := fun llm_n =>
            flat_map (fun t =>
              flat_map (fun s =>
                match combination self ml mt ms llm_n (fst t) (fst s) with
                | Ok c => [c]
                | Raise _ => []
                end) (items stt_eligible (stt self)))
              (items tts_eligible (tts self))).
  - simpl. do 2 f_equal. f_equal.
    unfold new_combinations. fold ml mt ms.
    rewrite flat_map_fst. f_equal.
    apply flat_map_ext_in. intros l Hl.
    apply flat_map_ext_in. intros t Ht.
    rewrite <- flat_map_single.
    apply flat_map_ext_in. intros s Hs.
    rewrite combination_ok by (auto; lra). reflexivity.
  - intros llm_n s0 Hin.
    apply in_map_iff in Hin. destruct Hin as [l [<- Hl]].
    rewrite <- flat_map_fst with
      (g := fun tts_n =>
              flat_map (fun s =>
                match combination self ml mt ms (fst l) tts_n (fst s) with
                | Ok c => [c]
                | Raise _ => []
                end) (items stt_eligible (stt self))).
    apply for_each_extend.
    intros tts_n s1 Hin.
    apply in_map_iff in Hin. destruct Hin as [t [<- Ht]].
    rewrite <- flat_map_fst with
      (g := fun stt_n =>
                match combination self ml mt ms (fst l) (fst t) stt_n with
                | Ok c => [c]
                | Raise _ => []
                end).
    apply for_each_extend.
    intros stt_n s2 Hin.
    apply in_map_iff in Hin. destruct Hin as [s [<- Hs]].
    rewrite combination_ok by (auto; lra). reflexivity.
Qed.

Lemma in_new_combinations (self : Results) (c : Combination) :
  In c (new_combinations self)
  <-> exists l t s,
      In l (items llm_eligible (llm self))
      /\ In t (items tts_eligible (tts self))
      /\ In s (items stt_eligible (stt self))
      /\ c = mk_combination
               (base Llm.avg_first_token_time
                     (items llm_eligible (llm self)))
               (base Tts.avg_synthesis_time (items tts_eligible (tts self)))
               (base Stt.avg_processing_time (items stt_eligible (stt self)))
               l t s.
Proof.
  unfold new_combinations. rewrite in_flat_map. split.
  - intros [l [Hl Hc]]. apply in_flat_map in Hc. destruct Hc as [t [Ht Hc]].
    apply in_map_iff in Hc. destruct Hc as [s [Hc Hs]].
    exists l, t, s. auto.
  - intros [l [t [s [Hl [Ht [Hs ->]]]]]].
    exists l. split; [exact Hl|]. apply in_flat_map.
    exists t. split; [exact Ht|]. apply in_map_iff. exists s. auto.
Qed.

Lemma mk_combination_score ml mt ms l t s :
  score (mk_combination ml mt ms l t s)
  = total_score ml mt ms (snd l) (snd t) (snd s).
Proof. unfold total_score. simpl. unfold Rdiv. ring. Qed.

Lemma new_combinations_perm (r1 r2 : Results) :
  Permutation (llm r1) (llm r2) -> Permutation (tts r1) (tts r2) ->
  Permutation (stt r1) (stt r2) ->
  Permutation (new_combinations r1) (new_combinations r2).
Proof.
  intros Pl Pt Ps. unfold new_combinations.
  pose proof (items_perm llm_eligible _ _ Pl) as Il.
  pose proof (items_perm tts_eligible _ _ Pt) as It.
  pose proof (items_perm stt_eligible _ _ Ps) as Is.
  rewrite <- (base_perm Llm.avg_first_token_time _ _ Il).
  rewrite <- (base_perm Tts.avg_synthesis_time _ _ It).
  rewrite <- (base_perm Stt.avg_processing_time _ _ Is).
  etransitivity; [apply Permutation_flat_map; exact Il|].
  apply flat_map_perm_ext. intros l _.
  etransitivity; [apply Permutation_flat_map; exact It|].
  apply flat_map_perm_ext. intros t _.
  now apply Permutation_map.
Qed.

Lemma tts_times_positive_perm d d' :
  Permutation d d' -> tts_times_positive d -> tts_times_positive d'.
Proof.
  intros HP H k v Hin. apply (H k v).
  now apply (Permutation_in _ (Permutation_sym HP)).
Qed.

Lemma stt_times_positive_perm d d' :
  Permutation d d' -> stt_times_positive d -> stt_times_positive d'.
Proof.
  intros HP H k v Hin. apply (H k v).
  now apply (Permutation_in _ (Permutation_sym HP)).
Qed.

(** C3: [_generate_combinations] returns; its list is ascending by score;
    every eligible triple (generation backend with [errors == 0] and an
    average first-token time of at least 0.05, synthesis and recognition
    backends with [errors == 0]) has a combination in it whose score is
    0.7 * (0.7 * llm_score + 0.3 * llm_stability) + 0.3 * tts_score
    + 0.3 * stt_score, each score being the average time over the least
    average time of the eligible backends of the kind; and the list holds
    nothing but these and the combinations that were there before. *)
Theorem C3_scores_and_order (self : Results) :
  PyDict.wf (llm self) -> PyDict.wf (tts self) -> PyDict.wf (stt self) ->
  tts_times_positive (tts self) -> stt_times_positive (stt self) ->
  exists combos,
    _generate_combinations self
    = Ok {| llm := llm self; tts := tts self; stt := stt self;
            combinations := combos |}
    /\ StronglySorted by_score combos
    /\ (forall lk lv tk tv sk sv,
           In (lk, lv) (llm self) -> llm_eligible lv = true ->
           In (tk, tv) (tts self) -> Tts.errors tv = 0%Z ->
           In (sk, sv) (stt self) -> Stt.errors sv = 0%Z ->
           exists c ml mt ms,
             In c combos
             /\ c_llm c = lk /\ c_tts c = tk /\ c_stt c = sk
             /\ is_min ml (map (fun kv => Llm.avg_first_token_time (snd kv))
                               (items llm_eligible (llm self)))
             /\ is_min mt (map (fun kv => Tts.avg_synthesis_time (snd kv))
                               (items tts_eligible (tts self)))
             /\ is_min ms (map (fun kv => Stt.avg_processing_time (snd kv))
                               (items stt_eligible (stt self)))
             /\ score c = total_score ml mt ms lv tv sv)
    /\ (forall c, In c combos ->
           In c (combinations self)
           \/ exists lk lv tk tv sk sv,
               In (lk, lv) (llm self) /\ llm_eligible lv = true
               /\ In (tk, tv) (tts self) /\ Tts.errors tv = 0%Z
               /\ In (sk, sv) (stt self) /\ Stt.errors sv = 0%Z
               /\ c_llm c = lk /\ c_tts c = tk /\ c_stt c = sk
               /\ score c
                  = total_score
                      (base Llm.avg_first_token_time
                            (items llm_eligible (llm self)))
                      (base Tts.avg_synthesis_time
                            (items tts_eligible (tts self)))
                      (base Stt.avg_processing_time
                            (items stt_eligible (stt self)))
                      lv tv sv).
Proof.
  intros Wl Wt Ws Pt Ps.
  exists (sort_by score (combinations self ++ new_combinations self)).
  split; [now apply generate_combinations_ok|].
  split; [apply (sort_by_sorted score)|].
  split.
  - intros lk lv tk tv sk sv Hl Hel Ht Het Hs Hes.
    assert (Il : In (lk, lv) (items llm_eligible (llm self)))
      by (apply items_in; auto).
    assert (It : In (tk, tv) (items tts_eligible (tts self)))
      by (apply items_in; split; [auto|now apply Z.eqb_eq]).
    assert (Is : In (sk, sv) (items stt_eligible (stt self)))
      by (apply items_in; split; [auto|now apply Z.eqb_eq]).
    eexists (mk_combination _ _ _ (lk, lv) (tk, tv) (sk, sv)), _, _, _.
    split.
    { apply (Permutation_in _ (Permutation_sym (sort_by_perm score _))).
      apply in_or_app. right. apply in_new_combinations.
      exists (lk, lv), (tk, tv), (sk, sv). auto. }
    repeat (split; [reflexivity|]).
    split; [apply base_is_min; intros E; rewrite E in Il; contradiction|].
    split; [apply base_is_min; intros E; rewrite E in It; contradiction|].
    split; [apply base_is_min; intros E; rewrite E in Is; contradiction|].
    apply mk_combination_score.
  - intros c Hc.
    apply (Permutation_in _ (sort_by_perm score _)) in Hc.
    apply in_app_or in Hc. destruct Hc as [Hc|Hc]; [now left|right].
    apply in_new_combinations in Hc.
    destruct Hc as [[lk lv] [[tk tv] [[sk sv] [Hl [Ht [Hs ->]]]]]].
    apply items_in in Hl, Ht, Hs. simpl in *.
    exists lk, lv, tk, tv, sk, sv.
    destruct Hl as [Hl Hel], Ht as [Ht Het], Hs as [Hs Hes].
    apply Z.eqb_eq in Het, Hes.
    repeat (split; [assumption || reflexivity|]).
    exact (mk_combination_score _ _ _ (lk, lv) (tk, tv) (sk, sv)).
Qed.

(** C10: [_generate_combinations] returns, and every combination it adds
    names a generation backend of [self.results["llm"]] with [errors == 0]
    and an average first-token time of at least 0.05, for which the division
    of [llm_stability] is defined and is the value recorded; a generation
    backend whose average first-token time is below 0.05 is in none of the
    combinations added, with or without errors. *)
Theorem C10_first_token_threshold (self : Results) :
  PyDict.wf (llm self) -> PyDict.wf (tts self) -> PyDict.wf (stt self) ->
  tts_times_positive (tts self) -> stt_times_positive (stt self) ->
  exists out,
    _generate_combinations self = Ok out
    /\ (forall c, In c (combinations out) ->
           In c (combinations self)
           \/ exists lv,
               PyDict.get (c_llm c) (llm self) = Some lv
               /\ Llm.errors lv = 0%Z
               /\ (0.05 <= Llm.avg_first_token_time lv)%R
               /\ Llm.avg_first_token_time lv <> 0%R
               /\ pydiv (Llm.std_first_token lv) (Llm.avg_first_token_time lv)
                  = Ok (llm_stability (details c)))
    /\ (forall lk lv,
           In (lk, lv) (llm self) ->
           (Llm.avg_first_token_time lv < 0.05)%R ->
           forall c, In c (combinations out) ->
                     In c (combinations self) \/ c_llm c <> lk).
Proof.
  intros Wl Wt Ws Pt Ps.
  eexists. split; [now apply generate_combinations_ok|].
  simpl.
  assert (Hnew : forall c,
             In c (sort_by score (combinations self ++ new_combinations self))
             -> In c (combinations self)
                \/ exists l t s,
                    In l (llm self) /\ llm_eligible (snd l) = true
                    /\ c = mk_combination
                             (base Llm.avg_first_token_time
                                   (items llm_eligible (llm self)))
                             (base Tts.avg_synthesis_time
                                   (items tts_eligible (tts self)))
                             (base Stt.avg_processing_time
                                   (items stt_eligible (stt self)))
                             l t s).
  { intros c Hc.
    apply (Permutation_in _ (sort_by_perm score _)) in Hc.
    apply in_app_or in Hc. destruct Hc as [Hc|Hc]; [now left|right].
    apply in_new_combinations in Hc.
    destruct Hc as [l [t [s [Hl [_ [_ ->]]]]]].
    apply items_in in Hl. exists l, t, s. tauto. }
  split.
  - intros c Hc. destruct (Hnew c Hc) as [Hold|[[lk lv] [t [s [Hl [Hel ->]]]]]];
      [now left|right].
    simpl in *. exists lv.
    apply llm_eligible_spec in Hel. destruct Hel as [He Havg].
    split; [now apply get_in|].
    split; [exact He|]. split; [exact Havg|].
    split; [lra|]. apply pydiv_ok. lra.
  - intros lk lv Hl Hlt c Hc.
    destruct (Hnew c Hc) as [Hold|[[lk' lv'] [t [s [Hl' [Hel ->]]]]]];
      [now left|right].
    simpl in *. intros ->.
    apply llm_eligible_spec in Hel. destruct Hel as [_ Havg].
    assert (lv' = lv).
    { pose proof (get_in _ _ _ Wl Hl) as E1.
      pose proof (get_in _ _ _ Wl Hl') as E2. congruence. }
    subst. lra.
Qed.

(** C9, amended: when the three result dictionaries of two states hold the
    same entries in different insertion orders, [_generate_combinations]
    returns for both; the two lists hold the same combinations and are both
    ascending by score; they are the same list when no two combinations have
    the same score. *)
Theorem C9_reordering_up_to_ties (r1 r2 : Results) :
  PyDict.wf (llm r1) -> PyDict.wf (tts r1) -> PyDict.wf (stt r1) ->
  tts_times_positive (tts r1) -> stt_times_positive (stt r1) ->
  Permutation (llm r1) (llm r2) -> Permutation (tts r1) (tts r2) ->
  Permutation (stt r1) (stt r2) ->
  combinations r1 = combinations r2 ->
  exists o1 o2,
    _generate_combinations r1 = Ok o1
    /\ _generate_combinations r2 = Ok o2
    /\ Permutation (combinations o1) (combinations o2)
    /\ StronglySorted by_score (combinations o1)
    /\ StronglySorted by_score (combinations o2)
    /\ (NoDup (map score (combinations o1)) ->
        combinations o1 = combinations o2).
Proof.
  intros Wl Wt Ws Pt Ps Hl Ht Hs Hc.
  eexists. eexists.
  split; [now apply generate_combinations_ok|].
  split.
  { apply generate_combinations_ok.
    - exact (wf_perm _ _ Hl Wl).
    - exact (wf_perm _ _ Ht Wt).
    - exact (wf_perm _ _ Hs Ws).
    - exact (tts_times_positive_perm _ _ Ht Pt).
    - exact (stt_times_positive_perm _ _ Hs Ps). }
  simpl.
  assert (HP : Permutation
                 (sort_by score (combinations r1 ++ new_combinations r1))
                 (sort_by score (combinations r2 ++ new_combinations r2))).
  { rewrite !sort_by_perm. rewrite Hc. apply Permutation_app_head.
    now apply new_combinations_perm. }
  split; [exact HP|].
  split; [apply (sort_by_sorted score)|].
  split; [apply (sort_by_sorted score)|].
  intros Hnd.
  apply (sorted_perm_unique score); auto; apply (sort_by_sorted score).
Qed.

(* ------------------------------------------------------------------ *)
(** * The sample data *)

Ltac dict_wf :=
  unfold PyDict.wf, PyDict.keys; simpl;
  repeat (constructor; [simpl; intuition discriminate|]); constructor.

Ltac times_positive :=
  let k := fresh "k" in
  let v := fresh "v" in
  let H := fresh "H" in
  intros k v H _; simpl in H;
  repeat (destruct H as [H|H];
          [injection H as _ <-; simpl; lra|]);
  contradiction.

(** Deciding the comparisons of a closed expression. *)
Ltac decide_R :=
  repeat match goal with
         | |- context [Rleb ?a ?b] =>
             first [rewrite (Rleb_true a b) by lra
                   |rewrite (Rleb_false a b) by lra]
         | |- context [Rmin ?a ?b] =>
             first [rewrite (Rmin_left a b) by lra
                   |rewrite (Rmin_right a b) by lra]
         | |- context [Rmax ?a ?b] =>
             first [rewrite (Rmax_left a b) by lra
                   |rewrite (Rmax_right a b) by lra]
         | |- context [Rltb ?a ?b] =>
             first [rewrite (Rltb_true a b) by lra
                   |rewrite (Rltb_false a b) by lra]
         end.

Ltac eval_combinations :=
  unfold new_combinations, items, llm_eligible, tts_eligible, stt_eligible;
  simpl; repeat (progress (decide_R; simpl)).

Lemma results_ab_sorted :
  map (fun c => (identity c, score c))
      (sort_by score (combinations results_ab ++ new_combinations results_ab))
  = [("L", "A", "S", 1.09%R); ("L", "B", "S", 1.09%R)].
Proof. unfold identity. eval_combinations. repeat f_equal; lra. Qed.

Lemma results_ba_sorted :
  map (fun c => (identity c, score c))
      (sort_by score (combinations results_ba ++ new_combinations results_ba))
  = [("L", "B", "S", 1.09%R); ("L", "A", "S", 1.09%R)].
Proof. unfold identity. eval_combinations. repeat f_equal; lra. Qed.

Lemma results_ab_wf :
  PyDict.wf (llm results_ab) /\ PyDict.wf (tts results_ab)
  /\ PyDict.wf (stt results_ab)
  /\ tts_times_positive (tts results_ab)
  /\ stt_times_positive (stt results_ab).
Proof.
  split; [dict_wf|]. split; [dict_wf|]. split; [dict_wf|].
  split; times_positive.
Defined.

Lemma results_ba_wf :
  PyDict.wf (llm results_ba) /\ PyDict.wf (tts results_ba)
  /\ PyDict.wf (stt results_ba)
  /\ tts_times_positive (tts results_ba)
  /\ stt_times_positive (stt results_ba).
Proof.
  split; [dict_wf|]. split; [dict_wf|]. split; [dict_wf|].
  split; times_positive.
Defined.

Lemma results_fast_wf :
  PyDict.wf (llm results_fast) /\ PyDict.wf (tts results_fast)
  /\ PyDict.wf (stt results_fast)
  /\ tts_times_positive (tts results_fast)
  /\ stt_times_positive (stt results_fast).
Proof.
  split; [dict_wf|]. split; [dict_wf|]. split; [dict_wf|].
  split; times_positive.
Defined.

(** C9, the claim refuted: [results_ab] and [results_ba] hold the same
    entries, the two synthesis backends (equally fast) in different
    insertion orders; both combinations score 1.09 and the two calls list
    them in opposite orders. *)
Lemma C9_counterexample :
  Permutation (llm results_ab) (llm results_ba)
  /\ Permutation (tts results_ab) (tts results_ba)
  /\ Permutation (stt results_ab) (stt results_ba)
  /\ exists o1 o2,
      _generate_combinations results_ab = Ok o1
      /\ _generate_combinations results_ba = Ok o2
      /\ map identity (combinations o1) = [("L", "A", "S"); ("L", "B", "S")]
      /\ map identity (combinations o2) = [("L", "B", "S"); ("L", "A", "S")]
      /\ map score (combinations o1) = map score (combinations o2)
      /\ combinations o1 <> combinations o2.
Proof.
  split; [reflexivity|]. split; [apply perm_swap|]. split; [reflexivity|].
  destruct results_ab_wf as [W1 [W2 [W3 [P1 P2]]]].
  destruct results_ba_wf as [W1' [W2' [W3' [P1' P2']]]].
  pose proof results_ab_sorted as Hab.
  pose proof results_ba_sorted as Hba.
  set (l1 := sort_by score _) in Hab.
  set (l2 := sort_by score _) in Hba.
  exists {| llm := llm results_ab; tts := tts results_ab;
            stt := stt results_ab; combinations := l1 |}.
  exists {| llm := llm results_ba; tts := tts results_ba;
            stt := stt results_ba; combinations := l2 |}.
  split; [now apply generate_combinations_ok|].
  split; [now apply generate_combinations_ok|].
  change (map identity l1 = [("L", "A", "S"); ("L", "B", "S")]
          /\ map identity l2 = [("L", "B", "S"); ("L", "A", "S")]
          /\ map score l1 = map score l2
          /\ l1 <> l2).
  assert (Ia : forall l, map identity l
                         = map fst (map (fun c => (identity c, score c)) l))
    by (intros l; rewrite map_map; reflexivity).
  assert (Sa : forall l, map score l
                         = map snd (map (fun c => (identity c, score c)) l))
    by (intros l; rewrite map_map; reflexivity).
  split; [rewrite Ia, Hab; reflexivity|].
  split; [rewrite Ia, Hba; reflexivity|].
  split; [rewrite !Sa, Hab, Hba; reflexivity|].
  intros E.
  assert (E' : map identity l1 = map identity l2) by (now rewrite E).
  rewrite !Ia, Hab, Hba in E'. discriminate E'.
Qed.

(** The hypotheses of C3 hold of [results_ab], and the call returns a list
    in ascending order. *)
Lemma C3_witness :
  PyDict.wf (llm results_ab) /\ PyDict.wf (tts results_ab)
  /\ PyDict.wf (stt results_ab)
  /\ tts_times_positive (tts results_ab)
  /\ stt_times_positive (stt results_ab)
  /\ exists combos,
      _generate_combinations results_ab
      = Ok {| llm := llm results_ab; tts := tts results_ab;
              stt := stt results_ab; combinations := combos |}
      /\ StronglySorted by_score combos.
Proof.
  destruct results_ab_wf as [W1 [W2 [W3 [P1 P2]]]].
  repeat (split; [assumption|]).
  destruct (C3_scores_and_order results_ab W1 W2 W3 P1 P2)
    as [combos [H1 [H2 _]]].
  exists combos. split; assumption.
Defined.

(** The hypotheses of C10 hold of [results_fast]; the backend ["F"], with an
    average first-token time of 0.01, is in no combination. *)
Lemma C10_witness :
  PyDict.wf (llm results_fast) /\ PyDict.wf (tts results_fast)
  /\ PyDict.wf (stt results_fast)
  /\ tts_times_positive (tts results_fast)
  /\ stt_times_positive (stt results_fast)
  /\ exists out,
      _generate_combinations results_fast = Ok out
      /\ forall c, In c (combinations out) -> c_llm c <> "F".
Proof.
  destruct results_fast_wf as [W1 [W2 [W3 [P1 P2]]]].
  repeat (split; [assumption|]).
  destruct (C10_first_token_threshold results_fast W1 W2 W3 P1 P2)
    as [out [H1 [_ H3]]].
  exists out. split; [exact H1|].
  intros c Hc.
  destruct (H3 "F" (llm_result "F" 0.01 0)) with (c := c) as [[]|Hne].
  - simpl. right. now left.
  - simpl. lra.
  - exact Hc.
  - exact Hne.
Defined.

(** The hypotheses of the amended C9 hold of [results_fast] and
    [results_fast_rev]. *)
Lemma C9_witness :
  Permutation (llm results_fast) (llm results_fast_rev)
  /\ Permutation (tts results_fast) (tts results_fast_rev)
  /\ Permutation (stt results_fast) (stt results_fast_rev)
  /\ exists o1 o2,
      _generate_combinations results_fast = Ok o1
      /\ _generate_combinations results_fast_rev = Ok o2
      /\ Permutation (combinations o1) (combinations o2)
      /\ (NoDup (map score (combinations o1)) ->
          combinations o1 = combinations o2).
Proof.
  destruct results_fast_wf as [W1 [W2 [W3 [P1 P2]]]].
  assert (Hl : Permutation (llm results_fast) (llm results_fast_rev))
    by apply perm_swap.
  assert (Ht : Permutation (tts results_fast) (tts results_fast_rev))
    by apply perm_swap.
  assert (Hs : Permutation (stt results_fast) (stt results_fast_rev))
    by apply Permutation_refl.
  repeat (split; [assumption|]).
  destruct (C9_reordering_up_to_ties results_fast results_fast_rev
              W1 W2 W3 P1 P2 Hl Ht Hs eq_refl)
    as [o1 [o2 [H1 [H2 [H3 [_ [_ H6]]]]]]].
  exists o1, o2. auto.
Defined.

(* ------------------------------------------------------------------ *)
(** * The aggregation of [_test_llm_performance] *)

Lemma stdev_or_0_ok xs : Stats.stdev_or_0 xs = Ok (stdev_or_0_of xs).
Proof.
  unfold Stats.stdev_or_0, stdev_or_0_of, Stats.stdev.
  destruct (1 <? List.length xs)%nat eqn:E; [|reflexivity].
  apply Nat.ltb_lt in E.
  destruct (List.length xs <? 2)%nat eqn:E2; [|reflexivity].
  apply Nat.ltb_lt in E2. lia.
Qed.

Lemma mean_ok xs : xs <> [] -> Stats.mean xs = Ok (Stats.mean_of xs).
Proof. destruct xs; [congruence|reflexivity]. Qed.

Lemma filtered_times_ok xs :
  xs <> [] -> filtered_times xs = Ok (survivors xs).
Proof.
  intros H. unfold filtered_times.
  rewrite mean_ok by exact H. simpl. rewrite stdev_or_0_ok. reflexivity.
Qed.

Lemma filtered_times_inv xs filtered :
  filtered_times xs = Ok filtered -> xs <> [] /\ filtered = survivors xs.
Proof.
  intros H. destruct xs as [|x xs]; [discriminate|].
  split; [discriminate|].
  rewrite filtered_times_ok in H by discriminate. congruence.
Qed.

Lemma filter_length_le {A : Type} (f : A -> bool) (l : list A) :
  (List.length (filter f l) <= List.length l)%nat.
Proof. induction l as [|x l IH]; simpl; [lia|]. destruct (f x); simpl; lia. Qed.

(** The three outcomes of the aggregation. *)
Lemma llm_summary_cases llm_name sentences valid :
  llm_summary llm_name sentences valid
  = match valid with
    | [] => Ok (Failed llm_name K_llm)
    | _ =>
        if Rltb (INR (List.length (survivors (map response_time valid))))
                (INR (List.length sentences) * 0.5)
        then Ok (Failed llm_name K_llm)
        else if Req_dec_T (INR (List.length sentences)) 0
             then Raise "ZeroDivisionError"
             else Ok (LlmDone (llm_record llm_name sentences valid))
    end.
Proof.
  unfold llm_summary. destruct valid as [|t valid]; [reflexivity|].
  rewrite filtered_times_ok by discriminate. simpl bind.
  destruct (Rltb _ _); [reflexivity|].
  rewrite !stdev_or_0_ok.
  unfold pydiv. simpl.
  destruct (Req_dec_T _ 0); reflexivity.
Qed.

Lemma llm_summary_nonempty llm_name sentences valid :
  valid <> [] ->
  llm_summary llm_name sentences valid
  = if Rltb (INR (List.length (survivors (map response_time valid))))
            (INR (List.length sentences) * 0.5)
    then Ok (Failed llm_name K_llm)
    else if Req_dec_T (INR (List.length sentences)) 0
         then Raise "ZeroDivisionError"
         else Ok (LlmDone (llm_record llm_name sentences valid)).
Proof.
  intros H. rewrite llm_summary_cases.
  destruct valid; [congruence|reflexivity].
Qed.

Lemma llm_summary_done llm_name sentences valid r :
  llm_summary llm_name sentences valid = Ok (LlmDone r) ->
  r = llm_record llm_name sentences valid.
Proof.
  rewrite llm_summary_cases.
  destruct valid; [discriminate|].
  destruct (Rltb _ _); [discriminate|].
  destruct (Req_dec_T _ 0); [discriminate|]. congruence.
Qed.

Lemma llm_try_created ext self llm_name config llm :
  llm_not_configured ext llm_name config = false ->
  create_llm_instance ext (PyDict.get_default "type" llm_name config) config
  = Ok llm ->
  llm_try ext self llm_name config
  = llm_summary llm_name (test_sentences self)
                (valid_results_of llm (test_sentences self)).
Proof.
  intros H1 H2. unfold llm_try. rewrite H1, H2. reflexivity.
Qed.

(** C6: when a generation backend is probed and fewer of its trials survive
    the filter (latency at most mean + 3 * stdev) than half the number of
    test sentences, the probe returns the failure dictionary, whose error
    count is 1, whatever the surviving trials are. *)
Theorem C6_half_survival ext self llm_name config llm filtered :
  llm_not_configured ext llm_name config = false ->
  create_llm_instance ext (PyDict.get_default "type" llm_name config) config
  = Ok llm ->
  filtered_times
    (map response_time (valid_results_of llm (test_sentences self)))
  = Ok filtered ->
  (INR (List.length filtered)
   < INR (List.length (test_sentences self)) * 0.5)%R ->
  _test_llm_performance ext self llm_name config = Failed llm_name K_llm
  /\ errors_of (_test_llm_performance ext self llm_name config) = 1%Z.
Proof.
  intros H1 H2 Hf Hlt.
  assert (E : _test_llm_performance ext self llm_name config
              = Failed llm_name K_llm).
  { unfold _test_llm_performance.
    rewrite (llm_try_created ext self llm_name config llm H1 H2).
    rewrite llm_summary_cases.
    apply filtered_times_inv in Hf. destruct Hf as [Hne ->].
    destruct (valid_results_of llm (test_sentences self)) as [|t v];
      [reflexivity|].
    rewrite Rltb_true by exact Hlt. reflexivity. }
  split; [exact E|]. rewrite E. reflexivity.
Qed.

Lemma tokens_per_second_throughput llm sentences :
  (forall s st, In s sentences -> llm s = Ok st -> (0 < elapsed st)%R) ->
  map tokens_per_second (valid_results_of llm sentences)
  = map throughput (not_none (map (stream_of llm) sentences)).
Proof.
  unfold valid_results_of.
  induction sentences as [|s l IH]; intros Hpos; [reflexivity|].
  simpl. unfold _test_single_sentence at 1, stream_of at 1.
  destruct (llm s) as [st|e] eqn:E.
  - simpl. rewrite IH by (intros; eapply Hpos; eauto; now right).
    f_equal. rewrite Rltb_true; [reflexivity|].
    apply (Hpos s); [now left|exact E].
  - apply IH. intros; eapply Hpos; eauto; now right.
Qed.

(** C7: in the result a generation probe returns with [errors] 0, the
    reported [avg_tokens_per_second] is the arithmetic mean, over the trials
    that returned, of output length divided by total latency (latencies being
    positive). *)
Theorem C7_mean_of_ratios ext self llm_name config llm r :
  llm_not_configured ext llm_name config = false ->
  create_llm_instance ext (PyDict.get_default "type" llm_name config) config
  = Ok llm ->
  (forall s st, In s (test_sentences self) -> llm s = Ok st ->
                (0 < elapsed st)%R) ->
  _test_llm_performance ext self llm_name config = LlmDone r ->
  Llm.avg_tokens_per_second r
  = Stats.mean_of
      (map throughput (not_none (map (stream_of llm) (test_sentences self)))).
Proof.
  intros H1 H2 Hpos Hr.
  unfold _test_llm_performance in Hr.
  rewrite (llm_try_created ext self llm_name config llm H1 H2) in Hr.
  destruct (llm_summary _ _ _) as [r'|e] eqn:E; simpl in Hr;
    [|discriminate].
  subst r'. apply llm_summary_done in E. subst r. simpl.
  now rewrite tokens_per_second_throughput.
Qed.

(* ------------------------------------------------------------------ *)
(** * The aggregation on sample backends *)

Lemma sqrt_lower y x : (0 <= y)%R -> (y * y <= x)%R -> (y <= sqrt x)%R.
Proof.
  intros Hy Hx. rewrite <- (sqrt_square y Hy).
  apply sqrt_le_1; nra.
Qed.

Lemma sqrt_upper y x : (0 <= x)%R -> (0 < y)%R -> (x < y * y)%R ->
                       (sqrt x < y)%R.
Proof.
  intros Hx Hy Hlt. rewrite <- (sqrt_square y) by lra.
  apply sqrt_lt_1; nra.
Qed.

(** The hypotheses of C6 hold of [flaky_llm] over five sentences: two trials
    return, both survive, and 2 is less than half of 5. *)
Lemma C6_witness :
  exists filtered,
    filtered_times
      (map response_time (valid_results_of flaky_llm five_sentences))
    = Ok filtered
    /\ (INR (List.length filtered) < INR (List.length five_sentences) * 0.5)%R
    /\ _test_llm_performance (ext_of flaky_llm) (tester_of five_sentences)
                             "M" []
       = Failed "M" K_llm.
Proof.
  exists (survivors
            (map response_time (valid_results_of flaky_llm five_sentences))).
  assert (Hf : filtered_times
                 (map response_time
                      (valid_results_of flaky_llm five_sentences))
               = Ok (survivors
                       (map response_time
                            (valid_results_of flaky_llm five_sentences))))
    by (apply filtered_times_ok; discriminate).
  assert (Hlt : (INR (List.length
                        (survivors
                           (map response_time
                                (valid_results_of flaky_llm five_sentences))))
                 < INR (List.length five_sentences) * 0.5)%R).
  { pose proof (filter_length_le
                  (fun t => Rleb t
                     (Stats.mean_of
                        (map response_time
                             (valid_results_of flaky_llm five_sentences))
                      + 3 * stdev_or_0_of
                              (map response_time
                                   (valid_results_of flaky_llm
                                                     five_sentences)))%R)
                  (map response_time
                       (valid_results_of flaky_llm five_sentences))) as Hle.
    apply le_INR in Hle. unfold survivors.
    change (INR (List.length five_sentences)) with (INR 5).
    change (INR (List.length
                   (map response_time
                        (valid_results_of flaky_llm five_sentences))))
      with (INR 2) in Hle.
    simpl INR in *. lra. }
  split; [exact Hf|]. split; [exact Hlt|].
  exact (proj1 (C6_half_survival (ext_of flaky_llm) (tester_of five_sentences)
                                 "M" [] flaky_llm _ eq_refl eq_refl Hf Hlt)).
Defined.

Lemma two_speeds_times :
  map response_time (valid_results_of two_speeds_llm ["q1"; "q2"])
  = [1%R; 2%R].
Proof. reflexivity. Qed.

Lemma two_speeds_survivors : survivors [1%R; 2%R] = [1%R; 2%R].
Proof.
  assert (Hm : Stats.mean_of [1; 2] = 1.5%R)
    by (unfold Stats.mean_of, Stats.sum; simpl; lra).
  assert (Hs : (1 / 6 <= stdev_or_0_of [1; 2])%R).
  { unfold stdev_or_0_of, Stats.stdev_of. simpl Nat.ltb. cbv iota.
    apply sqrt_lower; [lra|].
    unfold Stats.ss. rewrite Hm. simpl. lra. }
  unfold survivors. rewrite Hm.
  set (s := stdev_or_0_of [1; 2]) in *.
  simpl. rewrite !Rleb_true by lra. reflexivity.
Qed.

(** The hypotheses of C7 hold of [two_speeds_llm] over two sentences; the
    mean of the two ratios 1/1 and 3/2 is 1.25, and it is what the probe
    reports, not the ratio of the sums 4/3. *)
Lemma C7_witness :
  exists r,
    _test_llm_performance (ext_of two_speeds_llm) (tester_of ["q1"; "q2"])
                          "M" []
    = LlmDone r
    /\ Llm.avg_tokens_per_second r
       = Stats.mean_of
           (map throughput
                (not_none (map (stream_of two_speeds_llm) ["q1"; "q2"])))
    /\ Llm.avg_tokens_per_second r = 1.25%R
    /\ Llm.avg_tokens_per_second r <> ((1 + 3) / (1 + 2))%R.
Proof.
  assert (Hr : _test_llm_performance (ext_of two_speeds_llm)
                                     (tester_of ["q1"; "q2"]) "M" []
               = LlmDone (llm_record "M" ["q1"; "q2"]
                            (valid_results_of two_speeds_llm ["q1"; "q2"]))).
  { unfold _test_llm_performance.
    rewrite (llm_try_created (ext_of two_speeds_llm) _ "M" [] two_speeds_llm
                             eq_refl eq_refl).
    rewrite llm_summary_nonempty by discriminate.
    change (test_sentences (tester_of ["q1"; "q2"])) with ["q1"; "q2"].
    rewrite two_speeds_times, two_speeds_survivors.
    rewrite Rltb_false by (simpl; lra).
    destruct (Req_dec_T (INR (List.length ["q1"; "q2"])) 0) as [E|E];
      [simpl in E; lra|reflexivity]. }
  eexists. split; [exact Hr|].
  assert (Hpos : forall s st, In s (test_sentences (tester_of ["q1"; "q2"]))
                              -> two_speeds_llm s = Ok st
                              -> (0 < elapsed st)%R).
  { intros s st _ Hst. unfold two_speeds_llm in Hst.
    destruct (s =? "q1"); injection Hst as <-; simpl; lra. }
  pose proof (C7_mean_of_ratios (ext_of two_speeds_llm)
                                (tester_of ["q1"; "q2"]) "M" []
                                two_speeds_llm _ eq_refl eq_refl Hpos Hr)
    as Havg.
  split; [exact Havg|].
  assert (Hval : Stats.mean_of
                   (map throughput
                        (not_none (map (stream_of two_speeds_llm)
                                       (test_sentences
                                          (tester_of ["q1"; "q2"])))))
                 = 1.25%R)
    by (unfold Stats.mean_of, Stats.sum, throughput; simpl; lra).
  rewrite Havg, Hval. split; [reflexivity|lra].
Defined.

(* ------------------------------------------------------------------ *)
(** * An outlier among eleven trials *)

Lemma outlier_times_eq :
  map response_time (valid_results_of outlier_llm eleven_sentences)
  = outlier_times.
Proof. reflexivity. Qed.

Lemma outlier_mean : Stats.mean_of outlier_times = 10%R.
Proof. unfold Stats.mean_of, Stats.sum, outlier_times; simpl; lra. Qed.

Lemma outlier_stdev :
  (0 <= stdev_or_0_of outlier_times < 30)%R.
Proof.
  unfold stdev_or_0_of, Stats.stdev_of.
  change (1 <? List.length outlier_times)%nat with true. cbv iota.
  assert (E : (Stats.ss outlier_times
               / (INR (List.length outlier_times) - 1) = 891)%R).
  { unfold Stats.ss. rewrite outlier_mean.
    unfold outlier_times, Stats.sum. simpl. lra. }
  rewrite E. split; [apply sqrt_pos|].
  apply sqrt_upper; lra.
Qed.

Lemma outlier_survivors : survivors outlier_times = repeat 1%R 10.
Proof.
  unfold survivors. rewrite outlier_mean.
  pose proof outlier_stdev as Hs.
  set (s := stdev_or_0_of outlier_times) in *.
  unfold outlier_times. simpl.
  rewrite !(Rleb_true 1) by lra.
  rewrite Rleb_false by lra. reflexivity.
Qed.

(** C1, the code at a failing input: eleven trials, ten of 1 second and one
    of 100 seconds.  The trial of 100 seconds exceeds mean + 3 * stdev and is
    not among the filtered times, whose mean is 1; the probe still returns a
    result with [errors] 0 whose average response time is 10 and whose
    maximum is 100: the statistics are those of all eleven trials. *)
Theorem C1_outlier_in_statistics :
  exists r,
    _test_llm_performance (ext_of outlier_llm) (tester_of eleven_sentences)
                          "M" []
    = LlmDone r
    /\ filtered_times
         (map response_time (valid_results_of outlier_llm eleven_sentences))
       = Ok (repeat 1%R 10)
    /\ Stats.mean_of (repeat 1%R 10) = 1%R
    /\ Llm.avg_response_time r = 10%R
    /\ Llm.max_response_time r = 100%R
    /\ Llm.errors r = 0%Z.
Proof.
  exists (llm_record "M" eleven_sentences
                     (valid_results_of outlier_llm eleven_sentences)).
  split.
  { unfold _test_llm_performance.
    rewrite (llm_try_created (ext_of outlier_llm) _ "M" [] outlier_llm
                             eq_refl eq_refl).
    rewrite llm_summary_nonempty by discriminate.
    change (test_sentences (tester_of eleven_sentences))
      with eleven_sentences.
    rewrite outlier_times_eq, outlier_survivors.
    rewrite Rltb_false by (simpl; lra).
    destruct (Req_dec_T (INR (List.length eleven_sentences)) 0) as [E|E];
      [simpl in E; lra|reflexivity]. }
  split.
  { rewrite outlier_times_eq, filtered_times_ok by discriminate.
    now rewrite outlier_survivors. }
  split; [unfold Stats.mean_of, Stats.sum; simpl; lra|].
  unfold llm_record.
  cbv beta iota zeta delta [Llm.avg_response_time Llm.max_response_time
                            Llm.errors].
  rewrite outlier_times_eq.
  split; [apply outlier_mean|]. split; [|reflexivity].
  unfold outlier_times, Stats.max_of. simpl.
  decide_R. reflexivity.
Qed.

(* ------------------------------------------------------------------ *)
(** * What a probe returns *)

Ltac break_match :=
  match goal with
  | |- context [match ?x with _ => _ end] => destruct x eqn:?
  end.

Lemma llm_try_shape ext self n c r :
  llm_try ext self n c = Ok r ->
  r = Failed n K_llm
  \/ exists x, r = LlmDone x /\ Llm.name x = n /\ Llm.errors x = 0%Z.
Proof.
  unfold llm_try.
  destruct (llm_not_configured ext n c); [intros [= <-]; now left|].
  destruct (create_llm_instance ext _ c) as [llm|e]; simpl; [|discriminate].
  rewrite llm_summary_cases.
  repeat break_match; intros [= <-]; eauto.
Qed.

Lemma tts_try_shape ext self n c r :
  tts_try ext self n c = Ok r ->
  r = Failed n K_tts
  \/ exists x, r = TtsDone x /\ Tts.name x = n /\ Tts.errors x = 0%Z.
Proof.
  unfold tts_try, bind.
  repeat break_match; intros [= <-]; eauto.
Qed.

Lemma stt_try_shape ext self n c r :
  stt_try ext self n c = Ok r ->
  r = Failed n K_stt
  \/ exists x, r = SttDone x /\ Stt.name x = n /\ Stt.errors x = 0%Z.
Proof.
  unfold stt_try, bind.
  repeat break_match; intros [= <-]; eauto.
Qed.

Lemma run_task_catch ext self t :
  run_task ext self t
  = catch (task_name t) (task_kind t) (task_try ext self t).
Proof. unfold run_task, task_try. destruct (task_kind t); reflexivity. Qed.

Lemma run_task_ident ext self t :
  result_ident (run_task ext self t) = task_ident t.
Proof.
  rewrite run_task_catch. unfold task_try, task_ident.
  destruct (task_kind t) eqn:K.
  - destruct (llm_try ext self (task_name t) (task_config t)) as [r|e] eqn:E;
      [|reflexivity].
    apply llm_try_shape in E. destruct E as [->|[x [-> [<- _]]]]; reflexivity.
  - destruct (tts_try ext self (task_name t) (task_config t)) as [r|e] eqn:E;
      [|reflexivity].
    apply tts_try_shape in E. destruct E as [->|[x [-> [<- _]]]]; reflexivity.
  - destruct (stt_try ext self (task_name t) (task_config t)) as [r|e] eqn:E;
      [|reflexivity].
    apply stt_try_shape in E. destruct E as [->|[x [-> [<- _]]]]; reflexivity.
Qed.

(* ------------------------------------------------------------------ *)
(** * Collecting the results *)

Lemma stored_store_same r results :
  errors_of r = 0%Z -> stored r (store results r).
Proof.
  intros H. unfold store. rewrite H. simpl.
  destruct r; simpl in *; try discriminate; apply get_set_same.
Qed.

Lemma stored_store_other r x results :
  result_ident x <> result_ident r ->
  stored r results -> stored r (store results x).
Proof.
  intros Hne Hs. unfold store.
  destruct (errors_of x =? 0)%Z; [|exact Hs].
  destruct x, r; simpl in *; try exact Hs;
    rewrite get_set_other; auto; congruence.
Qed.

Lemma stored_fold r rs results :
  (forall x, In x rs -> result_ident x <> result_ident r) ->
  stored r results -> stored r (fold_left store rs results).
Proof.
  revert results.
  induction rs as [|x rs IH]; intros results Hne Hs; [exact Hs|].
  simpl. apply IH.
  - intros y Hy. apply Hne. now right.
  - apply stored_store_other; [apply Hne; now left|exact Hs].
Qed.

Lemma fold_store_stored rs :
  NoDup (map result_ident rs) ->
  forall results r, In r rs -> errors_of r = 0%Z ->
                    stored r (fold_left store rs results).
Proof.
  induction rs as [|x rs IH]; intros Hnd results r Hin He; [contradiction|].
  simpl in Hnd. inversion Hnd as [|? ? Hnotin Hnd']; subst.
  simpl. destruct Hin as [->|Hin].
  - apply stored_fold; [|now apply stored_store_same].
    intros y Hy E. apply Hnotin. rewrite <- E. now apply in_map.
  - now apply IH.
Qed.

Lemma stored_names_store k name x results :
  In name (stored_names k (store results x)) ->
  In name (stored_names k results) \/ result_ident x = (k, name).
Proof.
  unfold store.
  destruct (errors_of x =? 0)%Z; [|now left].
  destruct x, k; simpl; try (now left);
    intros H; apply keys_set in H; destruct H as [->|H]; auto.
Qed.

Lemma stored_names_fold k name rs :
  forall results,
    In name (stored_names k (fold_left store rs results)) ->
    In name (stored_names k results)
    \/ exists x, In x rs /\ result_ident x = (k, name).
Proof.
  induction rs as [|x rs IH]; intros results H; [now left|].
  simpl in H. apply IH in H. destruct H as [H|[y [Hy E]]].
  - apply stored_names_store in H. destruct H as [H|H]; [now left|].
    right. exists x. split; [now left|exact H].
  - right. exists y. split; [now right|exact E].
Qed.

(* ------------------------------------------------------------------ *)
(** * The tasks of [run] *)

Lemma in_tasks_of kind skip section t :
  In t (tasks_of kind skip section)
  <-> exists d, section = Some d
                /\ In (task_name t, task_config t) d
                /\ skip (task_name t) (task_config t) = false
                /\ task_kind t = kind.
Proof.
  unfold tasks_of. destruct section as [d|].
  - rewrite in_map_iff. split.
    + intros [[n c] [<- H]]. apply filter_In in H. destruct H as [H1 H2].
      simpl in *. exists d. apply negb_true_iff in H2. auto.
    + intros [d' [[= <-] [H1 [H2 H3]]]].
      exists (task_name t, task_config t). split.
      * destruct t; simpl in *. now subst.
      * apply filter_In. simpl. rewrite H2. auto.
  - split; [contradiction|]. intros [d [H _]]. discriminate.
Qed.

Lemma in_all_tasks self t :
  In t (all_tasks self) ->
  exists d, section_of (config self) (task_kind t) = Some d
            /\ In (task_name t, task_config t) d
            /\ skipped (task_kind t) (task_name t) (task_config t) = false.
Proof.
  unfold all_tasks. intros H.
  apply in_app_or in H. destruct H as [H|H].
  - apply in_tasks_of in H. destruct H as [d [H1 [H2 [H3 H4]]]].
    rewrite H4. exists d. auto.
  - apply in_app_or in H. destruct H as [H|H].
    + apply in_tasks_of in H. destruct H as [d [H1 [H2 [H3 H4]]]].
      rewrite H4. exists d. auto.
    + destruct (1 <=? List.length (test_wav_list self))%nat; [|contradiction].
      apply in_tasks_of in H. destruct H as [d [H1 [H2 [H3 H4]]]].
      rewrite H4. exists d. auto.
Qed.

Lemma tasks_of_idents kind skip section :
  section_wf section ->
  NoDup (map task_ident (tasks_of kind skip section)).
Proof.
  unfold tasks_of, section_wf. destruct section as [d|]; [|constructor].
  unfold PyDict.wf, PyDict.keys.
  induction d as [|[n c] d IH]; simpl; intros Hnd; [constructor|].
  inversion Hnd as [|? ? Hnotin Hnd']; subst.
  destruct (skip n c); simpl; [now apply IH|].
  constructor; [|now apply IH].
  intros Hin. apply Hnotin.
  apply in_map_iff in Hin. destruct Hin as [t [E Ht]].
  apply in_map_iff in Ht. destruct Ht as [[n' c'] [<- Hf]].
  apply filter_In in Hf. destruct Hf as [Hf _].
  unfold task_ident in E. simpl in E. injection E as <-.
  now apply (in_map fst) in Hf.
Qed.

Lemma tasks_of_kind kind skip section t :
  In t (tasks_of kind skip section) -> task_kind t = kind.
Proof. intros H. apply in_tasks_of in H. destruct H as [d H]. tauto. Qed.

Lemma NoDup_app_disjoint {A : Type} (l1 l2 : list A) :
  NoDup l1 -> NoDup l2 -> (forall x, In x l1 -> In x l2 -> False) ->
  NoDup (l1 ++ l2).
Proof.
  induction l1 as [|a l1 IH]; simpl; intros H1 H2 Hd; [exact H2|].
  inversion H1 as [|? ? Hnotin H1']; subst.
  constructor.
  - intros Hin. apply in_app_or in Hin. destruct Hin as [Hin|Hin]; [tauto|].
    apply (Hd a); [now left|exact Hin].
  - apply IH; auto. intros x Hx1 Hx2. apply (Hd x); [now right|exact Hx2].
Qed.

Lemma all_tasks_idents self :
  settings_wf (config self) -> NoDup (map task_ident (all_tasks self)).
Proof.
  intros [Wl [Wt Ws]]. unfold all_tasks. rewrite !map_app.
  assert (Hk : forall kind skip section x,
             In x (map task_ident (tasks_of kind skip section)) ->
             fst x = kind).
  { intros kind skip section x Hx. apply in_map_iff in Hx.
    destruct Hx as [t [<- Ht]]. apply tasks_of_kind in Ht. exact Ht. }
  apply NoDup_app_disjoint.
  - now apply tasks_of_idents.
  - apply NoDup_app_disjoint.
    + now apply tasks_of_idents.
    + destruct (1 <=? List.length (test_wav_list self))%nat;
        [now apply tasks_of_idents|constructor].
    + intros x H1 H2. apply Hk in H1.
      destruct (1 <=? List.length (test_wav_list self))%nat; [|contradiction].
      apply Hk in H2. congruence.
  - intros x H1 H2. apply Hk in H1. apply in_app_or in H2.
    destruct H2 as [H2|H2].
    + apply Hk in H2. congruence.
    + destruct (1 <=? List.length (test_wav_list self))%nat; [|contradiction].
      apply Hk in H2. congruence.
Qed.

Lemma all_results_idents ext self :
  map result_ident (all_results ext self) = map task_ident (all_tasks self).
Proof.
  unfold all_results. rewrite map_map. apply map_ext.
  intros t. apply run_task_ident.
Qed.

(* ------------------------------------------------------------------ *)
(** * [run]: failures and placeholders *)

Lemma collected_without ext self results l1 t l2 :
  all_tasks self = l1 ++ t :: l2 ->
  errors_of (run_task ext self t) <> 0%Z ->
  collected ext self results
  = fold_left store (map (run_task ext self) (l1 ++ l2)) results.
Proof.
  intros Hl He. unfold collected, all_results. rewrite Hl.
  rewrite !map_app, !fold_left_app. simpl.
  unfold store at 2.
  destruct (Z.eqb_spec (errors_of (run_task ext self t)) 0);
    [contradiction|reflexivity].
Qed.

(** C8: when the probe of a unit raises, whatever the exception, the unit
    yields the failure dictionary (error count 1) and nothing propagates:
    the results collected are those of a run without that unit, and every
    unit that returns a result with [errors] 0 has it stored under its
    name. *)
Theorem C8_failure_isolated ext self results t e :
  settings_wf (config self) ->
  In t (all_tasks self) ->
  task_try ext self t = Raise e ->
  run_task ext self t = Failed (task_name t) (task_kind t)
  /\ errors_of (run_task ext self t) = 1%Z
  /\ (forall l1 l2,
         all_tasks self = l1 ++ t :: l2 ->
         collected ext self results
         = fold_left store (map (run_task ext self) (l1 ++ l2)) results)
  /\ (forall t',
         In t' (all_tasks self) ->
         errors_of (run_task ext self t') = 0%Z ->
         stored (run_task ext self t') (collected ext self results)).
Proof.
  intros Hwf Hin Hraise.
  assert (E : run_task ext self t = Failed (task_name t) (task_kind t))
    by (rewrite run_task_catch, Hraise; reflexivity).
  split; [exact E|]. split; [rewrite E; reflexivity|]. split.
  - intros l1 l2 Hl. apply (collected_without ext self results l1 t l2 Hl).
    rewrite E. discriminate.
  - intros t' Hin' He'. unfold collected.
    apply fold_store_stored.
    + rewrite all_results_idents. now apply all_tasks_idents.
    + unfold all_results. now apply in_map.
    + exact He'.
Qed.

(** The hypotheses of C8 hold of the two synthesis backends of
    [tester_bad_good]: the factory raises for the first, and the result of
    the second is stored. *)
Lemma C8_witness :
  settings_wf (config tester_bad_good)
  /\ In task_bad (all_tasks tester_bad_good)
  /\ task_try ext_sample tester_bad_good task_bad = Raise "ImportError"
  /\ run_task ext_sample tester_bad_good task_bad = Failed "Bad" K_tts
  /\ stored (run_task ext_sample tester_bad_good task_good)
            (collected ext_sample tester_bad_good empty_results).
Proof.
  assert (Hwf : settings_wf (config tester_bad_good)).
  { split; [exact I|]. split; [|exact I]. simpl. dict_wf. }
  assert (Hin : In task_bad (all_tasks tester_bad_good))
    by (left; reflexivity).
  assert (Hr : task_try ext_sample tester_bad_good task_bad
               = Raise "ImportError") by reflexivity.
  destruct (C8_failure_isolated ext_sample tester_bad_good empty_results
                                task_bad "ImportError" Hwf Hin Hr)
    as [H1 [_ [_ H4]]].
  repeat (split; [assumption|]).
  apply H4; [right; left; reflexivity|reflexivity].
Defined.

(** C4, amended: a backend that [run] passes over (a synthesis or recognition
    backend whose [access_token], [api_key] or [token] holds one of the
    markers of [token_markers]; a generation backend other than [CozeLLM]
    whose [api_key] holds one of [llm_markers]; [CozeLLM] when its [bot_id]
    or [user_id] holds one of [coze_markers]) gets no task, so that no probe
    result exists for it, be it an error or not, and it gets no entry in
    [self.results]. *)
Theorem C4_placeholder_skipped ext self results kind name cfg d :
  settings_wf (config self) ->
  section_of (config self) kind = Some d ->
  In (name, cfg) d ->
  skipped kind name cfg = true ->
  (forall t, In t (all_tasks self) -> task_ident t <> (kind, name))
  /\ (forall r, In r (all_results ext self) -> result_ident r <> (kind, name))
  /\ (~ In name (stored_names kind results) ->
      ~ In name (stored_names kind (collected ext self results))).
Proof.
  intros Hwf Hsec Hin Hskip.
  assert (H1 : forall t, In t (all_tasks self) -> task_ident t <> (kind, name)).
  { intros t Ht E. unfold task_ident in E. injection E as Ek En.
    apply in_all_tasks in Ht. destruct Ht as [d' [Hs' [Hin' Hsk']]].
    rewrite Ek, En in *. rewrite Hsec in Hs'. injection Hs' as <-.
    assert (Wd : PyDict.wf d).
    { destruct Hwf as [Wl [Wt Ws]].
      destruct kind; simpl in Hsec;
        [rewrite Hsec in Wl|rewrite Hsec in Wt|rewrite Hsec in Ws];
        assumption. }
    pose proof (get_in _ _ _ Wd Hin) as G1.
    pose proof (get_in _ _ _ Wd Hin') as G2.
    assert (cfg = task_config t) by congruence. subst cfg.
    congruence. }
  assert (H2 : forall r, In r (all_results ext self) ->
                         result_ident r <> (kind, name)).
  { intros r Hr. unfold all_results in Hr. apply in_map_iff in Hr.
    destruct Hr as [t [<- Ht]]. rewrite run_task_ident. now apply H1. }
  split; [exact H1|]. split; [exact H2|].
  intros Hnot Hin'. unfold collected in Hin'.
  apply stored_names_fold in Hin'. destruct Hin' as [Hold|[x [Hx E]]].
  - contradiction.
  - now apply (H2 x).
Qed.

(** The hypotheses of the amended C4 hold of the synthesis backend of
    [tester_placeholder_tts], whose [api_key] is ["your_api_key"]: there is
    no task at all. *)
Lemma C4_witness :
  settings_wf (config tester_placeholder_tts)
  /\ In ("Edge", [("api_key", "your_api_key")])
        [("Edge", [("api_key", "your_api_key")])]
  /\ skipped K_tts "Edge" [("api_key", "your_api_key")] = true
  /\ (forall t, In t (all_tasks tester_placeholder_tts) ->
                task_ident t <> (K_tts, "Edge"))
  /\ ~ In "Edge"
          (stored_names K_tts
             (collected ext_sample tester_placeholder_tts empty_results)).
Proof.
  assert (Hwf : settings_wf (config tester_placeholder_tts)).
  { split; [exact I|]. split; [|exact I]. simpl. dict_wf. }
  assert (Hin : In ("Edge", [("api_key", "your_api_key")])
                   [("Edge", [("api_key", "your_api_key")])])
    by (left; reflexivity).
  assert (Hs : skipped K_tts "Edge" [("api_key", "your_api_key")] = true)
    by reflexivity.
  destruct (C4_placeholder_skipped ext_sample tester_placeholder_tts
                                   empty_results K_tts "Edge" _ _
                                   Hwf eq_refl Hin Hs)
    as [H1 [_ H3]].
  repeat (split; [assumption|]).
  apply H3. simpl. tauto.
Defined.

Lemma two_speeds_probe ext self name cfg :
  llm_not_configured ext name cfg = false ->
  create_llm_instance ext (PyDict.get_default "type" name cfg) cfg
  = Ok two_speeds_llm ->
  test_sentences self = ["q1"; "q2"] ->
  _test_llm_performance ext self name cfg
  = LlmDone (llm_record name ["q1"; "q2"]
                        (valid_results_of two_speeds_llm ["q1"; "q2"])).
Proof.
  intros H1 H2 H3. unfold _test_llm_performance.
  rewrite (llm_try_created ext self name cfg two_speeds_llm H1 H2), H3.
  rewrite llm_summary_nonempty by discriminate.
  rewrite two_speeds_times, two_speeds_survivors.
  rewrite Rltb_false by (simpl; lra).
  destruct (Req_dec_T (INR (List.length ["q1"; "q2"])) 0) as [E|E];
    [simpl in E; lra|reflexivity].
Qed.

(** C4, the claim refuted: a generation backend whose [token] field is
    ["your_token"] gets a task, is probed, and its result is stored with
    [errors] 0; [CozeLLM] with the [api_key] ["your_api_key"] gets a task,
    and its probe returns the failure dictionary, with error count 1. *)
Lemma C4_counterexample :
  field_has_marker token_markers "token" local_config = true
  /\ field_has_marker token_markers "api_key" coze_config = true
  /\ map task_ident (all_tasks tester_placeholder_llm)
     = [(K_llm, "LocalLLM"); (K_llm, "CozeLLM")]
  /\ (exists r,
         PyDict.get "LocalLLM"
                    (llm (collected ext_sample tester_placeholder_llm
                                    empty_results))
         = Some r
         /\ Llm.errors r = 0%Z)
  /\ _test_llm_performance ext_sample tester_placeholder_llm
                           "CozeLLM" coze_config
     = Failed "CozeLLM" K_llm
  /\ errors_of (_test_llm_performance ext_sample tester_placeholder_llm
                                      "CozeLLM" coze_config) = 1%Z.
Proof.
  split; [reflexivity|]. split; [reflexivity|]. split; [reflexivity|].
  split; [|split; reflexivity].
  exists (llm_record "LocalLLM" ["q1"; "q2"]
                     (valid_results_of two_speeds_llm ["q1"; "q2"])).
  split; [|reflexivity].
  unfold collected, all_results.
  change (all_tasks tester_placeholder_llm)
    with [ {| task_kind := K_llm; task_name := "LocalLLM";
              task_config := local_config |};
           {| task_kind := K_llm; task_name := "CozeLLM";
              task_config := coze_config |} ].
  cbn [map fold_left run_task task_kind task_name task_config].
  rewrite (two_speeds_probe ext_sample tester_placeholder_llm
                            "LocalLLM" local_config
                            eq_refl eq_refl eq_refl).
  change (_test_llm_performance ext_sample tester_placeholder_llm
                                "CozeLLM" coze_config)
    with (Failed "CozeLLM" K_llm).
  reflexivity.
Qed.

(* ------------------------------------------------------------------ *)
(** * [run_with_timeout] *)

Lemma generate_combinations_empty :
  _generate_combinations empty_results = Ok empty_results.
Proof. reflexivity. Qed.

(** When some task is not done at the deadline, the report is made from
    [self.results] as they were before [run]. *)
Lemma run_with_timeout_expired ext self finish timeout_seconds results t :
  In t (all_tasks self) ->
  (timeout_seconds <= finish t)%nat ->
  run_with_timeout ext self finish timeout_seconds results
  = _generate_combinations results.
Proof.
  intros Hin Hle. unfold run_with_timeout.
  destruct (forallb _ _) eqn:E; [|reflexivity].
  rewrite forallb_forall in E. specialize (E t Hin).
  apply Nat.ltb_lt in E. lia.
Qed.

(** C2, the code at a failing input: a budget of 2 seconds and three
    synthesis backends that return after 1, 1 and 5 seconds.  The first two
    probes return results with [errors] 0 before the deadline; a run without
    deadline stores three results; the run with the deadline reports
    [self.results] as [__init__] left them, with no result at all. *)
Theorem C2_timeout_keeps_nothing :
  map task_ident (all_tasks tester_three_tts)
  = [(K_tts, "A"); (K_tts, "B"); (K_tts, "C")]
  /\ map finish_1_1_5 (all_tasks tester_three_tts) = [1; 1; 5]%nat
  /\ errors_of (run_task ext_sample tester_three_tts (task_tts "A")) = 0%Z
  /\ errors_of (run_task ext_sample tester_three_tts (task_tts "B")) = 0%Z
  /\ PyDict.keys (tts (collected ext_sample tester_three_tts empty_results))
     = ["A"; "B"; "C"]
  /\ run_with_timeout ext_sample tester_three_tts finish_1_1_5 2
                      empty_results
     = Ok empty_results
  /\ stored_names K_tts empty_results = [].
Proof.
  repeat split; reflexivity.
Qed.
(* ------------------------------------------------------------------ *)
(** * Facts about the classifiers *)

Lemma score_loop_count (patterns : list string) (w : nat) (s : string)
      (score : nat) :
  score_loop patterns w s score
  = (score + w * PyStr.count_in patterns s)%nat.
Proof.
  unfold score_loop, PyStr.count_in.
  revert score.
  induction patterns as [|p ps IH]; intros score; simpl.
  - lia.
  - rewrite IH. destruct (PyStr.contains p s); simpl; lia.
Qed.

(** C5, the claim refuted: the classifier that scores 3/2/1 with a bonus of 2
    ([test_function_calling.py]) gives the weather reply a score of 2 and
    rejects it, and the classifier of [performance_tester_grid_search.py]
    gives a reply that is exactly the intent name [get_weather] a score of 2,
    not 3, and rejects it. *)
Lemma C5_counterexample :
  FunctionCalling._analyze_function_response
    weather_reply FunctionCalling.weather_query = false
  /\ FunctionCalling.response_score
       weather_reply FunctionCalling.weather_query = 2%nat
  /\ GridSearch._analyze_function_response
       "get_weather" GridSearch.weather_scenario = false.
Proof. repeat split; vm_compute; reflexivity. Qed.

(** C5, amended: in [test_function_calling.py] the score is 3 for each
    function name, 2 for each function keyword, 1 for each structural token
    found in the lower-cased reply, plus the scenario bonus (0 or 2); in
    [performance_tester_grid_search.py] it is 2 for each scenario keyword and
    1 for each of function/call/api/tool/action; both verdicts are true iff
    the score is at least 3; the weather reply is detected by the grid-search
    classifier with the keywords weather, temperature, forecast. *)
Theorem C5_classifier_scores :
  (forall response scenario,
      FunctionCalling.response_score response scenario
      = (3 * PyStr.count_in FunctionCalling.json_patterns
               (PyStr.lower response)
         + 2 * PyStr.count_in FunctionCalling.function_keywords
                 (PyStr.lower response)
         + 1 * PyStr.count_in FunctionCalling.structured_patterns
                 (PyStr.lower response)
         + FunctionCalling.special_case (PyStr.lower response) scenario)%nat
      /\ (FunctionCalling.special_case (PyStr.lower response) scenario
           = 0%nat
          \/ FunctionCalling.special_case (PyStr.lower response) scenario
             = 2%nat)
      /\ (FunctionCalling._analyze_function_response response scenario = true
          <-> (3 <= FunctionCalling.response_score response scenario)%nat))
  /\ (forall response scenario,
         GridSearch.response_score response scenario
         = (2 * PyStr.count_in (GridSearch.function_keywords scenario)
                  (PyStr.lower response)
            + 1 * PyStr.count_in GridSearch.structured_patterns
                    (PyStr.lower response))%nat
         /\ (GridSearch._analyze_function_response response scenario = true
             <-> (3 <= GridSearch.response_score response scenario)%nat))
  /\ GridSearch.response_score weather_reply GridSearch.weather_scenario
     = 4%nat
  /\ GridSearch._analyze_function_response
       weather_reply GridSearch.weather_scenario = true.
Proof.
  split; [|split; [|split]].
  - intros response scenario. split; [|split].
    + unfold FunctionCalling.response_score.
      rewrite !score_loop_count. lia.
    + unfold FunctionCalling.special_case.
      repeat match goal with
             | |- context [if ?b then _ else _] => destruct b
             end; auto.
    + unfold FunctionCalling._analyze_function_response.
      apply Nat.leb_le.
  - intros response scenario. split.
    + unfold GridSearch.response_score.
      rewrite !score_loop_count. lia.
    + unfold GridSearch._analyze_function_response.
      apply Nat.leb_le.
  - vm_compute. reflexivity.
  - vm_compute. reflexivity.
Qed.

(* ------------------------------------------------------------------ *)
(** * More on the aggregation of a generation probe *)

Lemma max_of_is_max x xs :
  In (Stats.max_of x xs) (x :: xs)
  /\ forall y, In y (x :: xs) -> (y <= Stats.max_of x xs)%R.
Proof.
  unfold Stats.max_of. revert x.
  induction xs as [|z zs IH]; intros x; simpl.
  - split; [now left|]. intros y [<-|[]]. lra.
  - destruct (IH (Rmax x z)) as [Hin Hle]. split.
    + destruct Hin as [Heq|Hin]; [|now right; right].
      rewrite <- Heq. unfold Rmax.
      destruct (Rle_dec x z); [right; now left|now left].
    + intros y Hy.
      assert (Hm : (Rmax x z <= fold_left Rmax zs (Rmax x z))%R)
        by (apply Hle; now left).
      destruct Hy as [<-|[<-|Hy]].
      * pose proof (Rmax_l x z). lra.
      * pose proof (Rmax_r x z). lra.
      * apply Hle. now right.
Qed.

Lemma sum_lower (b : R) (l : list R) :
  (forall y, In y l -> (b <= y)%R) ->
  (INR (List.length l) * b <= Stats.sum l)%R.
Proof.
  induction l as [|a l IH]; intros H.
  - simpl. lra.
  - change (List.length (a :: l)) with (S (List.length l)).
    rewrite S_INR. simpl Stats.sum.
    assert (b <= a)%R by (apply H; now left).
    assert (INR (List.length l) * b <= Stats.sum l)%R
      by (apply IH; intros; apply H; now right).
    lra.
Qed.

Lemma sum_upper (b : R) (l : list R) :
  (forall y, In y l -> (y <= b)%R) ->
  (Stats.sum l <= INR (List.length l) * b)%R.
Proof.
  induction l as [|a l IH]; intros H.
  - simpl. lra.
  - change (List.length (a :: l)) with (S (List.length l)).
    rewrite S_INR. simpl Stats.sum.
    assert (a <= b)%R by (apply H; now left).
    assert (Stats.sum l <= INR (List.length l) * b)%R
      by (apply IH; intros; apply H; now right).
    lra.
Qed.

Lemma length_pos_INR {A : Type} (l : list A) :
  l <> [] -> (0 < INR (List.length l))%R.
Proof.
  destruct l; [congruence|]. intros _.
  change (List.length (a :: l)) with (S (List.length l)).
  rewrite S_INR. pose proof (pos_INR (List.length l)). lra.
Qed.

(** The mean of a non-empty list lies between its least and its greatest
    element. *)
Lemma mean_between (xs : list R) :
  xs <> [] ->
  (Stats.min_of (hd 0 xs) (tl xs) <= Stats.mean_of xs
   <= Stats.max_of (hd 0 xs) (tl xs))%R.
Proof.
  intros Hne. pose proof (length_pos_INR xs Hne) as Hn.
  destruct xs as [|x t]; [congruence|]. simpl hd. simpl tl.
  destruct (min_of_is_min x t) as [_ Hmin].
  destruct (max_of_is_max x t) as [_ Hmax].
  pose proof (sum_lower _ (x :: t) Hmin) as Hl.
  pose proof (sum_upper _ (x :: t) Hmax) as Hu.
  unfold Stats.mean_of.
  set (n := INR (List.length (x :: t))) in *.
  set (s := Stats.sum (x :: t)) in *.
  split.
  - apply Rmult_le_reg_r with n; [exact Hn|].
    unfold Rdiv. rewrite Rmult_assoc, Rinv_l by lra. lra.
  - apply Rmult_le_reg_r with n; [exact Hn|].
    unfold Rdiv. rewrite Rmult_assoc, Rinv_l by lra. lra.
Qed.

Lemma stdev_or_0_nonneg (xs : list R) : (0 <= stdev_or_0_of xs)%R.
Proof.
  unfold stdev_or_0_of, Stats.stdev_of.
  destruct (1 <? List.length xs)%nat; [apply sqrt_pos|lra].
Qed.

Lemma not_none_length_le {A : Type} (l : list (option A)) :
  (List.length (not_none l) <= List.length l)%nat.
Proof.
  induction l as [|[a|] l IH]; simpl; lia.
Qed.

(** What is known when a generation probe returns a result. *)
Lemma llm_probe_done ext self n c r :
  _test_llm_performance ext self n c = LlmDone r ->
  exists llm,
    llm_not_configured ext n c = false
    /\ create_llm_instance ext (PyDict.get_default "type" n c) c = Ok llm
    /\ valid_results_of llm (test_sentences self) <> []
    /\ Rltb (INR (List.length
                    (survivors
                       (map response_time
                            (valid_results_of llm (test_sentences self))))))
            (INR (List.length (test_sentences self)) * 0.5) = false
    /\ INR (List.length (test_sentences self)) <> 0%R
    /\ r = llm_record n (test_sentences self)
                      (valid_results_of llm (test_sentences self)).
Proof.
  unfold _test_llm_performance, llm_try.
  destruct (llm_not_configured ext n c) eqn:E1; [discriminate|].
  destruct (create_llm_instance ext _ c) as [llm|e] eqn:E2;
    [|discriminate].
  simpl. fold (valid_results_of llm (test_sentences self)).
  rewrite llm_summary_cases.
  destruct (valid_results_of llm (test_sentences self)) as [|t v] eqn:E3;
    [discriminate|].
  destruct (Rltb _ _) eqn:E4; [discriminate|].
  destruct (Req_dec_T _ 0) as [E5|E5]; [discriminate|].
  unfold catch. intros [= <-].
  exists llm. rewrite E3. repeat split; auto. discriminate.
Qed.

(** X1: in every result a generation probe returns with [errors] 0, the
    average response time lies between the minimum and the maximum reported,
    the same holds of the first-token times, and both standard deviations
    are non-negative. *)
Theorem X1_llm_result_bounds ext self n c r :
  _test_llm_performance ext self n c = LlmDone r ->
  (Llm.min_response_time r <= Llm.avg_response_time r
   <= Llm.max_response_time r)%R
  /\ (Llm.min_first_token_time r <= Llm.avg_first_token_time r
      <= Llm.max_first_token_time r)%R
  /\ (0 <= Llm.std_response r)%R
  /\ (0 <= Llm.std_first_token r)%R.
Proof.
  intros H. apply llm_probe_done in H.
  destruct H as [llm [_ [_ [Hne [_ [_ ->]]]]]].
  unfold llm_record. simpl.
  assert (H1 : map response_time (valid_results_of llm (test_sentences self))
               <> [])
    by (intros E; apply map_eq_nil in E; contradiction).
  assert (H2 : map first_token_time
                   (valid_results_of llm (test_sentences self)) <> [])
    by (intros E; apply map_eq_nil in E; contradiction).
  split; [now apply mean_between|].
  split; [now apply mean_between|].
  split; apply stdev_or_0_nonneg.
Qed.

(** X2: a result with [errors] 0 has a success rate between one half and
    one: at least half of the test sentences returned a trial. *)
Theorem X2_llm_success_rate_range ext self n c r :
  _test_llm_performance ext self n c = LlmDone r ->
  (0.5 <= Llm.success_rate r <= 1)%R.
Proof.
  intros H. apply llm_probe_done in H.
  destruct H as [llm [_ [_ [Hne [Hgate [Hn ->]]]]]].
  unfold llm_record. simpl.
  set (valid := valid_results_of llm (test_sentences self)) in *.
  assert (Hpos : (0 < INR (List.length (test_sentences self)))%R).
  { pose proof (pos_INR (List.length (test_sentences self))). lra. }
  assert (Hsurv : (INR (List.length (survivors (map response_time valid)))
                   <= INR (List.length valid))%R).
  { apply le_INR. unfold survivors.
    etransitivity; [apply filter_length_le|]. now rewrite length_map. }
  assert (Hle : (INR (List.length valid)
                 <= INR (List.length (test_sentences self)))%R).
  { apply le_INR. unfold valid, valid_results_of.
    etransitivity; [apply not_none_length_le|]. now rewrite length_map. }
  assert (Hhalf : (INR (List.length (test_sentences self)) * 0.5
                   <= INR (List.length valid))%R).
  { unfold Rltb in Hgate. destruct (Rlt_dec _ _); [discriminate|]. lra. }
  set (k := INR (List.length valid)) in *.
  set (m := INR (List.length (test_sentences self))) in *.
  split.
  - apply Rmult_le_reg_r with m; [exact Hpos|].
    unfold Rdiv. rewrite Rmult_assoc, Rinv_l by lra. lra.
  - apply Rmult_le_reg_r with m; [exact Hpos|].
    unfold Rdiv. rewrite Rmult_assoc, Rinv_l by lra. lra.
Qed.

Lemma sample_probe :
  _test_llm_performance (ext_of two_speeds_llm) (tester_of ["q1"; "q2"])
                        "M" []
  = LlmDone (llm_record "M" ["q1"; "q2"]
                        (valid_results_of two_speeds_llm ["q1"; "q2"])).
Proof. apply two_speeds_probe; reflexivity. Qed.

(** The hypothesis of X1 holds of the probe of [two_speeds_llm]. *)
Lemma X1_witness :
  exists r,
    _test_llm_performance (ext_of two_speeds_llm) (tester_of ["q1"; "q2"])
                          "M" []
    = LlmDone r
    /\ (Llm.min_response_time r <= Llm.avg_response_time r
        <= Llm.max_response_time r)%R.
Proof.
  eexists. split; [exact sample_probe|].
  exact (proj1 (X1_llm_result_bounds _ _ _ _ _ sample_probe)).
Defined.

(** The hypothesis of X2 holds of the probe of [two_speeds_llm]. *)
Lemma X2_witness :
  exists r,
    _test_llm_performance (ext_of two_speeds_llm) (tester_of ["q1"; "q2"])
                          "M" []
    = LlmDone r
    /\ (0.5 <= Llm.success_rate r <= 1)%R.
Proof.
  eexists. split; [exact sample_probe|].
  exact (X2_llm_success_rate_range _ _ _ _ _ sample_probe).
Defined.

(* ------------------------------------------------------------------ *)
(** * The filter on small samples *)

Lemma sum_app (l1 l2 : list R) :
  Stats.sum (l1 ++ l2) = (Stats.sum l1 + Stats.sum l2)%R.
Proof.
  unfold Stats.sum. induction l1 as [|a l1 IH]; simpl; [lra|].
  rewrite IH. lra.
Qed.

Lemma sumsq_app (l1 l2 : list R) :
  sumsq (l1 ++ l2) = (sumsq l1 + sumsq l2)%R.
Proof. unfold sumsq. rewrite map_app. apply sum_app. Qed.

Lemma sumsq_nonneg (l : list R) : (0 <= sumsq l)%R.
Proof.
  unfold sumsq, Stats.sum. induction l as [|a l IH]; simpl; [lra|nra].
Qed.

(** The square of a sum is at most the length times the sum of squares. *)
Lemma sum_square_le (l : list R) :
  (Stats.sum l * Stats.sum l <= INR (List.length l) * sumsq l)%R.
Proof.
  induction l as [|a l IH].
  - unfold sumsq. simpl. lra.
  - change (List.length (a :: l)) with (S (List.length l)).
    rewrite S_INR.
    change (Stats.sum (a :: l)) with (a + Stats.sum l)%R.
    change (sumsq (a :: l)) with (a * a + sumsq l)%R.
    pose proof (pos_INR (List.length l)) as Hk.
    pose proof (sumsq_nonneg l) as HQ.
    set (k := INR (List.length l)) in *.
    set (s := Stats.sum l) in *.
    set (q := sumsq l) in *.
    assert (H2 : (2 * a * s <= k * (a * a) + q)%R).
    { destruct (Req_dec_T k 0) as [E|E].
      - rewrite E in IH. assert (s = 0)%R by nra. subst s. nra.
      - assert (0 < k)%R by lra.
        apply Rmult_le_reg_l with k; [assumption|].
        pose proof (Rle_0_sqr (k * a - s)) as Hsq. unfold Rsqr in Hsq.
        nra. }
    nra.
Qed.

(** In a list whose sum is zero, the square of an element, times the
    length, is at most the length less one times the sum of squares. *)
Lemma deviation_bound (ds : list R) (d : R) :
  Stats.sum ds = 0%R -> In d ds ->
  (INR (List.length ds) * (d * d)
   <= (INR (List.length ds) - 1) * sumsq ds)%R.
Proof.
  intros Hs Hin. apply in_split in Hin. destruct Hin as [l1 [l2 ->]].
  rewrite sum_app in Hs. change (Stats.sum (d :: l2)) with (d + Stats.sum l2)%R in Hs.
  rewrite sumsq_app. change (sumsq (d :: l2)) with (d * d + sumsq l2)%R.
  rewrite length_app. change (List.length (d :: l2)) with (S (List.length l2)).
  rewrite Nat.add_succ_r, S_INR, plus_INR.
  pose proof (sum_square_le (l1 ++ l2)) as CS.
  rewrite sum_app, sumsq_app, length_app, plus_INR in CS.
  pose proof (sumsq_nonneg l1). pose proof (sumsq_nonneg l2).
  pose proof (pos_INR (List.length l1)). pose proof (pos_INR (List.length l2)).
  set (k1 := INR (List.length l1)) in *.
  set (k2 := INR (List.length l2)) in *.
  set (s1 := Stats.sum l1) in *. set (s2 := Stats.sum l2) in *.
  set (q1 := sumsq l1) in *. set (q2 := sumsq l2) in *.
  assert (E : (s1 + s2 = - d)%R) by lra.
  rewrite E in CS. nra.
Qed.

Lemma sum_deviations (xs : list R) (m : R) :
  Stats.sum (map (fun x => x - m)%R xs)
  = (Stats.sum xs - INR (List.length xs) * m)%R.
Proof.
  induction xs as [|a xs IH].
  - simpl. lra.
  - change (List.length (a :: xs)) with (S (List.length xs)).
    rewrite S_INR. simpl map.
    change (Stats.sum ((a - m)%R :: map (fun x => (x - m)%R) xs))
      with (a - m + Stats.sum (map (fun x => (x - m)%R) xs))%R.
    rewrite IH. change (Stats.sum (a :: xs)) with (a + Stats.sum xs)%R. lra.
Qed.

Lemma ss_sumsq (xs : list R) :
  Stats.ss xs = sumsq (map (fun x => x - Stats.mean_of xs)%R xs).
Proof. unfold Stats.ss, sumsq. now rewrite map_map. Qed.

(** No element of a sample of at most ten values exceeds the mean plus
    three sample standard deviations. *)
Lemma small_sample_within (xs : list R) (t : R) :
  (List.length xs <= 10)%nat -> In t xs ->
  (t <= Stats.mean_of xs + 3 * stdev_or_0_of xs)%R.
Proof.
  intros Hlen Hin.
  assert (Hne : xs <> []) by (intros ->; contradiction).
  pose proof (length_pos_INR xs Hne) as Hn.
  assert (Hsum : Stats.sum (map (fun x => x - Stats.mean_of xs)%R xs) = 0%R).
  { rewrite sum_deviations. unfold Stats.mean_of. field. lra. }
  assert (Hd : In (t - Stats.mean_of xs)%R
                  (map (fun x => x - Stats.mean_of xs)%R xs))
    by (apply in_map_iff; exists t; auto).
  pose proof (deviation_bound _ _ Hsum Hd) as Hb.
  rewrite length_map, <- ss_sumsq in Hb.
  pose proof (stdev_or_0_nonneg xs) as Hsd.
  destruct (Rle_dec t (Stats.mean_of xs)) as [Hle|Hgt]; [lra|].
  assert (Hdpos : (0 < t - Stats.mean_of xs)%R) by lra.
  assert (Hten : (INR (List.length xs) <= 10)%R).
  { apply le_INR in Hlen. simpl in Hlen. lra. }
  unfold stdev_or_0_of, Stats.stdev_of in *.
  destruct (1 <? List.length xs)%nat eqn:E.
  - apply Nat.ltb_lt in E.
    assert (Htwo : (2 <= INR (List.length xs))%R).
    { apply le_INR in E. simpl in E. lra. }
    set (n := INR (List.length xs)) in *.
    set (d := (t - Stats.mean_of xs)%R) in *.
    set (q := Stats.ss xs) in *.
    assert (Hq : (0 <= q)%R).
    { unfold q. rewrite ss_sumsq. apply sumsq_nonneg. }
    assert (Hs : (d / 3 <= sqrt (q / (n - 1)))%R).
    { apply sqrt_lower; [lra|].
      apply Rmult_le_reg_r with (n - 1)%R; [lra|].
      replace (q / (n - 1) * (n - 1))%R with q by (field; lra).
      apply Rmult_le_reg_l with n; [lra|].
      assert (Hsq : ((n - 1) * (n - 1) <= 9 * n)%R) by nra.
      assert (Hdd : (0 <= d * d)%R) by nra.
      assert (H1 : (n * (d * d) * (n - 1) <= (n - 1) * q * (n - 1))%R)
        by (apply Rmult_le_compat_r; lra).
      assert (H2 : ((n - 1) * (n - 1) * q <= 9 * n * q)%R)
        by (apply Rmult_le_compat_r; lra).
      nra. }
    unfold d in Hs. lra.
  - apply Nat.ltb_ge in E.
    assert (Hone : INR (List.length xs) = 1%R).
    { assert (List.length xs = 1%nat).
      { destruct xs; [congruence|]. simpl in *. lia. }
      rewrite H. reflexivity. }
    rewrite Hone in Hb. nra.
Qed.

Lemma filter_all {A : Type} (f : A -> bool) (l : list A) :
  (forall x, In x l -> f x = true) -> filter f l = l.
Proof.
  induction l as [|a l IH]; intros H; [reflexivity|].
  simpl. rewrite H by now left. f_equal. apply IH.
  intros; apply H; now right.
Qed.

(** X3: with at most ten trials the filter of [_test_llm_performance]
    removes nothing: no response time can exceed mean + 3 * stdev, and
    [filtered_times] is the whole list of response times. *)
Theorem X3_filter_keeps_small_samples (response_times : list R) :
  response_times <> [] ->
  (List.length response_times <= 10)%nat ->
  filtered_times response_times = Ok response_times.
Proof.
  intros Hne Hlen. rewrite filtered_times_ok by exact Hne.
  f_equal. unfold survivors. apply filter_all.
  intros t Ht. apply Rleb_true. now apply small_sample_within.
Qed.

(** The hypotheses of X3 hold of the response times 1 and 2. *)
Lemma X3_witness : filtered_times [1%R; 2%R] = Ok [1%R; 2%R].
Proof.
  apply X3_filter_keeps_small_samples; [discriminate|simpl; lia].
Defined.

(** X4: with at most ten test sentences, a generation backend that is
    configured and created yields a result with [errors] 0 exactly when some
    sentence returned a trial and at least half of the sentences did;
    otherwise the probe returns the failure dictionary. *)
Theorem X4_default_gate ext self n c llm :
  llm_not_configured ext n c = false ->
  create_llm_instance ext (PyDict.get_default "type" n c) c = Ok llm ->
  (List.length (test_sentences self) <= 10)%nat ->
  _test_llm_performance ext self n c
  = match valid_results_of llm (test_sentences self) with
    | [] => Failed n K_llm
    | valid =>
        if Rleb (INR (List.length (test_sentences self)) * 0.5)
                (INR (List.length valid))
        then LlmDone (llm_record n (test_sentences self) valid)
        else Failed n K_llm
    end.
Proof.
  intros H1 H2 Hlen. unfold _test_llm_performance.
  rewrite (llm_try_created ext self n c llm H1 H2), llm_summary_cases.
  assert (Hv : (List.length (valid_results_of llm (test_sentences self))
                <= List.length (test_sentences self))%nat).
  { unfold valid_results_of.
    etransitivity; [apply not_none_length_le|]. now rewrite length_map. }
  destruct (valid_results_of llm (test_sentences self)) as [|t v] eqn:E;
    [reflexivity|].
  assert (Hs : survivors (map response_time (t :: v))
               = map response_time (t :: v)).
  { unfold survivors. apply filter_all. intros x Hx.
    apply Rleb_true. apply small_sample_within; [|exact Hx].
    rewrite length_map. lia. }
  rewrite Hs, length_map.
  unfold Rltb, Rleb.
  destruct (Rlt_dec _ _) as [Hlt|Hge];
    destruct (Rle_dec _ _) as [Hle|Hnle]; try lra; try reflexivity.
  destruct (Req_dec_T _ 0) as [E0|E0]; [|reflexivity].
  exfalso.
  assert (List.length (test_sentences self) = 0)%nat
    by (now apply INR_eq).
  simpl in Hv. lia.
Qed.

(** The hypotheses of X4 hold of [flaky_llm] over five sentences: two
    trials are fewer than half of five, the probe fails. *)
Lemma X4_witness :
  _test_llm_performance (ext_of flaky_llm) (tester_of five_sentences) "M" []
  = Failed "M" K_llm.
Proof.
  rewrite (X4_default_gate (ext_of flaky_llm) (tester_of five_sentences)
                           "M" [] flaky_llm eq_refl eq_refl)
    by (simpl; lia).
  change (valid_results_of flaky_llm (test_sentences (tester_of five_sentences)))
    with (valid_results_of flaky_llm five_sentences).
  destruct (valid_results_of flaky_llm five_sentences) as [|t v] eqn:E;
    [reflexivity|].
  assert (Hl : List.length v = 1%nat).
  { apply (f_equal (@List.length Trial)) in E.
    change (List.length (valid_results_of flaky_llm five_sentences))
      with 2%nat in E.
    simpl in E. lia. }
  cbn [List.length]. rewrite Hl.
  rewrite Rleb_false; [reflexivity|]. simpl. lra.
Defined.

(* ------------------------------------------------------------------ *)
(** * Ties in the ranking *)





(* ------------------------------------------------------------------ *)
(** * Probes without test material, recognition probes *)

(** X6: without test sentences the generation probe and the synthesis probe
    return the failure dictionary, whatever the backend does (the synthesis
    probe even after a successful connection test: the mean of no synthesis
    time raises); without audio samples so does the recognition probe. *)
Theorem X6_no_material_no_result ext self n c :
  (test_sentences self = [] ->
   _test_llm_performance ext self n c = Failed n K_llm
   /\ _test_tts_performance ext self n c = Failed n K_tts)
  /\ (test_wav_list self = [] ->
      _test_stt_performance ext self n c = Failed n K_stt).
Proof.
  split.
  - intros E. split.
    + unfold _test_llm_performance, llm_try. rewrite E.
      destruct (llm_not_configured ext n c); [reflexivity|].
      destruct (create_llm_instance ext _ c); reflexivity.
    + unfold _test_tts_performance, tts_try. rewrite E.
      destruct (token_not_configured c); [reflexivity|].
      destruct (create_tts_instance ext _ c) as [tts|e]; [|reflexivity].
      simpl. destruct (tts "Connection test") as [[t [sz|]]|e]; reflexivity.
  - intros E. unfold _test_stt_performance, stt_try. rewrite E.
    destruct (token_not_configured c); [reflexivity|].
    destruct (create_stt_instance ext _ c); reflexivity.
Qed.

Lemma stt_trials_count stt wavs :
  forall times k times' k',
    stt_trials stt wavs times k = Ok (Some (times', k')) ->
    k' = (k + List.length wavs)%nat
    /\ List.length times' = (List.length times + List.length wavs)%nat.
Proof.
  induction wavs as [|w wavs IH]; intros times k times' k' H.
  - simpl in H. injection H as <- <-. simpl. lia.
  - simpl in H. destruct (stt w) as [[text t]|e]; simpl in H; [|discriminate].
    destruct text as [text|]; [|discriminate].
    destruct (text =? ""); [discriminate|].
    apply IH in H. rewrite length_app in H. simpl in *. lia.
Qed.

Lemma stt_probe_done ext self n c r :
  _test_stt_performance ext self n c = SttDone r ->
  exists stt times,
    create_stt_instance ext (PyDict.get_default "type" n c) c = Ok stt
    /\ stt_trials stt (test_wav_list self) [] 0
       = Ok (Some (times, List.length (test_wav_list self)))
    /\ List.length times = List.length (test_wav_list self)
    /\ test_wav_list self <> []
    /\ Stt.avg_processing_time r = Stats.mean_of times
    /\ Stt.min_processing_time r = Stats.min_of (hd 0%R times) (tl times)
    /\ Stt.max_processing_time r = Stats.max_of (hd 0%R times) (tl times)
    /\ Stt.success_rate r
       = (INR (List.length (test_wav_list self))
          / INR (List.length (test_wav_list self)))%R
    /\ Stt.name r = n /\ Stt.errors r = 0%Z.
Proof.
  unfold _test_stt_performance, stt_try.
  destruct (token_not_configured c); [discriminate|].
  destruct (create_stt_instance ext _ c) as [stt|e]; [|discriminate].
  cbn [bind].
  destruct (test_wav_list self) as [|w0 ws] eqn:Ew; [discriminate|].
  cbv iota. rewrite <- Ew.
  destruct (stt w0) as [[text0 t0]|e] eqn:E0; [|discriminate].
  cbn [bind fst snd]. destruct text0 as [text0|]; [|discriminate].
  destruct (stt_trials stt (test_wav_list self) [] 0)
    as [[[times k]|]|e] eqn:Et; try discriminate.
  pose proof (stt_trials_count _ _ _ _ _ _ Et) as [Hk Hlen].
  simpl in Hk, Hlen. subst k.
  cbn [bind]. rewrite stdev_or_0_ok.
  destruct times as [|x times].
  { exfalso. rewrite Ew in Hlen. discriminate. }
  cbn [bind Stats.mean Stats.min Stats.max].
  unfold pydiv.
  destruct (Req_dec_T _ 0) as [E|E]; [discriminate|].
  cbn [bind catch]. intros [= <-]. cbn [Stt.avg_processing_time
    Stt.min_processing_time Stt.max_processing_time Stt.success_rate
    Stt.name Stt.errors hd tl].
  exists stt, (x :: times). repeat split; auto.
  rewrite Ew. discriminate.
Qed.

(** X7: a recognition probe that returns a result with [errors] 0 reports a
    success rate of exactly 1 (a sample that is not recognised ends the
    probe with the failure dictionary), and an average processing time
    between the minimum and the maximum over as many trials as there are
    samples. *)
Theorem X7_stt_success_rate_is_one ext self n c r :
  _test_stt_performance ext self n c = SttDone r ->
  Stt.success_rate r = 1%R
  /\ (Stt.min_processing_time r <= Stt.avg_processing_time r
      <= Stt.max_processing_time r)%R.
Proof.
  intros H. apply stt_probe_done in H.
  destruct H as [stt [times [_ [_ [Hlen [Hne [Ha [Hmi [Hma [Hs _]]]]]]]]]].
  split.
  - rewrite Hs. field.
    pose proof (length_pos_INR _ Hne). lra.
  - rewrite Ha, Hmi, Hma. apply mean_between.
    intros ->. simpl in Hlen. destruct (test_wav_list self); [congruence|].
    discriminate.
Qed.

(** The hypotheses of X6 hold of a tester without sentences and without
    audio samples. *)
Lemma X6_witness :
  test_sentences (tester_of []) = []
  /\ test_wav_list (tester_of []) = []
  /\ _test_tts_performance ext_sample (tester_of []) "Good" [("type", "edge")]
     = Failed "Good" K_tts
  /\ _test_stt_performance ext_stt (tester_of []) "S" [] = Failed "S" K_stt.
Proof.
  split; [reflexivity|]. split; [reflexivity|].
  destruct (X6_no_material_no_result ext_sample (tester_of [])
                                     "Good" [("type", "edge")]) as [H1 _].
  destruct (X6_no_material_no_result ext_stt (tester_of []) "S" [])
    as [_ H2].
  split; [exact (proj2 (H1 eq_refl))|exact (H2 eq_refl)].
Defined.

Lemma sample_stt_probe :
  exists r, _test_stt_performance ext_stt tester_one_wav "S" [] = SttDone r.
Proof.
  unfold _test_stt_performance, stt_try.
  cbn [token_not_configured]. 
  change (token_not_configured []) with false. cbv iota.
  cbn [create_stt_instance ext_stt bind test_wav_list tester_one_wav].
  cbn [working_stt bind fst snd stt_trials].
  change ("hello" =? "") with false. cbv iota.
  cbn [stt_trials bind app].
  rewrite stdev_or_0_ok.
  cbn [Stats.mean Stats.min Stats.max bind].
  rewrite pydiv_ok by (simpl; lra).
  cbn [bind catch]. eexists. reflexivity.
Qed.

(** The hypothesis of X7 holds of [working_stt] over one audio sample. *)
Lemma X7_witness :
  exists r,
    _test_stt_performance ext_stt tester_one_wav "S" [] = SttDone r
    /\ Stt.success_rate r = 1%R.
Proof.
  destruct sample_stt_probe as [r Hr].
  exists r. split; [exact Hr|].
  exact (proj1 (X7_stt_success_rate_is_one _ _ _ _ _ Hr)).
Defined.

(* ------------------------------------------------------------------ *)
(** * Substrings and the classifiers *)

Lemma prefix_iff (p s : string) :
  prefix p s = true <-> exists v, s = (p ++ v)%string.
Proof.
  revert s. induction p as [|a p IH]; intros s.
  - split; [intros _; now exists s|intros _; destruct s; reflexivity].
  - destruct s as [|b s]; simpl.
    + split; [discriminate|]. intros [v Hv]. discriminate.
    + destruct (ascii_dec a b) as [->|Hne].
      * rewrite IH. split; intros [v Hv]; exists v; congruence.
      * split; [discriminate|]. intros [v Hv]. congruence.
Qed.

Lemma contains_iff (p s : string) :
  PyStr.contains p s = true
  <-> exists u v, s = (u ++ p ++ v)%string.
Proof.
  induction s as [|c s IH]; cbn [PyStr.contains].
  - destruct (prefix p "") eqn:E.
    + apply prefix_iff in E. destruct E as [v Hv].
      split; [intros _; exists ""%string, v; exact Hv|intros _; reflexivity].
    + split; [discriminate|]. intros [u [v H]].
      destruct u; simpl in H.
      * assert (prefix p "" = true) by (apply prefix_iff; now exists v).
        congruence.
      * discriminate.
  - destruct (prefix p (String c s)) eqn:E.
    + apply prefix_iff in E. destruct E as [v Hv].
      split; [intros _; exists ""%string, v; exact Hv|intros _; reflexivity].
    + rewrite IH. split.
      * intros [u [v H]]. exists (String c u), v. simpl. now rewrite H.
      * intros [u [v H]]. destruct u as [|c' u]; simpl in H.
        -- assert (prefix p (String c s) = true)
             by (apply prefix_iff; now exists v).
           congruence.
        -- injection H as _ H. now exists u, v.
Qed.

Lemma string_app_assoc (a b c : string) :
  ((a ++ b) ++ c)%string = (a ++ b ++ c)%string.
Proof. induction a as [|x a IH]; simpl; [reflexivity|now rewrite IH]. Qed.

(** A substring of a substring is a substring. *)
Lemma contains_trans (a b s : string) :
  PyStr.contains a b = true -> PyStr.contains b s = true ->
  PyStr.contains a s = true.
Proof.
  rewrite !contains_iff. intros [u [v ->]] [u' [v' ->]].
  exists (u' ++ u)%string, (v ++ v')%string.
  now rewrite !string_app_assoc.
Qed.

Lemma count_in_one (xs : list string) (s x : string) :
  In x xs -> PyStr.contains x s = true -> (1 <= PyStr.count_in xs s)%nat.
Proof.
  unfold PyStr.count_in. intros Hin Hc.
  assert (H : In x (filter (fun x => PyStr.contains x s) xs))
    by (apply filter_In; auto).
  destruct (filter _ xs); [contradiction|simpl; lia].
Qed.

Lemma count_in_two (xs : list string) (s x y : string) :
  In x xs -> In y xs -> x <> y ->
  PyStr.contains x s = true -> PyStr.contains y s = true ->
  (2 <= PyStr.count_in xs s)%nat.
Proof.
  unfold PyStr.count_in. intros Hx Hy Hne Cx Cy.
  assert (Fx : In x (filter (fun x => PyStr.contains x s) xs))
    by (apply filter_In; auto).
  assert (Fy : In y (filter (fun x => PyStr.contains x s) xs))
    by (apply filter_In; auto).
  destruct (filter _ xs) as [|a [|b l]]; simpl in *;
    [contradiction
    |destruct Fx as [<-|[]], Fy as [<-|[]]; congruence
    |lia].
Qed.

Lemma function_calling_score_parts response scenario :
  FunctionCalling.response_score response scenario
  = (3 * PyStr.count_in FunctionCalling.json_patterns (PyStr.lower response)
     + 2 * PyStr.count_in FunctionCalling.function_keywords
             (PyStr.lower response)
     + PyStr.count_in FunctionCalling.structured_patterns
                      (PyStr.lower response)
     + FunctionCalling.special_case (PyStr.lower response) scenario)%nat.
Proof.
  unfold FunctionCalling.response_score. rewrite !score_loop_count. lia.
Qed.

(** X8: the classifier of [test_function_calling.py] detects every reply
    that holds, in any letter case, one of the seven function names,
    whatever the scenario. *)
Theorem X8_function_name_detected response scenario p :
  In p FunctionCalling.json_patterns ->
  PyStr.contains p (PyStr.lower response) = true ->
  FunctionCalling._analyze_function_response response scenario = true.
Proof.
  intros Hin Hc. unfold FunctionCalling._analyze_function_response.
  apply Nat.leb_le. rewrite function_calling_score_parts.
  pose proof (count_in_one _ _ _ Hin Hc). lia.
Qed.

(** The hypotheses of X8 hold of a reply that names [get_weather] in upper
    case. *)
Lemma X8_witness :
  FunctionCalling._analyze_function_response
    "Calling GET_WEATHER now" FunctionCalling.weather_query = true.
Proof.
  apply (X8_function_name_detected _ _ "get_weather");
    [left; reflexivity|vm_compute; reflexivity].
Defined.

(** X9: the same classifier detects every reply that holds two different
    function keywords, whatever the scenario and whatever else the reply
    says; one keyword phrase that holds another keyword, such as
    ["weather api"], is enough, and so is the token ["function_name"]. *)
Theorem X9_two_keywords_detected response scenario :
  (forall k1 k2,
      In k1 FunctionCalling.function_keywords ->
      In k2 FunctionCalling.function_keywords ->
      k1 <> k2 ->
      PyStr.contains k1 (PyStr.lower response) = true ->
      PyStr.contains k2 (PyStr.lower response) = true ->
      FunctionCalling._analyze_function_response response scenario = true)
  /\ (PyStr.contains "weather api" (PyStr.lower response) = true ->
      FunctionCalling._analyze_function_response response scenario = true)
  /\ (PyStr.contains "function_name" (PyStr.lower response) = true ->
      FunctionCalling._analyze_function_response response scenario = true).
Proof.
  assert (Two : forall k1 k2,
             In k1 FunctionCalling.function_keywords ->
             In k2 FunctionCalling.function_keywords ->
             k1 <> k2 ->
             PyStr.contains k1 (PyStr.lower response) = true ->
             PyStr.contains k2 (PyStr.lower response) = true ->
             FunctionCalling._analyze_function_response response scenario
             = true).
  { intros k1 k2 H1 H2 Hne C1 C2.
    unfold FunctionCalling._analyze_function_response.
    apply Nat.leb_le. rewrite function_calling_score_parts.
    pose proof (count_in_two _ _ _ _ H1 H2 Hne C1 C2). lia. }
  split; [exact Two|]. split.
  - intros C. apply (Two "api" "weather api").
    + unfold FunctionCalling.function_keywords. simpl. tauto.
    + unfold FunctionCalling.function_keywords. simpl. tauto.
    + discriminate.
    + apply (contains_trans _ "weather api"); [reflexivity|exact C].
    + exact C.
  - intros C.
    unfold FunctionCalling._analyze_function_response.
    apply Nat.leb_le. rewrite function_calling_score_parts.
    assert (C' : PyStr.contains "function" (PyStr.lower response) = true)
      by (apply (contains_trans _ "function_name"); [reflexivity|exact C]).
    assert (H1 : (1 <= PyStr.count_in FunctionCalling.function_keywords
                                      (PyStr.lower response))%nat)
      by (apply (count_in_one _ _ "function"); [now left|exact C']).
    assert (H2 : (1 <= PyStr.count_in FunctionCalling.structured_patterns
                                      (PyStr.lower response))%nat).
    { apply (count_in_one _ _ "function_name"); [|exact C].
      unfold FunctionCalling.structured_patterns. simpl. tauto. }
    lia.
Qed.

(** A refusal that says "call" and "function" is detected as a function
    call. *)
Lemma X9_witness :
  FunctionCalling._analyze_function_response
    "Sorry, I cannot call any function." FunctionCalling.weather_query
  = true.
Proof.
  apply (proj1 (X9_two_keywords_detected _ _) "function" "call").
  - now left.
  - right. now left.
  - discriminate.
  - vm_compute. reflexivity.
  - vm_compute. reflexivity.
Defined.

(* ------------------------------------------------------------------ *)
(** * Letter case *)

Lemma lower_ascii_not_upper (c : ascii) :
  is_upper (PyStr.lower_ascii c) = false.
Proof.
  destruct c as [b0 b1 b2 b3 b4 b5 b6 b7].
  destruct b0, b1, b2, b3, b4, b5, b6, b7; reflexivity.
Qed.

Lemma has_upper_lower (s : string) : has_upper (PyStr.lower s) = false.
Proof.
  induction s as [|c s IH]; [reflexivity|].
  simpl. now rewrite lower_ascii_not_upper, IH.
Qed.

Lemma has_upper_app (a b : string) :
  has_upper (a ++ b)%string = has_upper a || has_upper b.
Proof.
  induction a as [|c a IH]; [reflexivity|].
  simpl. rewrite IH. now rewrite orb_assoc.
Qed.

(** A string with an upper-case letter is in no lower-cased string. *)
Lemma upper_never_in_lower (k s : string) :
  has_upper k = true -> PyStr.contains k (PyStr.lower s) = false.
Proof.
  intros Hk. destruct (PyStr.contains k (PyStr.lower s)) eqn:E;
    [|reflexivity].
  apply contains_iff in E. destruct E as [u [v E]].
  pose proof (has_upper_lower s) as H. rewrite E in H.
  rewrite !has_upper_app, Hk in H.
  destruct (has_upper u); discriminate.
Qed.

Lemma count_in_none (xs : list string) (s : string) :
  (forall x, In x xs -> PyStr.contains x s = false) ->
  PyStr.count_in xs s = 0%nat.
Proof.
  unfold PyStr.count_in. induction xs as [|x xs IH]; intros H;
    [reflexivity|].
  simpl. rewrite H by now left. apply IH. intros; apply H; now right.
Qed.

(** X10: the classifier of [performance_tester_grid_search.py] lower-cases
    the reply and not the scenario keywords: a keyword with an upper-case
    letter never matches, and a scenario whose keywords all have one is
    scored on the five structural words alone. *)
Theorem X10_upper_case_keywords_never_match response scenario :
  (forall k, In k (GridSearch.function_keywords scenario) ->
             has_upper k = true) ->
  GridSearch.response_score response scenario
  = PyStr.count_in GridSearch.structured_patterns (PyStr.lower response)
  /\ (GridSearch._analyze_function_response response scenario = true
      <-> (3 <= PyStr.count_in GridSearch.structured_patterns
                               (PyStr.lower response))%nat).
Proof.
  intros H.
  assert (E : GridSearch.response_score response scenario
              = PyStr.count_in GridSearch.structured_patterns
                               (PyStr.lower response)).
  { unfold GridSearch.response_score. rewrite !score_loop_count.
    rewrite count_in_none; [lia|].
    intros k Hk. apply upper_never_in_lower. now apply H. }
  split; [exact E|].
  unfold GridSearch._analyze_function_response. rewrite E.
  apply Nat.leb_le.
Qed.

(** The hypothesis of X10 holds of [capital_scenario]: the weather reply
    scores nothing on the keyword ["Weather"]. *)
Lemma X10_witness :
  GridSearch.response_score weather_reply capital_scenario
  = PyStr.count_in GridSearch.structured_patterns (PyStr.lower weather_reply)
  /\ GridSearch._analyze_function_response weather_reply capital_scenario
     = false.
Proof.
  assert (H : forall k, In k (GridSearch.function_keywords capital_scenario)
                        -> has_upper k = true).
  { intros k [<-|[]]. reflexivity. }
  destruct (X10_upper_case_keywords_never_match weather_reply
                                                capital_scenario H)
    as [E _].
  split; [exact E|].
  unfold GridSearch._analyze_function_response. rewrite E.
  vm_compute. reflexivity.
Defined.

(* ------------------------------------------------------------------ *)
(** * The service check *)

Lemma any_named_true (m : string) (models : list (option string)) :
  any_named (Some m) models = Ok true
  <-> exists before after,
      models = map Some before ++ Some m :: after /\ ~ In m before.
Proof.
  induction models as [|[name|] models IH]; simpl.
  - split; [discriminate|]. intros [b [a [H _]]].
    destruct b; discriminate.
  - destruct (String.eqb_spec name m) as [->|Hne].
    + split; [intros _|reflexivity].
      exists [], models. simpl. tauto.
    + rewrite IH. split.
      * intros [b [a [-> Hn]]]. exists (name :: b), a. simpl.
        split; [reflexivity|]. intros [E|E]; [congruence|contradiction].
      * intros [b [a [H Hn]]]. destruct b as [|x b]; simpl in H.
        -- congruence.
        -- injection H as <- ->. exists b, a. split; [reflexivity|].
           intros E. apply Hn. now right.
  - split; [discriminate|]. intros [b [a [H _]]].
    destruct b; discriminate.
Qed.

(** X11: [_check_ollama_service] of [performance_tester_en.py] answers
    [True] exactly when the version request and the model-list request both
    answer 200 and the model name is in the list, no entry before it lacking
    a name; any exception and any other status give [False]. *)
Theorem X11_ollama_check_true http base_url model_name :
  Enhanced._check_ollama_service http base_url model_name = true
  <-> get_status http (base_url ++ "/api/version")%string = Ok 200%nat
      /\ get_status http (base_url ++ "/api/tags")%string = Ok 200%nat
      /\ exists before after,
          get_models http (base_url ++ "/api/tags")%string
          = Ok (map Some before ++ Some model_name :: after)
          /\ ~ In model_name before.
Proof.
  unfold Enhanced._check_ollama_service, or_false.
  destruct (get_status http (base_url ++ "/api/version")%string)
    as [s1|e1]; simpl.
  - destruct (Nat.eqb_spec s1 200) as [->|Hne1]; simpl.
    + destruct (get_status http (base_url ++ "/api/tags")%string)
        as [s2|e2]; simpl.
      * destruct (Nat.eqb_spec s2 200) as [->|Hne2]; simpl.
        -- destruct (get_models http (base_url ++ "/api/tags")%string)
             as [models|e3]; simpl.
           ++ destruct (any_named (Some model_name) models) as [[|]|e4]
                eqn:E; simpl.
              ** apply any_named_true in E. destruct E as [b [a [-> Hn]]].
                 split; [intros _|reflexivity].
                 repeat split; auto. now exists b, a.
              ** split; [discriminate|].
                 intros [_ [_ [b [a [H Hn]]]]]. injection H as ->.
                 assert (any_named (Some model_name)
                                   (map Some b ++ Some model_name :: a)
                         = Ok true)
                   by (apply any_named_true; now exists b, a).
                 congruence.
              ** split; [discriminate|].
                 intros [_ [_ [b [a [H Hn]]]]]. injection H as ->.
                 assert (any_named (Some model_name)
                                   (map Some b ++ Some model_name :: a)
                         = Ok true)
                   by (apply any_named_true; now exists b, a).
                 congruence.
           ++ split; [discriminate|].
              intros [_ [_ [b [a [H _]]]]]. discriminate.
        -- split; [discriminate|]. intros [_ [H _]]. congruence.
      * split; [discriminate|]. intros [_ [H _]]. discriminate.
    + split; [discriminate|]. intros [H _]. congruence.
  - split; [discriminate|]. intros [H _]. discriminate.
Qed.

(* ------------------------------------------------------------------ *)
(** * [__init__] and the recognition tasks *)

(** X12: [__init__] keeps an asset file only when it is larger than
    300 * 1024 bytes; when the directory is missing or holds no such file,
    [run] creates no recognition task, whatever the [ASR] section of the
    configuration holds. *)
Theorem X12_no_sample_no_recognition_task c sentences assets :
  (forall w, In w (test_wav_list (Enhanced.__init__ c sentences assets)) ->
             (300 * 1024 < String.length w)%nat)
  /\ ((forall files f, assets = Some files -> In f files ->
                       (String.length (snd f) <= 300 * 1024)%nat) ->
      forall t, In t (all_tasks (Enhanced.__init__ c sentences assets)) ->
                task_kind t <> K_stt).
Proof.
  split.
  - intros w Hw. simpl in Hw. unfold Enhanced.load_wavs in Hw.
    destruct assets as [files|]; [|contradiction].
    apply in_map_iff in Hw. destruct Hw as [f [<- Hf]].
    apply filter_In in Hf. destruct Hf as [_ Hf].
    now apply Nat.ltb_lt in Hf.
  - intros Hsmall t Ht.
    assert (E : test_wav_list (Enhanced.__init__ c sentences assets) = []).
    { cbn [test_wav_list Enhanced.__init__]. unfold Enhanced.load_wavs.
      destruct assets as [files|]; [|reflexivity].
      assert (Hs : forall f, In f files ->
                             (String.length (snd f) <= 300 * 1024)%nat)
        by (intros f Hf; now apply (Hsmall files)).
      clear Hsmall Ht.
      induction files as [|f files IH]; [reflexivity|].
      cbn [filter].
      destruct (Nat.ltb_spec (300 * 1024) (String.length (snd f)))
        as [Hlt|Hge].
      - exfalso. specialize (Hs f (or_introl eq_refl)). lia.
      - apply IH. intros f' Hf'. apply Hs. now right. }
    unfold all_tasks in Ht. rewrite E in Ht. simpl in Ht.
    rewrite app_nil_r in Ht.
    apply in_app_or in Ht. destruct Ht as [Ht|Ht];
      apply tasks_of_kind in Ht; rewrite Ht; discriminate.
Qed.

(* ------------------------------------------------------------------ *)
(** * The report *)

Lemma for_each_raises {A S : Type} (e : string) (l : list A)
      (body : A -> S -> exc S) :
  (forall x s, In x l -> body x s = Raise e \/ exists s', body x s = Ok s') ->
  (exists x, In x l /\ forall s, body x s = Raise e) ->
  forall s, for_each l body s = Raise e.
Proof.
  induction l as [|a l IH]; intros Hall [x [Hin Hx]] s; [contradiction|].
  simpl. destruct (Hall a s (or_introl eq_refl)) as [E|[s' E]].
  - now rewrite E.
  - rewrite E. simpl. destruct Hin as [->|Hin].
    + rewrite Hx in E. discriminate.
    + apply IH; [|now exists x].
      intros y s0 Hy. apply Hall. now right.
Qed.

Lemma build_llm_table_step (kv : string * Llm.Result) (table : list Enhanced.LlmRow) :
  (if (Llm.errors (snd kv) =? 0)%Z then
     stability <- pydiv (Llm.std_first_token (snd kv))
                        (Llm.avg_first_token_time (snd kv)) ;;
     Ok (table ++ [ {| Enhanced.lr_name := fst kv;
                       Enhanced.lr_first_token :=
                         Llm.avg_first_token_time (snd kv);
                       Enhanced.lr_response := Llm.avg_response_time (snd kv);
                       Enhanced.lr_tokens_per_second :=
                         Llm.avg_tokens_per_second (snd kv);
                       Enhanced.lr_stability := stability;
                       Enhanced.lr_success_rate :=
                         Llm.success_rate (snd kv) |} ])
   else Ok table)
  = Raise "ZeroDivisionError"
  \/ exists table',
      (if (Llm.errors (snd kv) =? 0)%Z then
         stability <- pydiv (Llm.std_first_token (snd kv))
                            (Llm.avg_first_token_time (snd kv)) ;;
         Ok (table ++ [ {| Enhanced.lr_name := fst kv;
                           Enhanced.lr_first_token :=
                             Llm.avg_first_token_time (snd kv);
                           Enhanced.lr_response :=
                             Llm.avg_response_time (snd kv);
                           Enhanced.lr_tokens_per_second :=
                             Llm.avg_tokens_per_second (snd kv);
                           Enhanced.lr_stability := stability;
                           Enhanced.lr_success_rate :=
                             Llm.success_rate (snd kv) |} ])
       else Ok table)
      = Ok table'.
Proof.
  destruct (Llm.errors (snd kv) =? 0)%Z; [|right; eauto].
  unfold pydiv. destruct (Req_dec_T _ 0); simpl; [now left|right; eauto].
Qed.

(** X13: when a generation result with [errors] 0 has an average
    first-token time of 0, [_print_results] raises [ZeroDivisionError] while
    it builds its first table, and the report of [run] is lost, although
    [_generate_combinations] has returned (it leaves that backend out). *)
Theorem X13_report_raises_on_zero_first_token results vram_usage k v :
  In (k, v) (llm results) ->
  Llm.errors v = 0%Z ->
  Llm.avg_first_token_time v = 0%R ->
  Enhanced._print_results results vram_usage = Raise "ZeroDivisionError"
  /\ (forall ranked,
         _generate_combinations results = Ok ranked ->
         Enhanced.run_report results vram_usage
         = Raise "ZeroDivisionError").
Proof.
  intros Hin He Ha.
  assert (P : forall r, llm r = llm results ->
                        Enhanced._print_results r vram_usage
                        = Raise "ZeroDivisionError").
  { intros r Hr. unfold Enhanced._print_results, Enhanced.build_llm_table.
    rewrite Hr.
    rewrite for_each_raises with (e := "ZeroDivisionError"); [reflexivity| |].
    - intros x s _. apply build_llm_table_step.
    - exists (k, v). split; [exact Hin|]. intros s. simpl.
      rewrite He. simpl. unfold pydiv. rewrite Ha.
      destruct (Req_dec_T 0 0); [reflexivity|congruence]. }
  split; [now apply P|].
  intros ranked Hr. unfold Enhanced.run_report. rewrite Hr. simpl.
  rewrite P; [reflexivity|].
  unfold _generate_combinations, bind in Hr.
  repeat match type of Hr with
         | match ?x with _ => _ end = _ => destruct x; try discriminate
         end.
  injection Hr as <-. reflexivity.
Qed.

(** The hypothesis of X12 holds of a directory with one small file. *)
Lemma X12_witness :
  Forall (fun t => task_kind t <> K_stt)
         (all_tasks
            (Enhanced.__init__
               {| LLM := None; TTS := None;
                  ASR := Some [("FunASR", [("type", "fun_local")])] |}
               None (Some [("hello.wav", "RIFF")]))).
Proof.
  apply Forall_forall.
  apply (proj2 (X12_no_sample_no_recognition_task _ _ _)).
  intros files f [= <-] [<-|[]].
  change (4 <= 300 * 1024)%nat. lia.
Defined.

(** The hypotheses of X13 hold of the backend ["Z"] of [results_instant]. *)
Lemma X13_witness :
  In ("Z", llm_result "Z" 0 0) (llm results_instant)
  /\ Enhanced._print_results results_instant []
     = Raise "ZeroDivisionError".
Proof.
  assert (H : In ("Z", llm_result "Z" 0 0) (llm results_instant))
    by (right; left; reflexivity).
  split; [exact H|].
  exact (proj1 (X13_report_raises_on_zero_first_token
                  results_instant [] "Z" _ H eq_refl eq_refl)).
Defined.

Lemma build_llm_table_ok (results : Results) :
  (forall k v, In (k, v) (llm results) -> Llm.errors v = 0%Z ->
               Llm.avg_first_token_time v <> 0%R) ->
  exists table,
    Enhanced.build_llm_table results = Ok table
    /\ map Enhanced.lr_name table = map fst (error_free_llms results).
Proof.
  unfold Enhanced.build_llm_table, error_free_llms.
  intros H.
  assert (G : forall l table0,
             (forall k v, In (k, v) l -> Llm.errors v = 0%Z ->
                          Llm.avg_first_token_time v <> 0%R) ->
             exists table,
               for_each l
                 (fun kv table =>
                    if (Llm.errors (snd kv) =? 0)%Z then
                      stability <- pydiv (Llm.std_first_token (snd kv))
                                         (Llm.avg_first_token_time (snd kv)) ;;
                      Ok (table ++
                          [ {| Enhanced.lr_name := fst kv;
                               Enhanced.lr_first_token :=
                                 Llm.avg_first_token_time (snd kv);
                               Enhanced.lr_response :=
                                 Llm.avg_response_time (snd kv);
                               Enhanced.lr_tokens_per_second :=
                                 Llm.avg_tokens_per_second (snd kv);
                               Enhanced.lr_stability := stability;
                               Enhanced.lr_success_rate :=
                                 Llm.success_rate (snd kv) |} ])
                    else Ok table)
                 table0
               = Ok table
               /\ map Enhanced.lr_name table
                  = map Enhanced.lr_name table0
                    ++ map fst (filter (fun kv => (Llm.errors (snd kv) =? 0)%Z)
                                       l)).
  { induction l as [|[k v] l IH]; intros table0 Hl.
    - exists table0. simpl. now rewrite app_nil_r.
    - cbn [for_each filter snd fst].
      destruct (Z.eqb_spec (Llm.errors v) 0) as [E|E].
      + rewrite pydiv_ok by (apply (Hl k v); [now left|exact E]).
        cbn [bind].
        destruct (IH (table0 ++
                      [ {| Enhanced.lr_name := k;
                           Enhanced.lr_first_token :=
                             Llm.avg_first_token_time v;
                           Enhanced.lr_response := Llm.avg_response_time v;
                           Enhanced.lr_tokens_per_second :=
                             Llm.avg_tokens_per_second v;
                           Enhanced.lr_stability :=
                             (Llm.std_first_token v
                              / Llm.avg_first_token_time v)%R;
                           Enhanced.lr_success_rate := Llm.success_rate v |} ]))
          as [table [E1 E2]].
        { intros k' v' Hin. apply (Hl k' v'). now right. }
        exists table. split; [exact E1|].
        rewrite E2, map_app. simpl. now rewrite <- app_assoc.
      + cbn [bind]. apply IH. intros k' v' Hin. apply (Hl k' v'). now right. }
  destruct (G (llm results) [] H) as [table [E1 E2]].
  exists table. split; [exact E1|exact E2].
Qed.

Lemma generate_combinations_sorted (self out : Results) :
  _generate_combinations self = Ok out ->
  llm out = llm self
  /\ exists l, combinations out = sort_by score l.
Proof.
  unfold _generate_combinations, bind. intros H.
  repeat match type of H with
         | match ?x with _ => _ end = _ => destruct x; try discriminate
         end.
  injection H as <-. simpl. eauto.
Qed.

Lemma sorted_firstn_skipn {A : Type} (le : A -> A -> Prop) (l : list A) :
  StronglySorted le l ->
  forall n a b, In a (firstn n l) -> In b (skipn n l) -> le a b.
Proof.
  induction 1 as [|x l Hs IH Hall]; intros n a b Ha Hb.
  - destruct n; contradiction.
  - destruct n as [|n]; [contradiction|].
    simpl in Ha, Hb. destruct Ha as [<-|Ha].
    + apply (proj1 (Forall_forall _ _) Hall).
      rewrite <- (firstn_skipn n l). apply in_or_app. now right.
    + now apply (IH n).
Qed.

(** X14: the report of [run] shows at most five combinations, the first
    five of the ranking, and none of them scores higher than a combination
    it leaves out. *)
Theorem X14_report_shows_five_best results vram_usage ranked tables :
  Enhanced.run_report results vram_usage = Ok (ranked, tables) ->
  Enhanced.combo_table tables = firstn 5 (combinations ranked)
  /\ (List.length (Enhanced.combo_table tables) <= 5)%nat
  /\ (forall c c',
         In c (Enhanced.combo_table tables) ->
         In c' (skipn 5 (combinations ranked)) ->
         (score c <= score c')%R).
Proof.
  unfold Enhanced.run_report. intros H.
  destruct (_generate_combinations results) as [r|e] eqn:G;
    [|discriminate].
  simpl in H.
  destruct (Enhanced._print_results r vram_usage) as [t|e] eqn:P;
    [|discriminate].
  simpl in H. injection H as <- <-.
  assert (E : Enhanced.combo_table t = firstn 5 (combinations r)).
  { unfold Enhanced._print_results in P.
    destruct (Enhanced.build_llm_table r); [|discriminate].
    simpl in P. injection P as <-. reflexivity. }
  split; [exact E|]. rewrite E. split; [apply firstn_le_length|].
  apply generate_combinations_sorted in G. destruct G as [_ [l ->]].
  intros c c'. apply (sorted_firstn_skipn by_score).
  apply (sort_by_sorted score).
Qed.

Lemma results_ab_report :
  exists ranked tables,
    Enhanced.run_report results_ab [] = Ok (ranked, tables).
Proof.
  destruct results_ab_wf as [W1 [W2 [W3 [P1 P2]]]].
  unfold Enhanced.run_report.
  rewrite generate_combinations_ok by assumption. cbn [bind].
  unfold Enhanced._print_results.
  destruct (build_llm_table_ok
              {| llm := llm results_ab; tts := tts results_ab;
                 stt := stt results_ab;
                 combinations :=
                   sort_by score (combinations results_ab
                                  ++ new_combinations results_ab) |})
    as [table [E _]].
  { intros k v [H|[]] _. injection H as _ <-. simpl. lra. }
  rewrite E. cbn [bind]. eauto.
Qed.

(** The hypothesis of X14 holds of [results_ab]. *)
Lemma X14_witness :
  exists ranked tables,
    Enhanced.run_report results_ab [] = Ok (ranked, tables)
    /\ (List.length (Enhanced.combo_table tables) <= 5)%nat.
Proof.
  destruct results_ab_report as [ranked [tables H]].
  exists ranked, tables. split; [exact H|].
  exact (proj1 (proj2 (X14_report_shows_five_best _ _ _ _ H))).
Defined.

(** X15: when no generation result with [errors] 0 has an average
    first-token time of 0, the report of [run] is produced, and its first
    table lists every generation backend with [errors] 0, in insertion
    order: also a backend whose average first-token time is below 0.05,
    which is in none of the combinations added by the ranking. *)
Theorem X15_report_lists_unranked_backends results vram_usage :
  PyDict.wf (llm results) -> PyDict.wf (tts results) ->
  PyDict.wf (stt results) ->
  tts_times_positive (tts results) -> stt_times_positive (stt results) ->
  (forall k v, In (k, v) (llm results) -> Llm.errors v = 0%Z ->
               Llm.avg_first_token_time v <> 0%R) ->
  exists ranked tables,
    Enhanced.run_report results vram_usage = Ok (ranked, tables)
    /\ map Enhanced.lr_name (Enhanced.llm_table tables)
       = map fst (error_free_llms results)
    /\ (forall k v,
           In (k, v) (llm results) -> Llm.errors v = 0%Z ->
           (Llm.avg_first_token_time v < 0.05)%R ->
           In k (map Enhanced.lr_name (Enhanced.llm_table tables))
           /\ forall c, In c (combinations ranked) ->
                        In c (combinations results) \/ c_llm c <> k).
Proof.
  intros Wl Wt Ws Pt Ps Hnz.
  unfold Enhanced.run_report.
  rewrite generate_combinations_ok by assumption. cbn [bind].
  set (ranked := {| llm := llm results; tts := tts results;
                    stt := stt results;
                    combinations :=
                      sort_by score (combinations results
                                     ++ new_combinations results) |}).
  destruct (build_llm_table_ok ranked Hnz) as [table [E1 E2]].
  unfold Enhanced._print_results. rewrite E1. cbn [bind].
  eexists. eexists. split; [reflexivity|].
  cbn [Enhanced.llm_table]. split; [exact E2|].
  intros k v Hin He Hlt. split.
  - rewrite E2. unfold error_free_llms.
    apply in_map_iff. exists (k, v). split; [reflexivity|].
    apply filter_In. split; [exact Hin|]. simpl. now apply Z.eqb_eq.
  - intros c Hc. cbn [combinations ranked] in Hc.
    apply (Permutation_in _ (sort_by_perm score _)) in Hc.
    apply in_app_or in Hc. destruct Hc as [Hc|Hc]; [now left|right].
    apply in_new_combinations in Hc.
    destruct Hc as [[lk lv] [t [s [Hl [_ [_ ->]]]]]].
    apply items_in in Hl. destruct Hl as [Hl Hel]. simpl in *.
    apply llm_eligible_spec in Hel. destruct Hel as [_ Havg].
    intros ->.
    assert (lv = v).
    { pose proof (get_in _ _ _ Wl Hin) as G1.
      pose proof (get_in _ _ _ Wl Hl) as G2. congruence. }
    subst. lra.
Qed.

(** The hypotheses of X15 hold of [results_fast], whose backend ["F"] has an
    average first-token time of 0.01. *)
Lemma X15_witness :
  exists ranked tables,
    Enhanced.run_report results_fast [] = Ok (ranked, tables)
    /\ In "F" (map Enhanced.lr_name (Enhanced.llm_table tables))
    /\ forall c, In c (combinations ranked) -> c_llm c <> "F".
Proof.
  destruct results_fast_wf as [W1 [W2 [W3 [P1 P2]]]].
  assert (Hnz : forall k v, In (k, v) (llm results_fast) ->
                            Llm.errors v = 0%Z ->
                            Llm.avg_first_token_time v <> 0%R).
  { intros k v [H|[H|[]]] _; injection H as _ <-; simpl; lra. }
  destruct (X15_report_lists_unranked_backends results_fast []
              W1 W2 W3 P1 P2 Hnz) as [ranked [tables [H1 [_ H3]]]].
  exists ranked, tables. split; [exact H1|].
  destruct (H3 "F" (llm_result "F" 0.01 0)) as [Ha Hb].
  - right. now left.
  - reflexivity.
  - simpl. lra.
  - split; [exact Ha|]. intros c Hc.
    destruct (Hb c Hc) as [Hold|Hne]; [|exact Hne].
    exfalso. exact Hold.
Defined.

(* ------------------------------------------------------------------ *)
(** * The function-calling test driver *)

Lemma fold_test_scenario llm (l : list FunctionCalling.Scenario) :
  forall st,
    let st' := fold_left (fun st s => FunctionCallingRun.test_scenario llm s st)
                         l st in
    map FunctionCallingRun.sr_name (snd st')
    = map FunctionCallingRun.sr_name (snd st) ++ map FunctionCalling.name l
    /\ (fst st' + count_success (snd st)
        = fst st + count_success (snd st'))%nat.
Proof.
  induction l as [|s l IH]; intros st; simpl.
  - rewrite app_nil_r. split; [reflexivity|lia].
  - destruct (IH (FunctionCallingRun.test_scenario llm s st)) as [H1 H2].
    cbv zeta in H1, H2.
    split.
    + rewrite H1. unfold FunctionCallingRun.test_scenario.
      destruct (llm _) as [[chunks t]|e]; simpl;
        rewrite map_app, <- app_assoc; reflexivity.
    + revert H2. unfold FunctionCallingRun.test_scenario, count_success.
      destruct (llm _) as [[chunks t]|e]; simpl.
      * rewrite filter_app, length_app. simpl.
        destruct (FunctionCalling._analyze_function_response _ s);
          simpl; lia.
      * rewrite filter_app, length_app. simpl. lia.
Qed.

(** X16: [test_model_function_calling] records one entry for each scenario,
    in order, also for a scenario on which the backend raises (it counts as
    not detected); [successful_calls] is the number of entries marked as
    successes, and the success rate is that number over the number of
    scenarios, between 0 and 1.  The dictionary with the key ["error"] is
    returned only when the factory raises or there is no scenario. *)
Theorem X16_one_entry_per_scenario create scenarios model_name config :
  match FunctionCallingRun.test_model_function_calling
          create scenarios model_name config with
  | FunctionCallingRun.Tested m k n entries rate =>
      m = model_name
      /\ n = List.length scenarios
      /\ map FunctionCallingRun.sr_name entries
         = map FunctionCalling.name scenarios
      /\ k = count_success entries
      /\ (k <= n)%nat
      /\ rate = (INR k / INR n)%R
      /\ (0 <= rate <= 1)%R
  | FunctionCallingRun.ModelError m n e =>
      m = model_name
      /\ n = List.length scenarios
      /\ (create (PyDict.get_default "type" "ollama" config) config = Raise e
          \/ scenarios = [])
  end.
Proof.
  unfold FunctionCallingRun.test_model_function_calling.
  destruct (create _ config) as [llm|e]; cbn [bind]; [|auto].
  destruct (fold_test_scenario llm scenarios (O, [])) as [H1 H2].
  cbv zeta in H1, H2. simpl in H1, H2.
  set (st := fold_left _ scenarios (O, [])) in *.
  unfold pydiv.
  destruct (Req_dec_T (INR (List.length scenarios)) 0) as [E|E].
  - cbn [bind]. repeat split; auto. right.
    destruct scenarios as [|s0 rest]; [reflexivity|].
    exfalso. pose proof (length_pos_INR (s0 :: rest)) as Hp.
    specialize (Hp ltac:(discriminate)). lra.
  - cbn [bind].
    assert (Hk : fst st = count_success (snd st))
      by (unfold count_success in *; simpl in H2; lia).
    assert (Hle : (fst st <= List.length scenarios)%nat).
    { rewrite Hk. unfold count_success.
      etransitivity; [apply filter_length_le|].
      rewrite <- (length_map FunctionCallingRun.sr_name), H1.
      now rewrite length_map. }
    clearbody st.
    assert (Hpos : (0 < INR (List.length scenarios))%R).
    { destruct (pos_INR (List.length scenarios)) as [Hp|Hp];
        [exact Hp|congruence]. }
    repeat split; auto.
    + apply Rmult_le_reg_r with (INR (List.length scenarios));
        [exact Hpos|].
      unfold Rdiv. rewrite Rmult_assoc, Rinv_l by exact E.
      rewrite Rmult_0_l, Rmult_1_r. apply pos_INR.
    + apply Rmult_le_reg_r with (INR (List.length scenarios));
        [exact Hpos|].
      unfold Rdiv. rewrite Rmult_assoc, Rinv_l by exact E.
      rewrite Rmult_1_l, Rmult_1_r. now apply le_INR.
Qed.

(* ------------------------------------------------------------------ *)
(** * Response snippets *)

Lemma len_app (a b : string) :
  PyStr.len (a ++ b)%string = (PyStr.len a + PyStr.len b)%nat.
Proof.
  induction a as [|c a IH]; [reflexivity|].
  cbn [append PyStr.len]. cbv zeta.
  destruct ((128 <=? nat_of_ascii c) && (nat_of_ascii c <=? 191))%nat;
    rewrite IH; reflexivity.
Qed.

Lemma str_take_len (n : nat) (s : string) :
  PyStr.len (str_take n s) = Nat.min n (PyStr.len s).
Proof.
  revert n. induction s as [|c s IH]; intros n.
  - simpl. now rewrite Nat.min_0_r.
  - cbn [str_take PyStr.len]. cbv zeta.
    destruct ((128 <=? nat_of_ascii c) && (nat_of_ascii c <=? 191))%nat
      eqn:E.
    + cbn [PyStr.len]. cbv zeta. rewrite E. apply IH.
    + destruct n as [|n]; [reflexivity|].
      cbn [PyStr.len]. cbv zeta. rewrite E, IH. reflexivity.
Qed.

Lemma str_take_prefix (n : nat) (s : string) :
  exists rest, s = (str_take n s ++ rest)%string.
Proof.
  revert n. induction s as [|c s IH]; intros n.
  - now exists ""%string.
  - cbn [str_take]. cbv zeta.
    destruct ((128 <=? nat_of_ascii c) && (nat_of_ascii c <=? 191))%nat.
    + destruct (IH n) as [rest Hr]. exists rest. simpl. now rewrite <- Hr.
    + destruct n as [|n].
      * now exists (String c s).
      * destruct (IH n) as [rest Hr]. exists rest. simpl. now rewrite <- Hr.
Qed.

(** X17: the response recorded for a scenario, [response[:200] + "..."]
    when the reply is longer than 200 characters and the reply itself
    otherwise, has at most 203 characters; a reply of at most 200 characters
    is kept whole, and a longer one is cut to its first 200 characters,
    followed by the three dots. *)
Theorem X17_snippet_bounds (n : nat) (s : string) :
  (PyStr.len (snippet n s) <= n + 3)%nat
  /\ ((PyStr.len s <= n)%nat -> snippet n s = s)
  /\ ((n < PyStr.len s)%nat ->
      exists head rest,
        snippet n s = (head ++ "...")%string
        /\ s = (head ++ rest)%string
        /\ PyStr.len head = n).
Proof.
  unfold snippet.
  destruct (Nat.ltb_spec n (PyStr.len s)) as [Hlt|Hge].
  - split; [|split].
    + rewrite len_app, str_take_len. simpl. lia.
    + lia.
    + intros _. destruct (str_take_prefix n s) as [rest Hr].
      exists (str_take n s), rest. repeat split; auto.
      rewrite str_take_len. lia.
  - split; [lia|]. split; [reflexivity|lia].
Qed.

(* ------------------------------------------------------------------ *)
(** * [run_all_tests] and the summary *)

Lemma set_fresh {V : Type} (k : string) (v : V) (d : PyDict.t V) :
  ~ In k (PyDict.keys d) -> PyDict.set k v d = d ++ [(k, v)].
Proof.
  unfold PyDict.keys.
  induction d as [|[k' v'] d IH]; simpl; intros Hn; [reflexivity|].
  destruct (String.eqb_spec k k') as [->|Hne]; [tauto|].
  rewrite IH; [reflexivity|tauto].
Qed.

Lemma fold_left_ext_eq {A B : Type} (f g : A -> B -> A) (l : list B) :
  (forall a b, f a b = g a b) ->
  forall a, fold_left f l a = fold_left g l a.
Proof.
  intros H. induction l as [|b l IH]; intros a; [reflexivity|].
  simpl. now rewrite H, IH.
Qed.

(** X18: from empty results, [run_all_tests] tests exactly the models whose
    configuration has the type ["ollama"], in the order of the
    configuration, and records for each the result of
    [test_model_function_calling] under the name of the model. *)
Theorem X18_only_ollama_models_tested create scenarios llm_configs :
  PyDict.wf llm_configs ->
  FunctionCallingRun.run_all_tests create scenarios llm_configs []
  = map (fun kv =>
           (fst kv,
            FunctionCallingRun.test_model_function_calling
              create scenarios (fst kv) (snd kv)))
        (filter is_ollama llm_configs).
Proof.
  unfold FunctionCallingRun.run_all_tests.
  set (test := fun kv : string * Config =>
                 FunctionCallingRun.test_model_function_calling
                   create scenarios (fst kv) (snd kv)).
  rewrite fold_left_ext_eq with
    (g := fun res kv =>
            if is_ollama kv then PyDict.set (fst kv) (test kv) res else res).
  2: { intros res [k c]. unfold is_ollama, test. cbn [fst snd].
       destruct (PyDict.get "type" c) as [type|]; [|reflexivity].
       destruct (type =? "ollama"); reflexivity. }
  assert (G : forall l res,
             NoDup (PyDict.keys res ++ PyDict.keys l) ->
             fold_left
               (fun res kv =>
                  if is_ollama kv then PyDict.set (fst kv) (test kv) res
                  else res)
               l res
             = res ++ map (fun kv => (fst kv, test kv)) (filter is_ollama l)).
  { induction l as [|kv l IH]; intros res Hnd.
    - simpl. now rewrite app_nil_r.
    - cbn [fold_left filter].
      unfold PyDict.keys in Hnd. cbn [map] in Hnd.
      assert (Hk : ~ In (fst kv) (PyDict.keys res)).
      { intros Hin. apply NoDup_remove_2 in Hnd. apply Hnd.
        apply in_or_app. now left. }
      assert (Hnd' : NoDup (PyDict.keys res ++ PyDict.keys l))
        by (now apply NoDup_remove_1 in Hnd).
      destruct (is_ollama kv); [|now apply IH].
      rewrite set_fresh by exact Hk.
      rewrite IH.
      + cbn [map]. now rewrite <- app_assoc.
      + unfold PyDict.keys. rewrite map_app. cbn [map fst].
        rewrite <- app_assoc. cbn [app].
        apply NoDup_remove_2 in Hnd as Hn2.
        apply (Permutation_NoDup
                 (l := fst kv :: map fst res ++ map fst l)).
        * apply Permutation_middle.
        * constructor; [exact Hn2|exact Hnd']. }
  intros Hwf. rewrite (G llm_configs []); [reflexivity|exact Hwf].
Qed.

(** The hypothesis of X18 holds of a configuration with one model of type
    ["openai"] and one of type ["ollama"]: the second only is tested. *)
Lemma X18_witness :
  PyDict.keys
    (FunctionCallingRun.run_all_tests
       ollama_only FunctionCallingRun.test_scenarios two_model_configs [])
  = ["Local"].
Proof.
  rewrite X18_only_ollama_models_tested by dict_wf. reflexivity.
Defined.

Lemma first_least_split {A : Type} (key : A -> R) (l : list A) :
  l <> [] ->
  exists l1 x l2,
    l = l1 ++ x :: l2
    /\ (forall y, In y l1 -> (key x < key y)%R)
    /\ (forall y, In y l2 -> (key x <= key y)%R).
Proof.
  induction l as [|a t IH]; [congruence|]. intros _.
  destruct t as [|b t'].
  - exists [], a, []. simpl. repeat split; tauto.
  - destruct IH as [t1 [x [t2 [E [H1 H2]]]]]; [discriminate|].
    destruct (Rle_dec (key a) (key x)) as [Hle|Hgt].
    + exists [], a, (b :: t'). split; [reflexivity|].
      split; [intros y []|].
      intros y Hy. rewrite E in Hy. apply in_app_or in Hy.
      destruct Hy as [Hy|[<-|Hy]].
      * specialize (H1 y Hy). lra.
      * exact Hle.
      * specialize (H2 y Hy). lra.
    + exists (a :: t1), x, t2. rewrite E. split; [reflexivity|].
      split; [|exact H2].
      intros y [<-|Hy]; [lra|now apply H1].
Qed.

(** The sorted list starts with the first of the elements of least key. *)
Lemma sort_by_head {A : Type} (key : A -> R) (l1 l2 : list A) (x : A) :
  (forall y, In y l1 -> (key x < key y)%R) ->
  (forall y, In y l2 -> (key x <= key y)%R) ->
  exists rest, sort_by key (l1 ++ x :: l2) = x :: rest.
Proof.
  intros H1 H2. induction l1 as [|a l1 IH].
  - simpl. destruct (sort_by key l2) as [|y rest] eqn:E.
    + now exists [].
    + assert (Hy : In y l2).
      { apply (Permutation_in _ (sort_by_perm key l2)).
        rewrite E. now left. }
      simpl. rewrite Rltb_false by (now apply H2). now exists (y :: rest).
  - destruct IH as [rest E]; [intros; apply H1; now right|].
    simpl. rewrite E. simpl.
    rewrite Rltb_true by (apply H1; now left).
    now exists (insert_by key a rest).
Qed.

(** X19: the best performer of [_generate_summary_report] has the greatest
    success rate of all recorded models, and it is the first recorded among
    the models with that rate. *)
Theorem X19_best_model_is_first_best results :
  results <> [] ->
  exists before best after,
    FunctionCallingRun.best_model results = Some best
    /\ results = before ++ best :: after
    /\ (forall x, In x results ->
                  (FunctionCallingRun.rate_of (snd x)
                   <= FunctionCallingRun.rate_of (snd best))%R)
    /\ (forall x, In x before ->
                  (FunctionCallingRun.rate_of (snd x)
                   < FunctionCallingRun.rate_of (snd best))%R).
Proof.
  intros Hne.
  destruct (first_least_split
              (fun x => (- FunctionCallingRun.rate_of (snd x))%R)
              results Hne) as [l1 [x [l2 [E [H1 H2]]]]].
  exists l1, x, l2.
  destruct (sort_by_head _ l1 l2 x H1 H2) as [rest Hs].
  unfold FunctionCallingRun.best_model, FunctionCallingRun.sorted_results.
  rewrite E, Hs. split; [reflexivity|]. split; [reflexivity|]. split.
  - intros y Hy. apply in_app_or in Hy. destruct Hy as [Hy|[<-|Hy]].
    + specialize (H1 y Hy). simpl in H1. lra.
    + lra.
    + specialize (H2 y Hy). simpl in H2. lra.
  - intros y Hy. specialize (H1 y Hy). simpl in H1. lra.
Qed.

(** The hypothesis of X19 holds of two models with the same rate: the
    first one is the best performer. *)
Lemma X19_witness :
  exists best,
    FunctionCallingRun.best_model
      [("A", FunctionCallingRun.ModelError "A" 8 "ConnectionError");
       ("B", FunctionCallingRun.ModelError "B" 8 "ConnectionError")]
    = Some best
    /\ fst best = "A".
Proof.
  destruct (X19_best_model_is_first_best
              [("A", FunctionCallingRun.ModelError "A" 8 "ConnectionError");
               ("B", FunctionCallingRun.ModelError "B" 8 "ConnectionError")])
    as [before [best [after [H1 [H2 [_ H4]]]]]]; [discriminate|].
  exists best. split; [exact H1|].
  destruct before as [|b before].
  - simpl in H2. injection H2 as <- _. reflexivity.
  - exfalso. simpl in H2. injection H2 as <- H2.
    assert (Hb : In best [("B", FunctionCallingRun.ModelError
                                  "B" 8 "ConnectionError")]).
    { destruct before as [|b' before]; simpl in H2.
      - injection H2 as <- _. now left.
      - injection H2 as _ H2. destruct before; discriminate. }
    destruct Hb as [<-|[]].
    specialize (H4 _ (or_introl eq_refl)). simpl in H4. lra.
Defined.

(** The cases of X17 at a limit of 3 characters. *)
Lemma X17_witness :
  snippet 3 "abc" = "abc" /\ snippet 3 "abcdef" = "abc...".
Proof.
  split.
  - apply (proj1 (proj2 (X17_snippet_bounds 3 "abc"))). simpl. lia.
  - reflexivity.
Defined.

(* ------------------------------------------------------------------ *)
(** * The grid search *)

(** X20: when the version request answers 200 and the model-list request
    answers with another status, the service check of the grid search
    passes without having seen the model list, whatever the model name,
    where the check of [performance_tester_en.py] fails. *)
Theorem X20_grid_check_skips_model_list http base_url s model_name m :
  get_status http (base_url ++ "/api/version")%string = Ok 200%nat ->
  get_status http (base_url ++ "/api/tags")%string = Ok s ->
  s <> 200%nat ->
  GridRun._check_ollama_service http base_url model_name = true
  /\ Enhanced._check_ollama_service http base_url m = false.
Proof.
  intros H1 H2 Hs.
  unfold GridRun._check_ollama_service, Enhanced._check_ollama_service.
  rewrite H1. cbn [bind]. rewrite Nat.eqb_refl.
  cbn [negb]. rewrite H2. cbn [bind].
  destruct (Nat.eqb_spec s 200); [contradiction|]. split; reflexivity.
Qed.

(** The hypotheses of X20 hold of [http_tags_500]. *)
Lemma X20_witness :
  GridRun._check_ollama_service http_tags_500 "http://localhost:11434" None
  = true
  /\ Enhanced._check_ollama_service http_tags_500 "http://localhost:11434"
                                    "llama3:8b"
     = false.
Proof.
  apply (X20_grid_check_skips_model_list http_tags_500
           "http://localhost:11434" 500 None "llama3:8b");
    [reflexivity|reflexivity|discriminate].
Defined.

Lemma grid_tts_trials_silent (tts : TtsBackend) (l : list string) :
  (forall text, exists t, tts text = Ok (t, None)) ->
  forall times sizes,
  exists times',
    GridRun.tts_trials tts l times sizes = Ok (times', sizes)
    /\ List.length times' = (List.length times + List.length l)%nat.
Proof.
  intros H. induction l as [|s l IH]; intros times sizes.
  - exists times. simpl. split; [reflexivity|lia].
  - destruct (H s) as [t Ht]. cbn [GridRun.tts_trials].
    rewrite Ht. cbn [bind fst snd].
    destruct (IH (times ++ [t]) sizes) as [times' [E1 E2]].
    exists times'. split; [exact E1|].
    rewrite E2, length_app. simpl. lia.
Qed.

(** X21: a synthesis backend that never raises and never leaves a file
    gets, from the grid search, a result with [errors] 0 and an average file
    size of 0, the existence of the file not being a condition there; the
    probe of [performance_tester_en.py] returns the failure dictionary for
    the same backend. *)
Theorem X21_grid_tts_ignores_missing_files gext ext self sentences name cfg
        tts :
  GridRun.create_tts_instance gext (PyDict.get "type" cfg) cfg = Ok tts ->
  create_tts_instance ext (PyDict.get_default "type" name cfg) cfg = Ok tts ->
  (forall text, exists t, tts text = Ok (t, None)) ->
  sentences <> [] ->
  (exists r,
      GridRun._test_tts_performance gext sentences name cfg = Some r
      /\ GridRun.tts_errors r = 0%Z
      /\ GridRun.avg_file_size r = 0%R)
  /\ _test_tts_performance ext self name cfg = Failed name K_tts.
Proof.
  intros Hg He Hsilent Hne. split.
  - unfold GridRun._test_tts_performance. rewrite Hg. cbn [bind].
    destruct (grid_tts_trials_silent tts (firstn 3 sentences) Hsilent [] [])
      as [times [E1 E2]].
    rewrite E1. cbn [bind fst snd].
    destruct times as [|t times].
    { exfalso. destruct sentences; [congruence|]. simpl in E2. lia. }
    cbn [Stats.mean Stats.min Stats.max bind].
    eexists. split; [reflexivity|]. split; reflexivity.
  - unfold _test_tts_performance, tts_try.
    destruct (token_not_configured cfg); [reflexivity|].
    rewrite He. cbn [bind].
    destruct (Hsilent "Connection test") as [t Ht]. rewrite Ht.
    reflexivity.
Qed.

(** The hypotheses of X21 hold of [silent_tts]. *)
Lemma X21_witness :
  (exists r,
      GridRun._test_tts_performance
        (grid_ext http_two_models greeting_llm silent_tts)
        GridRun.test_sentences "EdgeTTS" [("type", "edge")]
      = Some r
      /\ GridRun.tts_errors r = 0%Z
      /\ GridRun.avg_file_size r = 0%R)
  /\ _test_tts_performance ext_silent (tester_of ["q1"; "q2"])
                           "EdgeTTS" [("type", "edge")]
     = Failed "EdgeTTS" K_tts.
Proof.
  apply (X21_grid_tts_ignores_missing_files
           (grid_ext http_two_models greeting_llm silent_tts)
           ext_silent (tester_of ["q1"; "q2"]) GridRun.test_sentences
           "EdgeTTS" [("type", "edge")] silent_tts eq_refl eq_refl).
  - intros text. now exists 1%R.
  - discriminate.
Defined.

Lemma grid_fold_test_scenario llm (l : list GridSearch.Scenario) :
  forall st,
    (fst st <= List.length (snd st))%nat ->
    let st' := fold_left (fun st s => GridRun.test_scenario llm s st) l st in
    (fst st' <= List.length (snd st'))%nat
    /\ List.length (snd st') = (List.length (snd st) + List.length l)%nat.
Proof.
  induction l as [|s l IH]; intros st Hst; simpl.
  - split; [exact Hst|lia].
  - destruct (IH (GridRun.test_scenario llm s st)) as [H1 H2].
    + unfold GridRun.test_scenario.
      destruct (llm _) as [x|e]; simpl; rewrite length_app; simpl;
        [destruct (GridSearch._analyze_function_response _ s)|]; lia.
    + cbv zeta in H1, H2. split; [exact H1|].
      rewrite H2. unfold GridRun.test_scenario.
      destruct (llm _) as [x|e]; simpl; rewrite length_app; simpl; lia.
Qed.

Lemma grid_function_calling_ok fts llm :
  fts <> [] ->
  exists fr,
    GridRun._test_function_calling fts llm = Ok fr
    /\ (0 <= GridRun.fc_success_rate fr <= 1)%R
    /\ GridRun.total_tests fr = List.length fts
    /\ List.length (GridRun.scenarios fr) = List.length fts.
Proof.
  intros Hne. unfold GridRun._test_function_calling.
  destruct (grid_fold_test_scenario llm fts (O, [])) as [H1 H2];
    [simpl; lia|].
  cbv zeta in H1, H2. simpl in H2.
  set (st := fold_left _ fts (O, [])) in *. clearbody st.
  pose proof (length_pos_INR fts Hne) as Hpos.
  rewrite pydiv_ok by lra. cbn [bind].
  eexists. split; [reflexivity|]. cbn.
  split; [|split; [reflexivity|exact H2]].
  rewrite H2 in H1.
  split.
  - apply Rmult_le_reg_r with (INR (List.length fts)); [exact Hpos|].
    unfold Rdiv. rewrite Rmult_assoc, Rinv_l by lra.
    rewrite Rmult_0_l, Rmult_1_r. apply pos_INR.
  - apply Rmult_le_reg_r with (INR (List.length fts)); [exact Hpos|].
    unfold Rdiv. rewrite Rmult_assoc, Rinv_l by lra.
    rewrite Rmult_1_l, Rmult_1_r. now apply le_INR.
Qed.

(** X22: the generation probe of the grid search has no survival test: for
    a configuration of type ["ollama"] whose service check passes and whose
    backend is created, one trial that returns is enough for a result with
    [errors] 0; its success rate is the number of trials that returned over
    the number of sentences, which can be below one half, and its function
    calling success rate lies between 0 and 1. *)
Theorem X22_grid_llm_needs_one_trial ext sentences fts llm_name config llm :
  PyDict.get "type" config = Some "ollama" ->
  GridRun._check_ollama_service
    (GridRun.http ext)
    (PyDict.get_default "base_url" "http://localhost:11434" config)
    (PyDict.get "model_name" config) = true ->
  GridRun.create_llm_instance ext (Some "ollama") config = Ok llm ->
  valid_results_of llm sentences <> [] ->
  fts <> [] ->
  exists r,
    GridRun._test_llm_performance ext sentences fts llm_name config = Some r
    /\ Llm.errors (GridRun.stats r) = 0%Z
    /\ Llm.success_rate (GridRun.stats r)
       = (INR (List.length (valid_results_of llm sentences))
          / INR (List.length sentences))%R
    /\ (0 <= GridRun.function_calling_success_rate r <= 1)%R.
Proof.
  intros Ht Hc Hl Hv Hf.
  unfold GridRun._test_llm_performance. rewrite Ht, Hc. cbn [negb].
  rewrite Hl. cbn [bind].
  fold (valid_results_of llm sentences).
  destruct (valid_results_of llm sentences) as [|t v] eqn:Ev; [congruence|].
  unfold GridRun.llm_measure.
  destruct (grid_function_calling_ok fts llm Hf) as [fr [E1 [E2 _]]].
  rewrite E1. cbn [bind]. rewrite !stdev_or_0_ok.
  cbn [map Stats.mean Stats.min Stats.max bind].
  assert (Hs : INR (List.length sentences) <> 0%R).
  { assert (sentences <> []).
    { intros ->. unfold valid_results_of in Ev. discriminate. }
    pose proof (length_pos_INR sentences H). lra. }
  rewrite pydiv_ok by exact Hs. cbn [bind].
  eexists. split; [reflexivity|]. cbn. repeat split; try reflexivity; tauto.
Qed.

Lemma greeting_valid :
  List.length (valid_results_of greeting_llm GridRun.test_sentences) = 1%nat.
Proof. reflexivity. Qed.

(** The hypotheses of X22 hold of [greeting_llm], which answers one of the
    eight sentences: the success rate is one eighth. *)
Lemma X22_witness :
  exists r,
    GridRun._test_llm_performance
      (grid_ext http_two_models greeting_llm silent_tts)
      GridRun.test_sentences GridRun.function_test_scenarios
      "Local" ollama_config
    = Some r
    /\ Llm.success_rate (GridRun.stats r) = (1 / 8)%R.
Proof.
  destruct (X22_grid_llm_needs_one_trial
              (grid_ext http_two_models greeting_llm silent_tts)
              GridRun.test_sentences GridRun.function_test_scenarios
              "Local" ollama_config greeting_llm
              eq_refl eq_refl eq_refl)
    as [r [H1 [_ [H3 _]]]].
  - intros E. pose proof greeting_valid as G. rewrite E in G. discriminate.
  - discriminate.
  - exists r. split; [exact H1|].
    rewrite H3, greeting_valid. simpl. lra.
Defined.

Lemma llm_step_frame ext sentences fts res kv :
  GridRun.tts (GridRun.llm_step ext sentences fts res kv) = GridRun.tts res
  /\ GridRun.combinations (GridRun.llm_step ext sentences fts res kv)
     = GridRun.combinations res
  /\ forall k,
      In k (PyDict.keys (GridRun.llm
                           (GridRun.llm_step ext sentences fts res kv))) ->
      In k (PyDict.keys (GridRun.llm res))
      \/ (k = fst kv /\ PyDict.get "type" (snd kv) = Some "ollama").
Proof.
  unfold GridRun.llm_step.
  destruct (PyDict.get "type" (snd kv)) as [type|] eqn:E; [|auto].
  destruct (String.eqb_spec type "ollama") as [->|Hne].
  - destruct (GridRun._test_llm_performance ext sentences fts (fst kv)
                                            (snd kv)) as [r|]; [|auto].
    cbn. repeat split; auto.
    intros k Hk. apply keys_set in Hk. destruct Hk as [->|Hk]; auto.
  - assert (M : forall (A : Type) (a b : A),
               match type with
               | "ollama" => a
               | _ => b
               end = b).
    { intros A a b.
      repeat match goal with
             | |- match ?t with _ => _ end = _ =>
                 destruct t; try reflexivity
             | |- (if ?c then _ else _) = _ =>
                 destruct c; try reflexivity
             end.
      exfalso. apply Hne. reflexivity. }
    rewrite M. auto.
Qed.

Lemma llm_steps_frame ext sentences fts (l : PyDict.t Config) :
  forall res,
    let res' := fold_left (GridRun.llm_step ext sentences fts) l res in
    GridRun.tts res' = GridRun.tts res
    /\ GridRun.combinations res' = GridRun.combinations res
    /\ forall k,
        In k (PyDict.keys (GridRun.llm res')) ->
        In k (PyDict.keys (GridRun.llm res))
        \/ exists cfg, In (k, cfg) l
                       /\ PyDict.get "type" cfg = Some "ollama".
Proof.
  induction l as [|kv l IH]; intros res; simpl.
  - auto.
  - destruct (IH (GridRun.llm_step ext sentences fts res kv))
      as [H1 [H2 H3]]. cbv zeta in H1, H2, H3.
    destruct (llm_step_frame ext sentences fts res kv) as [F1 [F2 F3]].
    split; [congruence|]. split; [congruence|].
    intros k Hk. apply H3 in Hk. destruct Hk as [Hk|[cfg [Hin Hty]]].
    + apply F3 in Hk. destruct Hk as [Hk|[-> Hty]]; [now left|].
      right. exists (snd kv). split; [left; now destruct kv|exact Hty].
    + right. exists cfg. split; [now right|exact Hty].
Qed.

Lemma tts_steps_frame ext sentences (l : PyDict.t Config) :
  forall res,
    let res' := fold_left (GridRun.tts_step ext sentences) l res in
    GridRun.llm res' = GridRun.llm res
    /\ GridRun.combinations res' = GridRun.combinations res
    /\ forall k,
        In k (PyDict.keys (GridRun.tts res')) ->
        In k (PyDict.keys (GridRun.tts res)) \/ In k (PyDict.keys l).
Proof.
  induction l as [|kv l IH]; intros res; simpl.
  - auto.
  - destruct (IH (GridRun.tts_step ext sentences res kv)) as [H1 [H2 H3]].
    cbv zeta in H1, H2, H3.
    assert (F : GridRun.llm (GridRun.tts_step ext sentences res kv)
                = GridRun.llm res
                /\ GridRun.combinations
                     (GridRun.tts_step ext sentences res kv)
                   = GridRun.combinations res
                /\ forall k,
                    In k (PyDict.keys
                            (GridRun.tts
                               (GridRun.tts_step ext sentences res kv))) ->
                    In k (PyDict.keys (GridRun.tts res)) \/ k = fst kv).
    { unfold GridRun.tts_step.
      destruct (GridRun._test_tts_performance ext sentences (fst kv)
                                              (snd kv)); [|auto].
      cbn. repeat split; auto.
      intros k Hk. apply keys_set in Hk. destruct Hk as [->|Hk]; auto. }
    destruct F as [F1 [F2 F3]].
    split; [congruence|]. split; [congruence|].
    intros k Hk. apply H3 in Hk. destruct Hk as [Hk|Hk]; [|auto].
    apply F3 in Hk. destruct Hk as [Hk | ->]; auto.
Qed.

Lemma length_product {A B C : Type} (f : A -> B -> C) (l1 : list A)
      (l2 : list B) :
  List.length (flat_map (fun a => map (f a) l2) l1)
  = (List.length l1 * List.length l2)%nat.
Proof.
  induction l1 as [|a l1 IH]; [reflexivity|].
  simpl. rewrite length_app, length_map, IH. reflexivity.
Qed.

(** X23: from empty results and with the built-in synthesis models,
    [run_grid_search] tests every pair of a stored generation result and a
    stored synthesis result, once: the number of combination entries is the
    product of the numbers of results; no entry is the dictionary
    ["Configuration not found"]; an entry either names its pair and failed,
    or was timed, with a total time that is the sum of the two times. *)
Theorem X23_grid_tests_every_pair ext sentences fts llm_configs :
  PyDict.wf llm_configs ->
  let out := GridRun.run_grid_search ext sentences fts llm_configs
                                     GridRun.tts_models
                                     GridRun.empty_results in
  List.length (GridRun.combinations out)
  = (List.length (GridRun.llm out) * List.length (GridRun.tts out))%nat
  /\ forall c,
      In c (GridRun.combinations out) ->
      exists llm_name tts_name,
        In llm_name (PyDict.keys (GridRun.llm out))
        /\ In tts_name (PyDict.keys (GridRun.tts out))
        /\ ((exists e, c = GridRun.ComboFailed llm_name tts_name e)
            \/ exists llm_time tts_time n,
                c = GridRun.ComboDone llm_name tts_name llm_time tts_time
                                      (llm_time + tts_time)%R n).
Proof.
  intros Hwf. cbv zeta. unfold GridRun.run_grid_search.
  set (res1 := fold_left (GridRun.llm_step ext sentences fts) llm_configs
                         GridRun.empty_results).
  set (res2 := fold_left (GridRun.tts_step ext sentences) GridRun.tts_models
                         res1).
  destruct (llm_steps_frame ext sentences fts llm_configs
                            GridRun.empty_results) as [L1 [L2 L3]].
  destruct (tts_steps_frame ext sentences GridRun.tts_models res1)
    as [T1 [T2 T3]].
  cbv zeta in L1, L2, L3, T1, T2, T3. fold res1 in L1, L2, L3.
  fold res2 in T1, T2, T3.
  cbn [GridRun.combinations GridRun.llm GridRun.tts].
  assert (Hc : GridRun.combinations res2 = []).
  { rewrite T2, L2. reflexivity. }
  rewrite Hc. cbn [app]. unfold GridRun.combination_tests. split.
  - rewrite length_product. unfold PyDict.keys. now rewrite !length_map.
  - intros c Hin. apply in_flat_map in Hin.
    destruct Hin as [llm_name [Hl Hin]].
    apply in_map_iff in Hin. destruct Hin as [tts_name [<- Ht]].
    exists llm_name, tts_name. split; [exact Hl|]. split; [exact Ht|].
    assert (Hlc : exists cfg,
               PyDict.get llm_name llm_configs = Some cfg
               /\ PyDict.get "type" cfg = Some "ollama").
    { rewrite T1 in Hl. apply L3 in Hl. destruct Hl as [[]|[cfg [Hi Hty]]].
      exists cfg. split; [now apply get_in|exact Hty]. }
    destruct Hlc as [cfg [Hg Hty]].
    assert (Htc : tts_name = "EdgeTTS" \/ tts_name = "EdgeTTS_Fast").
    { apply T3 in Ht. rewrite L1 in Ht. simpl in Ht.
      destruct Ht as [[] | [<- | [<- | []]]]; auto. }
    unfold GridRun._test_combination. rewrite Hg.
    destruct cfg as [|entry cfg]; [discriminate|].
    assert (Hm : exists e0 m, PyDict.get tts_name GridRun.tts_models
                              = Some (e0 :: m)).
    { destruct Htc as [-> | ->]; eexists; eexists; reflexivity. }
    destruct Hm as [e0 [m Hm]]. rewrite Hm.
    destruct (GridRun.create_llm_instance ext _ _) as [llm|e];
      cbn [bind]; [|left; eauto].
    destruct (GridRun.create_tts_instance ext _ _) as [tts|e];
      cbn [bind]; [|left; eauto].
    destruct (llm _) as [st|e]; cbn [bind]; [|left; eauto].
    destruct (tts _) as [sp|e]; cbn [bind]; [|left; eauto].
    right. eauto.
Qed.

(** The hypothesis of X23 holds of a configuration with one model of type
    ["ollama"]. *)
Lemma X23_witness :
  let out := GridRun.run_grid_search
               (grid_ext http_two_models greeting_llm silent_tts)
               GridRun.test_sentences GridRun.function_test_scenarios
               [("Local", ollama_config)] GridRun.tts_models
               GridRun.empty_results in
  List.length (GridRun.combinations out)
  = (List.length (GridRun.llm out) * List.length (GridRun.tts out))%nat.
Proof.
  apply (X23_grid_tests_every_pair
           (grid_ext http_two_models greeting_llm silent_tts)
           GridRun.test_sentences GridRun.function_test_scenarios
           [("Local", ollama_config)]).
  dict_wf.
Defined.

(* ------------------------------------------------------------------ *)
(** * What [run] stores *)

Lemma in_set {V : Type} (k0 : string) (v0 : V) (d : PyDict.t V) k v :
  In (k, v) (PyDict.set k0 v0 d) -> (k = k0 /\ v = v0) \/ In (k, v) d.
Proof.
  induction d as [|[k' v'] d IH]; simpl.
  - intros [[= <- <-]|[]]. now left.
  - destruct (String.eqb_spec k0 k') as [->|Hne]; simpl.
    + intros [[= <- <-]|H]; [now left|right; now right].
    + intros [H|H]; [right; now left|].
      apply IH in H. destruct H; [now left|right; now right].
Qed.

Lemma wf_set {V : Type} (k : string) (v : V) (d : PyDict.t V) :
  PyDict.wf d -> PyDict.wf (PyDict.set k v d).
Proof.
  unfold PyDict.wf, PyDict.keys.
  induction d as [|[k' v'] d IH]; simpl; intros Hnd.
  - constructor; [tauto|constructor].
  - inversion Hnd as [|? ? Hn Hnd']; subst.
    destruct (String.eqb_spec k k') as [->|Hne]; simpl.
    + constructor; assumption.
    + constructor; [|now apply IH].
      intros Hin. apply (keys_set d k v) in Hin.
      destruct Hin as [->|Hin]; [congruence|contradiction].
Qed.

Lemma store_keeps r x :
  results_clean r /\ results_wf r ->
  results_clean (store r x) /\ results_wf (store r x).
Proof.
  intros [[Cl [Ct Cs]] [Wl [Wt Ws]]].
  assert (Keep : results_clean r /\ results_wf r)
    by (split; [exact (conj Cl (conj Ct Cs)) | exact (conj Wl (conj Wt Ws))]).
  unfold store.
  destruct (Z.eqb_spec (errors_of x) 0) as [E|E]; [|exact Keep].
  destruct x as [n t|y|y|y]; simpl in E; [exact Keep| | |].
  - split.
    + split; [|split; assumption]. cbn [llm].
      intros k v H. apply in_set in H. destruct H as [[-> ->]|H]; auto.
    + split; [|split; assumption]. cbn [llm]. now apply wf_set.
  - split.
    + split; [assumption|split; [|assumption]]. cbn [tts].
      intros k v H. apply in_set in H. destruct H as [[-> ->]|H]; auto.
    + split; [assumption|split; [|assumption]]. cbn [tts]. now apply wf_set.
  - split.
    + split; [assumption|split; [assumption|]]. cbn [stt].
      intros k v H. apply in_set in H. destruct H as [[-> ->]|H]; auto.
    + split; [assumption|split; [assumption|]]. cbn [stt]. now apply wf_set.
Qed.

(** X24: the loop of [run] over the probe results keeps [self.results] in
    order: if no dictionary has a key twice and every entry has [errors] 0
    and is stored under its own name, the same holds after the loop.  The
    test [errors == 0] of [_generate_combinations] then never rejects an
    entry. *)
Theorem X24_run_stores_clean_results ext self results :
  results_clean results -> results_wf results ->
  results_clean (collected ext self results)
  /\ results_wf (collected ext self results)
  /\ items tts_eligible (tts (collected ext self results))
     = tts (collected ext self results)
  /\ items stt_eligible (stt (collected ext self results))
     = stt (collected ext self results).
Proof.
  intros Hc Hw. unfold collected.
  assert (G : forall rs r,
             results_clean r /\ results_wf r ->
             results_clean (fold_left store rs r)
             /\ results_wf (fold_left store rs r)).
  { induction rs as [|x rs IH]; intros r H; [exact H|].
    simpl. apply IH. now apply store_keeps. }
  destruct (G (all_results ext self) results (conj Hc Hw)) as [C W].
  split; [exact C|]. split; [exact W|].
  destruct C as [_ [Ct Cs]]. split.
  - unfold items. apply filter_all. intros [k0 v0] H.
    unfold tts_eligible. simpl. apply Z.eqb_eq. now apply (Ct k0 v0).
  - unfold items. apply filter_all. intros [k0 v0] H.
    unfold stt_eligible. simpl. apply Z.eqb_eq. now apply (Cs k0 v0).
Qed.

(** The hypotheses of X24 hold of the results [__init__] sets. *)
Lemma X24_witness :
  results_clean (collected ext_sample tester_bad_good empty_results)
  /\ results_wf (collected ext_sample tester_bad_good empty_results).
Proof.
  assert (Hc : results_clean empty_results)
    by (split; [|split]; intros k v []).
  assert (Hw : results_wf empty_results)
    by (split; [|split]; constructor).
  destruct (X24_run_stores_clean_results ext_sample tester_bad_good
                                         empty_results Hc Hw)
    as [H1 [H2 _]].
  split; assumption.
Defined.

(* ------------------------------------------------------------------ *)
(** * The order of the test sentences *)

Lemma sum_perm (l l' : list R) :
  Permutation l l' -> Stats.sum l = Stats.sum l'.
Proof.
  unfold Stats.sum.
  induction 1 as [|x l l' _ IH|x y l|l l' l'' _ IH1 _ IH2]; simpl; lra.
Qed.

Lemma mean_of_perm (l l' : list R) :
  Permutation l l' -> Stats.mean_of l = Stats.mean_of l'.
Proof.
  intros H. unfold Stats.mean_of.
  now rewrite (sum_perm _ _ H), (Permutation_length H).
Qed.

Lemma stdev_or_0_of_perm (l l' : list R) :
  Permutation l l' -> stdev_or_0_of l = stdev_or_0_of l'.
Proof.
  intros H. unfold stdev_or_0_of, Stats.stdev_of, Stats.ss.
  rewrite (Permutation_length H), (mean_of_perm _ _ H).
  rewrite (sum_perm _ _ (Permutation_map _ H)). reflexivity.
Qed.

Lemma min_of_perm (l l' : list R) :
  Permutation l l' ->
  Stats.min_of (hd 0%R l) (tl l) = Stats.min_of (hd 0%R l') (tl l').
Proof.
  intros H. destruct l as [|x t], l' as [|x' t'].
  - reflexivity.
  - apply Permutation_nil in H. discriminate.
  - apply Permutation_sym, Permutation_nil in H. discriminate.
  - simpl. eapply is_min_unique; [|apply min_of_is_min|apply min_of_is_min].
    intros y. split; apply Permutation_in;
      [exact H|now apply Permutation_sym].
Qed.

Lemma max_of_perm (l l' : list R) :
  Permutation l l' ->
  Stats.max_of (hd 0%R l) (tl l) = Stats.max_of (hd 0%R l') (tl l').
Proof.
  intros H. destruct l as [|x t], l' as [|x' t'].
  - reflexivity.
  - apply Permutation_nil in H. discriminate.
  - apply Permutation_sym, Permutation_nil in H. discriminate.
  - simpl.
    destruct (max_of_is_max x t) as [I1 M1].
    destruct (max_of_is_max x' t') as [I2 M2].
    apply Rle_antisym.
    + apply M2. now apply (Permutation_in _ H).
    + apply M1. now apply (Permutation_in _ (Permutation_sym H)).
Qed.

Lemma filter_perm {A : Type} (f : A -> bool) (l l' : list A) :
  Permutation l l' -> Permutation (filter f l) (filter f l').
Proof.
  induction 1 as [|x l l' _ IH|x y l|l l' l'' _ IH1 _ IH2]; simpl.
  - constructor.
  - destruct (f x); [now constructor|exact IH].
  - destruct (f x), (f y); try reflexivity. constructor.
  - now transitivity (filter f l').
Qed.

Lemma survivors_perm (l l' : list R) :
  Permutation l l' ->
  List.length (survivors l) = List.length (survivors l').
Proof.
  intros H. unfold survivors.
  rewrite (mean_of_perm _ _ H), (stdev_or_0_of_perm _ _ H).
  apply Permutation_length. now apply filter_perm.
Qed.

Lemma not_none_perm {A : Type} (l l' : list (option A)) :
  Permutation l l' -> Permutation (not_none l) (not_none l').
Proof.
  induction 1 as [|x l l' _ IH|x y l|l l' l'' _ IH1 _ IH2]; simpl.
  - constructor.
  - destruct x; [now constructor|exact IH].
  - destruct x, y; try reflexivity. constructor.
  - now transitivity (not_none l').
Qed.

Lemma llm_record_perm n s s' v v' :
  Permutation s s' -> Permutation v v' ->
  llm_record n s v = llm_record n s' v'.
Proof.
  intros Hs Hv. unfold llm_record.
  pose proof (Permutation_map response_time Hv) as Pr.
  pose proof (Permutation_map first_token_time Hv) as Pf.
  pose proof (Permutation_map (fun r => INR (response_length r)) Hv) as Pl.
  pose proof (Permutation_map tokens_per_second Hv) as Pt.
  rewrite (mean_of_perm _ _ Pr), (mean_of_perm _ _ Pf),
    (mean_of_perm _ _ Pl), (mean_of_perm _ _ Pt),
    (min_of_perm _ _ Pr), (min_of_perm _ _ Pf),
    (max_of_perm _ _ Pr), (max_of_perm _ _ Pf),
    (stdev_or_0_of_perm _ _ Pr), (stdev_or_0_of_perm _ _ Pf),
    (Permutation_length Hs), (Permutation_length Hv).
  reflexivity.
Qed.

(** X25: what a generation probe returns does not depend on the order of
    the test sentences: two testers whose sentences are the same up to
    their order get the same result for the same backend. *)
Theorem X25_sentence_order_irrelevant ext self self' n c :
  Permutation (test_sentences self) (test_sentences self') ->
  _test_llm_performance ext self n c = _test_llm_performance ext self' n c.
Proof.
  intros H. unfold _test_llm_performance, llm_try.
  destruct (llm_not_configured ext n c); [reflexivity|].
  destruct (create_llm_instance ext _ c) as [llm|e]; [|reflexivity].
  cbn [bind]. f_equal.
  assert (Hv : Permutation
                 (not_none (map (_test_single_sentence llm)
                                (test_sentences self)))
                 (not_none (map (_test_single_sentence llm)
                                (test_sentences self'))))
    by (apply not_none_perm; now apply Permutation_map).
  rewrite !llm_summary_cases.
  remember (not_none (map (_test_single_sentence llm)
                          (test_sentences self))) as v eqn:Ev.
  remember (not_none (map (_test_single_sentence llm)
                          (test_sentences self'))) as v' eqn:Ev'.
  clear Ev Ev'.
  destruct v as [|t v0], v' as [|t' v0'].
  - reflexivity.
  - apply Permutation_nil in Hv. discriminate.
  - apply Permutation_sym, Permutation_nil in Hv. discriminate.
  - rewrite (survivors_perm _ _ (Permutation_map response_time Hv)).
    rewrite (Permutation_length H).
    rewrite (llm_record_perm n _ _ _ _ H Hv). reflexivity.
Qed.

(** The hypothesis of X25 holds of the two orders of two sentences. *)
Lemma X25_witness :
  _test_llm_performance (ext_of two_speeds_llm) (tester_of ["q1"; "q2"])
                        "M" []
  = _test_llm_performance (ext_of two_speeds_llm) (tester_of ["q2"; "q1"])
                          "M" [].
Proof.
  apply X25_sentence_order_irrelevant. apply perm_swap.
Defined.

(* ------------------------------------------------------------------ *)
(** * One trial *)





(* ------------------------------------------------------------------ *)
(** * The combination table of the grid search *)

(** X27: the combination table of [_print_grid_search_results] shows at
    most ten entries; each is an entry of [self.results["combinations"]]
    that was timed (a failed entry or a ["Configuration not found"] entry is
    never shown); and no entry shown has a greater total time than a timed
    entry that is left out. *)
Theorem X27_grid_report_shows_ten_fastest (res : GridRun.Results) :
  (List.length (GridRun.shown_combinations res) <= 10)%nat
  /\ (forall c,
         In c (GridRun.shown_combinations res) ->
         In c (GridRun.combinations res)
         /\ exists l t lt tt total n,
             c = GridRun.ComboDone l t lt tt total n)
  /\ (forall c c',
         In c (GridRun.shown_combinations res) ->
         In c' (GridRun.combinations res) ->
         GridRun.is_success c' = true ->
         ~ In c' (GridRun.shown_combinations res) ->
         (GridRun.total_time_of c <= GridRun.total_time_of c')%R).
Proof.
  unfold GridRun.shown_combinations.
  set (ok := filter GridRun.is_success (GridRun.combinations res)).
  set (ranked := sort_by GridRun.total_time_of ok).
  assert (P : Permutation ranked ok) by apply sort_by_perm.
  split; [apply firstn_le_length|]. split.
  - intros c Hc.
    assert (Hc' : In c ranked)
      by (rewrite <- (firstn_skipn 10 ranked); apply in_or_app; now left).
    clear Hc. rename Hc' into Hc.
    apply (Permutation_in _ P) in Hc. unfold ok in Hc.
    apply filter_In in Hc. destruct Hc as [Hin Hs].
    split; [exact Hin|].
    destruct c as [|l t lt tt total n|l t e]; try discriminate.
    now exists l, t, lt, tt, total, n.
  - intros c c' Hc Hin Hs Hout.
    assert (Hr : In c' ranked).
    { apply (Permutation_in _ (Permutation_sym P)).
      unfold ok. apply filter_In. now split. }
    rewrite <- (firstn_skipn 10 ranked) in Hr.
    apply in_app_or in Hr. destruct Hr as [Hr|Hr]; [contradiction|].
    exact (sorted_firstn_skipn _ ranked
             (sort_by_sorted GridRun.total_time_of ok) 10 c c' Hc Hr).
Qed.

(** The table of [grid_results_sample] shows its one timed entry. *)
Lemma X27_witness :
  Forall (fun c => In c (GridRun.combinations grid_results_sample))
         (GridRun.shown_combinations grid_results_sample).
Proof.
  apply Forall_forall. intros c Hc.
  exact (proj1 (proj1 (proj2 (X27_grid_report_shows_ten_fastest
                                grid_results_sample)) c Hc)).
Defined.
